(** * Editable table data source: rows, ids and windowed delivery

    A shallow embedding of [table-data-source.ts] (class [TableDataSource])
    and of the row class [TableElementReactiveForms], followed by the
    properties of the row life cycle: id numbering, the single pending row,
    the validity gate of the confirm operations, the constructor-time
    diagnostic, reference-compared data updates and the windowed view.

    JavaScript objects are shared and mutated in place, so row objects live
    in a store ([heap]) and the row array holds references into it. *)

From Stdlib Require Import ZArith Bool String Lia.
From stdpp Require Import base tactics option list.

Local Open Scope Z_scope.

(** ** Plain records *)

Inductive JsValue :=
| JUndefined
| JString (s : string)
| JNumber (n : Z).

(** A record of type [T]: an object with ordered own keys. *)
Definition Obj := list (string * JsValue).

(** [Object.keys(o)] *)
Definition keys (o : Obj) : list string := map fst o.

(** [o[key]] for an own key. *)
Fixpoint getField (key : string) (o : Obj) : option JsValue :=
  match o with
  | [] => None
  | (k, v) :: o' => if String.eqb k key then Some v else getField key o'
  end.

(** ** The validation handle (Angular's [FormGroup], at its interface)

    The handle is an external collaborator.  Only what the sources use is
    modelled: the control names, the raw value, [enable]/[disable], and the
    flags [valid], [enabled], [disabled], which Angular derives from a single
    status.  Asynchronous validators (status PENDING) are left out. *)

Inductive Status := VALID | INVALID | DISABLED.

Record FormGroup := mkFormGroup {
  rawValue : Obj;               (* one entry per control, in control order *)
  status : Status;
  validatorFn : Obj -> bool     (* the synchronous validators of the group *)
}.

Definition controls (fg : FormGroup) : list string := keys (rawValue fg).

Definition fg_valid (fg : FormGroup) : bool :=
  match status fg with VALID => true | _ => false end.

Definition fg_disabled (fg : FormGroup) : bool :=
  match status fg with DISABLED => true | _ => false end.

Definition fg_enabled (fg : FormGroup) : bool := negb (fg_disabled fg).

Definition computeStatus (fg : FormGroup) : Status :=
  if validatorFn fg (rawValue fg) then VALID else INVALID.

Definition enable (fg : FormGroup) : FormGroup :=
  mkFormGroup (rawValue fg) (computeStatus fg) (validatorFn fg).

Definition disable (fg : FormGroup) : FormGroup :=
  mkFormGroup (rawValue fg) DISABLED (validatorFn fg).

Definition getRawValue (fg : FormGroup) : Obj := rawValue fg.

(** [patchValue(data)]: every control named by a key of [data] takes the
    value found there, the others keep theirs; a disabled group stays
    disabled. *)
Definition patchValue (data : Obj) (fg : FormGroup) : FormGroup :=
  let value' :=
    map (fun kv : string * JsValue =>
           match getField (fst kv) data with
           | Some v => (fst kv, v)
           | None => kv
           end) (rawValue fg) in
  let fg' := mkFormGroup value' (status fg) (validatorFn fg) in
  if fg_disabled fg then fg' else mkFormGroup value' (computeStatus fg') (validatorFn fg).

(** ** Rows: [TableElementReactiveForms] *)

Record TableElement := mkTableElement {
  id : Z;
  validator : FormGroup;
  originalData : option Obj
}.

(** [get currentData] *)
Definition currentData (row : TableElement) : Obj := getRawValue (validator row).

(** [set currentData] *)
Definition set_currentData (data : Obj) (row : TableElement) : TableElement :=
  mkTableElement (id row) (patchValue data (validator row)) (originalData row).

(** [get editing] *)
Definition editing (row : TableElement) : bool := fg_enabled (validator row).

(** [set editing] *)
Definition set_editing (value : bool) (row : TableElement) : TableElement :=
  mkTableElement (id row)
    (if value then enable (validator row) else disable (validator row))
    (originalData row).

Definition set_id (value : Z) (row : TableElement) : TableElement :=
  mkTableElement value (validator row) (originalData row).

Definition set_originalData (value : option Obj) (row : TableElement) : TableElement :=
  mkTableElement (id row) (validator row) value.

(** [isValid()] on the handle: the result and the handle it leaves behind. *)
Definition fg_isValid (fg : FormGroup) : bool * FormGroup :=
  if fg_disabled fg then
    let fg1 := enable fg in
    let valid := fg_valid fg1 in
    let fg2 := disable fg1 in
    (valid, fg2)
  else (fg_valid fg, fg).

(** [TableElementReactiveForms.isValid()] *)
Definition isValid (row : TableElement) : bool * TableElement :=
  let '(valid, fg) := fg_isValid (validator row) in
  (valid, mkTableElement (id row) fg (originalData row)).

(** The descriptor handed to the row constructor (the back reference to the
    owning source is not modelled). *)
Record RowInit := mkRowInit {
  init_id : Z;
  init_editing : bool;
  init_currentData : Obj;
  init_validator : FormGroup
}.

(** [new TableElementReactiveForms(init)]: the handle is stored first, then
    [Object.assign] runs the setters in the descriptor's key order: id,
    editing, currentData. *)
Definition new_TableElementReactiveForms (init : RowInit) : TableElement :=
  let row0 := mkTableElement 0 (init_validator init) None in
  let row1 := set_id (init_id init) row0 in
  let row2 := set_editing (init_editing init) row1 in
  set_currentData (init_currentData init) row2.

(** Modelled from the spec: the Row Factory ([table-element.factory.ts] is
    not among the sources) "constructs a Row from a plain descriptor (id,
    editing, data, validation handle, owning source back-reference)". *)
Definition createTableElement (init : RowInit) : TableElement :=
  new_TableElementReactiveForms init.

(** Modelled from the spec: the default Validation Capability
    ([default-validator.service.ts] is not among the sources), "a trivial
    capability with no fields and always-valid semantics". *)
Definition DefaultValidatorService : FormGroup :=
  mkFormGroup [] VALID (fun _ => true).

(** ** JavaScript arrays *)

Section Arrays.
Context {A : Type}.

(** A relative index as [splice] and [slice] read it: negative values count
    from the end, and the result is clamped to [0, len]. *)
Definition relativeIndex (i : Z) (len : nat) : nat :=
  if i <? 0 then Z.to_nat (Z.max (Z.of_nat len + i) 0)
  else Z.to_nat (Z.min i (Z.of_nat len)).

(** [array.splice(start, deleteCount, ...items)], the array afterwards. *)
Definition splice (start deleteCount : Z) (items : list A) (array : list A) : list A :=
  let s := relativeIndex start (length array) in
  let dc := Z.to_nat (Z.min (Z.max deleteCount 0) (Z.of_nat (length array) - Z.of_nat s)) in
  take s array ++ items ++ drop (s + dc) array.

(** [array.slice(start, end)]; [end_ = None] is [array.slice(start)]. *)
Definition slice (start : Z) (end_ : option Z) (array : list A) : list A :=
  let k := relativeIndex start (length array) in
  let final :=
    match end_ with
    | Some e => relativeIndex e (length array)
    | None => length array
    end in
  take (final - k) (drop k array).

(** [array.findIndex(p)]: the first index whose element satisfies [p],
    or -1. *)
Fixpoint findIndex (p : A -> bool) (array : list A) : Z :=
  match array with
  | [] => -1
  | x :: rest =>
      if p x then 0
      else let r := findIndex p rest in if r <? 0 then -1 else r + 1
  end.

(** [clamp] of [@angular/cdk/drag-drop]. *)
Definition clamp (value max : Z) : Z := Z.max 0 (Z.min max value).

(** [moveItemInArray(array, fromIndex, toIndex)] of [@angular/cdk]: both
    indices are clamped into the array, then the element at [from] is taken
    out and put back at [to], the elements in between shifting by one. *)
Definition moveItemInArray (array : list A) (fromIndex toIndex : Z) : list A :=
  let from := clamp fromIndex (Z.of_nat (length array) - 1) in
  let to := clamp toIndex (Z.of_nat (length array) - 1) in
  if from =? to then array
  else
    match array !! Z.to_nat from with
    | Some target =>
        let rest := delete (Z.to_nat from) array in
        take (Z.to_nat to) rest ++ target :: drop (Z.to_nat to) rest
    | None => array
    end.
End Arrays.

(** [keys.toString()]: the elements joined by commas. *)
Definition toString (l : list string) : string := String.concat "," l.

(** ** The data source *)

(** The [config] argument of the constructor: every field is optional. *)
Record TableDataSourceOptions := mkOptions {
  opt_prependNewElements : option bool;
  opt_suppressErrors : option bool;
  opt_keepOriginalDataAfterConfirm : option bool
}.

(** [_config]: the defaults (all false) overridden by the given fields. *)
Record Config := mkConfig {
  prependNewElements : bool;
  suppressErrors : bool;
  keepOriginalDataAfterConfirm : bool
}.

Definition mergeConfig (config : option TableDataSourceOptions) : Config :=
  match config with
  | None => mkConfig false false false
  | Some c =>
      mkConfig (default false (opt_prependNewElements c))
               (default false (opt_suppressErrors c))
               (default false (opt_keepOriginalDataAfterConfirm c))
  end.

(** Record collections ([T[]]) are compared by reference in
    [updateDatasource], so a collection carries its identity: either an array
    the caller made, or one the source built in [getDataFromRows]. *)
Inductive ArrayRef :=
| CallerArray (n : nat)
| OwnArray (n : nat).

Record DataArray := mkDataArray {
  arrayRef : ArrayRef;
  arrayItems : list Obj
}.

Definition ArrayRef_eqb (a b : ArrayRef) : bool :=
  match a, b with
  | CallerArray m, CallerArray n => Nat.eqb m n
  | OwnArray m, OwnArray n => Nat.eqb m n
  | _, _ => false
  end.

(** [this.currentData !== data], where [currentData] starts undefined. *)
Definition differsFrom (held : option ArrayRef) (data : DataArray) : bool :=
  match held with
  | None => true
  | Some r => negb (ArrayRef_eqb r (arrayRef data))
  end.

(** The state of a [TableDataSource].  [heap] stores the row objects and
    [rowsSubject] is the current value of the row channel, an array of
    references into [heap].  The two channels and the console are recorded
    as logs, newest first. *)
Record TableDataSource := mkTableDataSource {
  config : Config;
  dataConstructor : option Obj;        (* what [new dataType()] yields *)
  dataKeys : list string;
  validatorService : FormGroup;        (* what [getRowValidator()] yields, anew at each call *)
  heldData : option ArrayRef;          (* the field [currentData] *)
  heap : list TableElement;
  rowsSubject : list nat;
  rowsEmitted : list (list nat);       (* [rowsSubject.next] calls *)
  datasourceEmitted : list DataArray;  (* [datasourceSubject.next] calls *)
  console : list string;               (* [console.error] calls *)
  ownArrays : nat                      (* arrays built by the source so far *)
}.

Definition with_heap (h : list TableElement) (ds : TableDataSource) : TableDataSource :=
  mkTableDataSource (config ds) (dataConstructor ds) (dataKeys ds) (validatorService ds)
    (heldData ds) h (rowsSubject ds) (rowsEmitted ds) (datasourceEmitted ds)
    (console ds) (ownArrays ds).

(** [this.rowsSubject.next(rows)] *)
Definition rowsSubject_next (rows : list nat) (ds : TableDataSource) : TableDataSource :=
  mkTableDataSource (config ds) (dataConstructor ds) (dataKeys ds) (validatorService ds)
    (heldData ds) (heap ds) rows (rows :: rowsEmitted ds) (datasourceEmitted ds)
    (console ds) (ownArrays ds).

(** [this.datasourceSubject.next(data)] *)
Definition datasourceSubject_next (data : DataArray) (ds : TableDataSource) : TableDataSource :=
  mkTableDataSource (config ds) (dataConstructor ds) (dataKeys ds) (validatorService ds)
    (heldData ds) (heap ds) (rowsSubject ds) (rowsEmitted ds) (data :: datasourceEmitted ds)
    (console ds) (ownArrays ds).

(** [this.currentData = data] *)
Definition with_heldData (r : option ArrayRef) (ds : TableDataSource) : TableDataSource :=
  mkTableDataSource (config ds) (dataConstructor ds) (dataKeys ds) (validatorService ds)
    r (heap ds) (rowsSubject ds) (rowsEmitted ds) (datasourceEmitted ds)
    (console ds) (ownArrays ds).

(** [console.error(message)] *)
Definition console_error (message : string) (ds : TableDataSource) : TableDataSource :=
  mkTableDataSource (config ds) (dataConstructor ds) (dataKeys ds) (validatorService ds)
    (heldData ds) (heap ds) (rowsSubject ds) (rowsEmitted ds) (datasourceEmitted ds)
    (message :: console ds) (ownArrays ds).

(** A new array object made by the source. *)
Definition newOwnArray (items : list Obj) (ds : TableDataSource) : DataArray * TableDataSource :=
  (mkDataArray (OwnArray (ownArrays ds)) items,
   mkTableDataSource (config ds) (dataConstructor ds) (dataKeys ds) (validatorService ds)
     (heldData ds) (heap ds) (rowsSubject ds) (rowsEmitted ds) (datasourceEmitted ds)
     (console ds) (S (ownArrays ds))).

(** [element.id] through a reference. *)
Definition rowId (h : list TableElement) (ref : nat) : option Z := id <$> h !! ref.

(** [element.id === target] *)
Definition hasId (h : list TableElement) (target : Z) (ref : nat) : bool :=
  match rowId h ref with
  | Some i => i =? target
  | None => false
  end.

(** [logError] *)
Definition logError (message : string) (ds : TableDataSource) : TableDataSource :=
  if negb (suppressErrors (config ds)) then console_error message ds else ds.

(** [createNewObject] *)
Definition createNewObject (ds : TableDataSource) : Obj :=
  match dataConstructor ds with
  | Some obj => obj
  | None => fold_left (fun obj key => obj ++ [(key, JUndefined)]) (dataKeys ds) []
  end.

(** The control names of the handle that are not keys of the record:
    [Object.keys(formGroup.controls).filter(key => !rowKeys.some(x => x === key))]. *)
Definition invalidKeys (rowKeys : list string) (formGroup : FormGroup) : list string :=
  List.filter (fun key => negb (existsb (fun x => String.eqb x key) rowKeys))
              (controls formGroup).

(** [checkValidatorFields].  The capability is taken to return a handle, so
    the test [formGroup != null] succeeds. *)
Definition checkValidatorFields (formGroup : FormGroup) (ds : TableDataSource) : TableDataSource :=
  if negb (suppressErrors (config ds)) then ds
  else
    let rowKeys := keys (createNewObject ds) in
    let invalid := invalidKeys rowKeys formGroup in
    if (0 <? Z.of_nat (length invalid)) then
      logError ("Validator form control keys must match row object keys. Invalid keys: "
                  ++ toString invalid) ds
    else ds.

(** [getRowIdFromIndex] *)
Definition getRowIdFromIndex (cfg : Config) (index count : Z) : Z :=
  if prependNewElements cfg then count - 1 - index else index.

(** [getIndexFromRowId] *)
Definition getIndexFromRowId (h : list TableElement) (target : Z) (source : list nat) : Z :=
  findIndex (hasId h target) source.

(** [getNewRowIndex] *)
Definition getNewRowIndex (h : list TableElement) (source : list nat) : Z :=
  getIndexFromRowId h (-1) source.

(** [existsNewElement] *)
Definition existsNewElement (h : list TableElement) (source : list nat) : bool :=
  (0 <? Z.of_nat (length source)) && (getNewRowIndex h source >? -1).

(** One pass of the body of the loop in [updateRowIds]: the row at [index]
    is renumbered unless it is the pending row. *)
Definition renumberAt (cfg : Config) (source : list nat) (index : Z)
    (h : list TableElement) : list TableElement :=
  match source !! Z.to_nat index with
  | Some ref =>
      alter (fun row =>
               if negb (id row =? -1)
               then set_id (getRowIdFromIndex cfg index (Z.of_nat (length source))) row
               else row) ref h
  | None => h
  end.

(** The loop of [updateRowIds],
    [for (index = initialIndex; index < source.length && index >= 0; index += delta)],
    with a bound on the number of iterations. *)
Fixpoint updateRowIds_loop (fuel : nat) (cfg : Config) (source : list nat)
    (index : Z) (h : list TableElement) : list TableElement :=
  match fuel with
  | O => h
  | S fuel' =>
      if (index <? Z.of_nat (length source)) && (index >=? 0) then
        let delta := if prependNewElements cfg then -1 else 1 in
        updateRowIds_loop fuel' cfg source (index + delta) (renumberAt cfg source index h)
      else h
  end.

(** The number of iterations the loop of [updateRowIds] makes from [index]. *)
Definition iterationsLeft (cfg : Config) (source : list nat) (index : Z) : nat :=
  if (index <? Z.of_nat (length source)) && (index >=? 0) then
    if prependNewElements cfg then Z.to_nat (index + 1)
    else Z.to_nat (Z.of_nat (length source) - index)
  else 0.

(** [updateRowIds]: the loop visits every index at most once, so the length
    of the array bounds it (see [updateRowIds_terminates]). *)
Definition updateRowIds (cfg : Config) (initialIndex : Z) (source : list nat)
    (h : list TableElement) : list TableElement :=
  updateRowIds_loop (length source) cfg source initialIndex h.

(** Whether the loop of [updateRowIds], started at [initialIndex], comes by
    the index [i] of the array: in append mode it walks up from
    [initialIndex], in prepend mode down to 0. *)
Definition visits (cfg : Config) (source : list nat) (initialIndex : Z) (i : nat) : bool :=
  (initialIndex <? Z.of_nat (length source)) && (initialIndex >=? 0)
  && (if prependNewElements cfg
      then Z.of_nat i <=? initialIndex
      else initialIndex <=? Z.of_nat i).

(** The callback of [getDataFromRows]'s [map]. *)
Definition rowData (cfg : Config) (row : TableElement) : Obj :=
  match originalData row with
  | Some original =>
      if negb (keepOriginalDataAfterConfirm cfg) then original else currentData row
  | None => currentData row
  end.

(** [getDataFromRows]: the records of the committed rows. *)
Definition getDataFromRows (cfg : Config) (h : list TableElement) (rows : list nat) : list Obj :=
  map (rowData cfg)
      (List.filter (fun row => negb (id row =? -1))
                   (omap (fun ref => h !! ref) rows)).

(** [updateDatasourceFromRows] *)
Definition updateDatasourceFromRows (rows : list nat) (ds : TableDataSource) : TableDataSource :=
  let '(data, ds1) := newOwnArray (getDataFromRows (config ds) (heap ds) rows) ds in
  datasourceSubject_next data (with_heldData (Some (arrayRef data)) ds1).

(** [getRowsFromData]: the row objects built from the records, in order. *)
Definition getRowsFromData (cfg : Config) (validatorService : FormGroup)
    (arrayData : list Obj) : list TableElement :=
  imap (fun index data =>
          createTableElement
            (mkRowInit (getRowIdFromIndex cfg (Z.of_nat index) (Z.of_nat (length arrayData)))
                       false data validatorService))
       arrayData.

(** Fresh objects are put at the end of the store; the result is the store
    and the references of the new objects, in order. *)
Definition allocate (new : list TableElement) (h : list TableElement)
    : list TableElement * list nat :=
  (h ++ new, seq (length h) (length new)).

(** What the constructor does or throws. *)
Inductive Constructed :=
| Built (ds : TableDataSource)
| Thrown (message : string).

(** [new TableDataSource(data, dataType, validatorService, config)] called
    with an array as [data], as the signature [data: T[]] asks;
    [TableDataSource_constructor] below also takes a call without one. *)
Definition new_TableDataSource (data : list Obj) (dataType : option Obj)
    (validatorService : option FormGroup) (config : option TableDataSourceOptions)
    : Constructed :=
  let cfg := mergeConfig config in
  let service := default DefaultValidatorService validatorService in
  let shape :=
    match dataType with
    | Some _ => Some (dataType, [])
    | None =>
        match data with
        | first :: _ => Some (None, keys first)
        | [] => None
        end
    end in
  match shape with
  | None =>
      Thrown "You must define either a non empty array, or an associated class to build the table."
  | Some (dataConstructor, dataKeys) =>
      let ds0 := mkTableDataSource cfg dataConstructor dataKeys service None [] [] [] [] [] 0 in
      let ds1 := checkValidatorFields service ds0 in
      let '(h, rows) := allocate (getRowsFromData cfg service data) (heap ds1) in
      Built (mkTableDataSource cfg dataConstructor dataKeys service None h rows
               [] [] (console ds1) 0)
  end.

(** What a call of the constructor does when [data] may be missing: it
    builds a source, throws the [Error] of its own with a message, or fails
    with the [TypeError] of the call [arrayData.map] on a missing array. *)
Inductive Construction :=
| Constructs (ds : TableDataSource)
| ThrowsError (message : string)
| ThrowsTypeError.

Definition noShapeError : string :=
  "You must define either a non empty array, or an associated class to build the table.".

(** The constructor for any call: [data] is [None] when the caller passes
    [undefined] or [null].  The test [data && data.length > 0] fails for a
    missing array as for an empty one; with a class given the test is not
    reached, and the missing array fails in [getRowsFromData], after
    [checkValidatorFields]. *)
Definition TableDataSource_constructor (data : option (list Obj)) (dataType : option Obj)
    (validatorService : option FormGroup) (config : option TableDataSourceOptions)
    : Construction :=
  let cfg := mergeConfig config in
  let service := default DefaultValidatorService validatorService in
  let shape :=
    match dataType with
    | Some _ => Some (dataType, [])
    | None =>
        match data with
        | Some (first :: _) => Some (None, keys first)
        | Some [] | None => None
        end
    end in
  match shape with
  | None => ThrowsError noShapeError
  | Some (dataConstructor, dataKeys) =>
      let ds0 := mkTableDataSource cfg dataConstructor dataKeys service None [] [] [] [] [] 0 in
      let ds1 := checkValidatorFields service ds0 in
      match data with
      | None => ThrowsTypeError
      | Some arrayData =>
          let '(h, rows) := allocate (getRowsFromData cfg service arrayData) (heap ds1) in
          Constructs (mkTableDataSource cfg dataConstructor dataKeys service None h rows
                        [] [] (console ds1) 0)
      end
  end.

(** The outcome of [new_TableDataSource], read as one of a call. *)
Definition construction (outcome : Constructed) : Construction :=
  match outcome with
  | Built ds => Constructs ds
  | Thrown message => ThrowsError message
  end.

(** [if (insertAt)]: an absent argument and 0 both count as false. *)
Definition truthy (insertAt : option Z) : bool :=
  match insertAt with
  | Some n => negb (n =? 0)
  | None => false
  end.

(** [createNew(insertAt?)] *)
Definition createNew (insertAt : option Z) (ds : TableDataSource) : TableDataSource :=
  let source := rowsSubject ds in
  if negb (existsNewElement (heap ds) source) then
    let newElement :=
      createTableElement (mkRowInit (-1) true (createNewObject ds) (validatorService ds)) in
    let '(h, refs) := allocate [newElement] (heap ds) in
    let ds1 := with_heap h ds in
    if truthy insertAt then
      rowsSubject_next (splice (default 0 insertAt) 0 refs source) ds1
    else if prependNewElements (config ds) then
      rowsSubject_next (refs ++ source) ds1
    else
      rowsSubject_next (source ++ refs) ds1
  else ds.

(** [confirmCreate(row)]; [None] when [row] refers to no row object. *)
Definition confirmCreate (row : nat) (ds : TableDataSource) : option (bool * TableDataSource) :=
  r ← heap ds !! row;
  let '(valid, r1) := isValid r in
  let ds1 := with_heap (<[row := r1]> (heap ds)) ds in
  if negb valid then Some (false, ds1)
  else
    let source := rowsSubject ds1 in
    let ds2 := with_heap (alter (set_id (Z.of_nat (length source) - 1)) row (heap ds1)) ds1 in
    let ds3 := rowsSubject_next source ds2 in
    let ds4 :=
      if keepOriginalDataAfterConfirm (config ds3) then
        with_heap (alter (fun x => set_originalData (Some (currentData x)) x) row (heap ds3)) ds3
      else ds3 in
    let ds5 := with_heap (alter (set_editing false) row (heap ds4)) ds4 in
    Some (true, updateDatasourceFromRows source ds5).

(** [source[index] = row]: a negative index adds a property to the array
    object and leaves its elements alone. *)
Definition assignIndex (index : Z) (row : nat) (source : list nat) : list nat :=
  if index <? 0 then source else <[Z.to_nat index := row]> source.

(** [confirmEdit(row)]; [None] when [row] refers to no row object. *)
Definition confirmEdit (row : nat) (ds : TableDataSource) : option (bool * TableDataSource) :=
  r ← heap ds !! row;
  let '(valid, r1) := isValid r in
  let ds1 := with_heap (<[row := r1]> (heap ds)) ds in
  if negb valid then Some (false, ds1)
  else
    let source := rowsSubject ds1 in
    let index := getIndexFromRowId (heap ds1) (id r1) source in
    let source' := assignIndex index row source in
    let ds2 := rowsSubject_next source' ds1 in
    let ds3 :=
      if negb (keepOriginalDataAfterConfirm (config ds2)) then
        with_heap (alter (set_originalData None) row (heap ds2)) ds2
      else ds2 in
    let ds4 := with_heap (alter (set_editing false) row (heap ds3)) ds3 in
    Some (true, updateDatasourceFromRows source' ds4).

(** [delete(id)] *)
Definition delete_ (target : Z) (ds : TableDataSource) : TableDataSource :=
  let source := rowsSubject ds in
  let index := getIndexFromRowId (heap ds) target source in
  let source' := splice index 1 [] source in
  let ds1 := with_heap (updateRowIds (config ds) index source' (heap ds)) ds in
  let ds2 := rowsSubject_next source' ds1 in
  if negb (target =? -1) then updateDatasourceFromRows source' ds2 else ds2.

(** [move(id, direction)] *)
Definition move (target direction : Z) (ds : TableDataSource) : TableDataSource :=
  if direction =? 0 then ds
  else
    let source := rowsSubject ds in
    let index := getIndexFromRowId (heap ds) target source in
    let source' := moveItemInArray source index (index + direction) in
    let ds1 := with_heap (updateRowIds (config ds) 0 source' (heap ds)) ds in
    let ds2 := rowsSubject_next source' ds1 in
    if negb (target =? -1) then updateDatasourceFromRows source' ds2 else ds2.

(** [getRow(id)] *)
Definition getRow (target : Z) (ds : TableDataSource) : option nat :=
  let source := rowsSubject ds in
  let index := getIndexFromRowId (heap ds) target source in
  if (index >=? 0) && (index <? Z.of_nat (length source))
  then source !! Z.to_nat index else None.

(** [updateDatasource(data, {emitEvent})] *)
Definition updateDatasource (data : DataArray) (emitEvent : bool)
    (ds : TableDataSource) : TableDataSource :=
  if differsFrom (heldData ds) data then
    let ds1 := with_heldData (Some (arrayRef data)) ds in
    let '(h, rows) :=
      allocate (getRowsFromData (config ds1) (validatorService ds1) (arrayItems data))
               (heap ds1) in
    let ds2 := rowsSubject_next rows (with_heap h ds1) in
    if emitEvent then datasourceSubject_next data ds2 else ds2
  else ds.

(** ** Windowed delivery *)

(** [ListRange] of [@angular/cdk/collections]. *)
Record ListRange := mkListRange {
  start : Z;
  end_ : Z
}.

(** The range a viewer starts with in [connect]. *)
Definition initialRange : ListRange := mkListRange 0 (-1).

(** The callback subscribed to [viewChange]: the range object is
    overwritten with every reported range. *)
Definition viewChange (range r : ListRange) : ListRange :=
  mkListRange (start r) (end_ r).

(** The range object after the viewer's reports, oldest first. *)
Definition latestRange (reports : list ListRange) : ListRange :=
  fold_left viewChange reports initialRange.

(** The callback of [map] in [connect]. *)
Definition windowed {A : Type} (range : ListRange) (data : list A) : list A :=
  if start range >? 0 then
    if end_ range >? start range then slice (start range) (Some (end_ range)) data
    else slice (start range) None data
  else data.

(** What the view returned by [connect] delivers for a publication [data]
    made after the viewer's [reports]. *)
Definition delivered {A : Type} (reports : list ListRange) (data : list A) : list A :=
  windowed (latestRange reports) data.

(** *** Viewer bindings

    [connectedViewers]: one entry per [connect] call with a viewer.  A viewer
    is known by its identity; [subscription] tells whether the subscription
    to the viewer's [viewChange] is still open. *)
Record ViewerBinding := mkViewerBinding {
  viewer : nat;
  subscription : bool;
  range : ListRange
}.

(** [connect(collectionViewer)], on the list of bindings: a viewer gets a new
    entry with the initial range; without a viewer nothing is recorded. *)
Definition connect (collectionViewer : option nat) (connectedViewers : list ViewerBinding)
    : list ViewerBinding :=
  match collectionViewer with
  | Some v => connectedViewers ++ [mkViewerBinding v true initialRange]
  | None => connectedViewers
  end.

(** The viewer [v] reports the range [r] on its [viewChange]: every open
    subscription to it runs its callback on its own range object. *)
Definition report (v : nat) (r : ListRange) (connectedViewers : list ViewerBinding)
    : list ViewerBinding :=
  map (fun b =>
         if Nat.eqb (viewer b) v && subscription b
         then mkViewerBinding (viewer b) (subscription b) (viewChange (range b) r)
         else b)
      connectedViewers.

(** [subscription.unsubscribe()] *)
Definition unsubscribe (b : ViewerBinding) : ViewerBinding :=
  mkViewerBinding (viewer b) false (range b).

(** [disconnect(collectionViewer)]: [find] gives the first binding of the
    viewer, whose subscription is closed; the binding stays in the list. *)
Fixpoint disconnect (v : nat) (connectedViewers : list ViewerBinding) : list ViewerBinding :=
  match connectedViewers with
  | [] => []
  | b :: rest =>
      if Nat.eqb (viewer b) v then unsubscribe b :: rest
      else b :: disconnect v rest
  end.

(** What the view returned by the [k]-th [connect] call delivers for a
    publication [data]: the callback of [map] closes over that call's range
    object. *)
Definition deliveredTo {A : Type} (k : nat) (connectedViewers : list ViewerBinding)
    (data : list A) : list A :=
  match connectedViewers !! k with
  | Some b => windowed (range b) data
  | None => data
  end.

(** ** The example component

    [PersonListComponent.ngOnInit] of [person-list.component.ts].  The class
    [Person], the validator service and the environment flag come from files
    that are not among the sources and are taken as arguments; [personList]
    may be undefined. *)
Definition ngOnInit (Person : Obj) (personValidator : FormGroup) (production : bool)
    (personList : option (list Obj)) : Constructed :=
  new_TableDataSource (default [] personList) (Some Person) (Some personValidator)
    (Some (mkOptions (Some false) (Some (negb production)) None)).

(** [row.editing] and [row.originalData] through a reference. *)
Definition rowEditing (h : list TableElement) (ref : nat) : option bool :=
  editing <$> h !! ref.

Definition rowOriginalData (h : list TableElement) (ref : nat) : option (option Obj) :=
  originalData <$> h !! ref.

(** ** Reachable states and the objects of the invariants *)

(** The ids along the row sequence. *)
Definition ids (ds : TableDataSource) : list (option Z) :=
  map (rowId (heap ds)) (rowsSubject ds).

(** The ids of the committed rows, in sequence order. *)
Definition committedIds (ds : TableDataSource) : list Z :=
  List.filter (fun i => negb (i =? -1)) (omap (rowId (heap ds)) (rowsSubject ds)).

(** 0, 1, ..., count-1 *)
Definition ascending (count : nat) : list Z := map Z.of_nat (seq 0 count).

(** Invariant A in its weakest reading: the committed ids are 0..count-1 in
    some order. *)
Definition contiguousIds (ds : TableDataSource) : Prop :=
  committedIds ds ≡ₚ ascending (length (committedIds ds)).

(** Invariant A with the numbering mode: the committed rows, in sequence
    order, are numbered upwards from 0 (append mode) or downwards to 0
    (prepend mode). *)
Definition numberedByMode (ds : TableDataSource) : Prop :=
  committedIds ds =
    if prependNewElements (config ds)
    then reverse (ascending (length (committedIds ds)))
    else ascending (length (committedIds ds)).

(** The number of places of the sequence that hold a pending row. *)
Definition countPending (h : list TableElement) (source : list nat) : nat :=
  length (List.filter (hasId h (-1)) source).

Definition pendingRows (ds : TableDataSource) : nat :=
  countPending (heap ds) (rowsSubject ds).

(** No row object becomes pending from [h] to [h'], and none is added. *)
Definition noNewPending (h h' : list TableElement) : Prop :=
  length h' = length h
  /\ forall x, hasId h' (-1) x = true -> hasId h (-1) x = true.

(** Every reference of the sequence denotes a row object. *)
Definition wellFormed (ds : TableDataSource) : Prop :=
  Forall (fun ref => (ref < length (heap ds))%nat) (rowsSubject ds).

(** The states a data source goes through: built by the constructor, then
    changed by its public operations.  The confirm operations are called
    on a row object that exists. *)
Inductive reachable : TableDataSource -> Prop :=
| reach_new data dataType service options ds :
    new_TableDataSource data dataType service options = Built ds ->
    reachable ds
| reach_createNew insertAt ds :
    reachable ds -> reachable (createNew insertAt ds)
| reach_confirmCreate row ds result ds' :
    reachable ds -> confirmCreate row ds = Some (result, ds') -> reachable ds'
| reach_confirmEdit row ds result ds' :
    reachable ds -> confirmEdit row ds = Some (result, ds') -> reachable ds'
| reach_delete target ds :
    reachable ds -> reachable (delete_ target ds)
| reach_move target direction ds :
    reachable ds -> reachable (move target direction ds)
| reach_updateDatasource data emitEvent ds :
    reachable ds -> reachable (updateDatasource data emitEvent ds).

(** The collection held in [currentData] is the one published last on the
    record-output channel. *)
Definition heldLatest (ds : TableDataSource) : Prop :=
  exists d rest, datasourceEmitted ds = d :: rest /\ heldData ds = Some (arrayRef d).

(** Every committed row of the sequence has the id that [getRowIdFromIndex]
    gives to its index, as [updateRowIds] assigns it. *)
Definition idsFollowIndex (ds : TableDataSource) : Prop :=
  forall (j ref : nat) (v : Z),
    rowsSubject ds !! j = Some ref ->
    rowId (heap ds) ref = Some v ->
    v <> -1 ->
    v = getRowIdFromIndex (config ds) (Z.of_nat j) (Z.of_nat (length (rowsSubject ds))).

(** A sequence of distinct row objects, numbered by their indices. *)
Definition tidy (ds : TableDataSource) : Prop :=
  wellFormed ds /\ NoDup (rowsSubject ds) /\ idsFollowIndex ds.

(** Where [createNew] puts the pending row when no position is given. *)
Definition defaultIndex (ds : TableDataSource) : nat :=
  if prependNewElements (config ds) then 0%nat else (length (rowsSubject ds) - 1)%nat.

(** The states reached when the source is used in these ways only: rows are
    created without a position and confirmed at the default position, only
    committed rows of the sequence are confirmed as edited, rows are moved
    in append mode only, and in prepend mode the row that is deleted exists
    and is not the last of the sequence. *)
Inductive orderly : TableDataSource -> Prop :=
| orderly_new data dataType service options ds :
    new_TableDataSource data dataType service options = Built ds ->
    orderly ds
| orderly_createNew insertAt ds :
    orderly ds -> truthy insertAt = false -> orderly (createNew insertAt ds)
| orderly_confirmCreate row ds result ds' :
    orderly ds ->
    rowsSubject ds !! defaultIndex ds = Some row ->
    confirmCreate row ds = Some (result, ds') ->
    orderly ds'
| orderly_confirmEdit row i r ds result ds' :
    orderly ds ->
    rowsSubject ds !! i = Some row ->
    heap ds !! row = Some r ->
    id r <> -1 ->
    confirmEdit row ds = Some (result, ds') ->
    orderly ds'
| orderly_delete target ds :
    orderly ds ->
    prependNewElements (config ds) = false
    \/ 0 <= getIndexFromRowId (heap ds) target (rowsSubject ds)
          < Z.of_nat (length (rowsSubject ds)) - 1 ->
    orderly (delete_ target ds)
| orderly_move target direction ds :
    orderly ds ->
    prependNewElements (config ds) = false ->
    orderly (move target direction ds)
| orderly_updateDatasource data emitEvent ds :
    orderly ds -> orderly (updateDatasource data emitEvent ds).

(** The row object that [confirmCreate] leaves, in a sequence of [count]
    rows, and the one that [confirmEdit] leaves. *)
Definition createConfirmed (cfg : Config) (count : nat) (r : TableElement) : TableElement :=
  let r1 := set_id (Z.of_nat count - 1) r in
  let r2 := if keepOriginalDataAfterConfirm cfg
            then set_originalData (Some (currentData r1)) r1 else r1 in
  set_editing false r2.

Definition editConfirmed (cfg : Config) (r : TableElement) : TableElement :=
  let r1 := if negb (keepOriginalDataAfterConfirm cfg)
            then set_originalData None r else r in
  set_editing false r1.

(** ** Sample inputs *)

Definition person (name : string) (age : Z) : Obj :=
  [("name"%string, JString name); ("age"%string, JNumber age)].

(** A handle with the controls [name] and [age] that requires a name. *)
Definition personForm : FormGroup :=
  mkFormGroup [("name"%string, JUndefined); ("age"%string, JUndefined)] VALID
    (fun value =>
       match getField "name" value with
       | Some (JString _) => true
       | _ => false
       end).

Definition threePersons : list Obj := [person "A" 1; person "B" 2; person "C" 3].

Definition emptySource : TableDataSource :=
  mkTableDataSource (mergeConfig None) None [] DefaultValidatorService None [] [] [] [] [] 0.

Definition built (c : Constructed) : TableDataSource :=
  match c with
  | Built ds => ds
  | Thrown _ => emptySource
  end.

Definition prependMode : TableDataSourceOptions := mkOptions (Some true) None None.

(** Three rows in append mode, and in prepend mode. *)
Definition appendSource : TableDataSource :=
  built (new_TableDataSource threePersons None (Some personForm) None).

Definition prependSource : TableDataSource :=
  built (new_TableDataSource threePersons None (Some personForm) (Some prependMode)).

(** [appendSource] with a pending row, whose name is still undefined. *)
Definition pendingSource : TableDataSource := createNew None appendSource.

(** A handle with a control, [email], that the person records do not have. *)
Definition contactForm : FormGroup :=
  mkFormGroup [("name"%string, JUndefined); ("email"%string, JUndefined)] VALID
    (fun _ => true).

Definition errorsSuppressed : TableDataSourceOptions := mkOptions None (Some true) None.

(** Three rows whose handle accepts any value, and the same with a pending
    row. *)
Definition contactSource : TableDataSource :=
  built (new_TableDataSource threePersons None (Some contactForm) None).

Definition pendingContact : TableDataSource := createNew None contactSource.

(** Comparisons of integers that the code tests, as propositions. *)
Ltac zbool :=
  repeat match goal with
  | H : (_ <? _) = true |- _ => apply Z.ltb_lt in H
  | H : (_ <? _) = false |- _ => apply Z.ltb_ge in H
  | H : (_ >? _) = true |- _ => apply Z.gtb_lt in H
  | H : (_ >? _) = false |- _ => rewrite Z.gtb_ltb in H; apply Z.ltb_ge in H
  | H : (_ >=? _) = true |- _ => rewrite Z.geb_leb in H; apply Z.leb_le in H
  | H : (_ >=? _) = false |- _ => rewrite Z.geb_leb in H; apply Z.leb_gt in H
  | H : (_ <=? _) = true |- _ => apply Z.leb_le in H
  | H : (_ <=? _) = false |- _ => apply Z.leb_gt in H
  | H : (_ =? _) = true |- _ => apply Z.eqb_eq in H
  | H : (_ =? _) = false |- _ => apply Z.eqb_neq in H
  end.

(** ** The validity check of a row *)

Lemma with_heap_same (ds : TableDataSource) : with_heap (heap ds) ds = ds.
Proof. by destruct ds. Qed.

Lemma disable_enable (fg : FormGroup) :
  fg_disabled fg = true -> disable (enable fg) = fg.
Proof.
  destruct fg as [value st fn]; unfold fg_disabled, disable, enable; simpl.
  by destruct st.
Qed.

Lemma enable_enabled (fg : FormGroup) : fg_enabled (enable fg) = true.
Proof.
  unfold fg_enabled, fg_disabled, enable, computeStatus; simpl.
  by destruct (validatorFn fg (rawValue fg)).
Qed.

Lemma fg_isValid_handle (fg : FormGroup) : (fg_isValid fg).2 = fg.
Proof.
  unfold fg_isValid.
  destruct (fg_disabled fg) eqn:Hd; simpl; [by apply disable_enable | done].
Qed.

Lemma isValid_row (row : TableElement) : (isValid row).2 = row.
Proof.
  unfold isValid.
  pose proof (fg_isValid_handle (validator row)) as Hfg.
  destruct (fg_isValid (validator row)) as [valid fg]; simpl in *; subst fg.
  by destruct row.
Qed.

(** C8: [isValid()] leaves the validation handle as it found it, so
    enabled stays enabled and disabled stays disabled, and the value it
    returns is the [valid] flag read on the handle while it is enabled: on the
    handle itself when it is enabled on entry, after [enable()] otherwise. *)
Theorem isValid_transient (row : TableElement) :
  let handle :=
    if fg_disabled (validator row) then enable (validator row) else validator row in
  validator (isValid row).2 = validator row
  /\ fg_disabled (validator (isValid row).2) = fg_disabled (validator row)
  /\ editing (isValid row).2 = editing row
  /\ fg_enabled handle = true
  /\ (isValid row).1 = fg_valid handle.
Proof.
  simpl. rewrite isValid_row. repeat split.
  - destruct (fg_disabled (validator row)) eqn:Hd; [apply enable_enabled |].
    unfold fg_enabled. by rewrite Hd.
  - unfold isValid, fg_isValid.
    by destruct (fg_disabled (validator row)).
Qed.

(** ** The validity gate of the confirm operations *)

(** C3: when the row's validity check fails, [confirmCreate] and
    [confirmEdit] return false and leave the whole state of the data source
    as it was: every row object (so the row's editing flag, data and id),
    the row sequence, and both channels, on which nothing is published. *)
Theorem confirm_invalid_unchanged (ds : TableDataSource) (row : nat) (r : TableElement) :
  heap ds !! row = Some r ->
  (isValid r).1 = false ->
  confirmCreate row ds = Some (false, ds)
  /\ confirmEdit row ds = Some (false, ds).
Proof.
  intros Hrow Hinvalid.
  pose proof (isValid_row r) as Hsame.
  unfold confirmCreate, confirmEdit. rewrite Hrow. simpl.
  destruct (isValid r) as [valid r1]; simpl in *; subst.
  by rewrite list_insert_id, with_heap_same.
Qed.

Lemma confirm_invalid_unchanged_witness :
  confirmCreate 3 pendingSource = Some (false, pendingSource)
  /\ confirmEdit 3 pendingSource = Some (false, pendingSource).
Proof.
  eapply confirm_invalid_unchanged; reflexivity.
Defined.

(** ** Array lookups *)

Lemma findIndex_lower {A : Type} (p : A -> bool) (l : list A) : -1 <= findIndex p l.
Proof.
  induction l as [|x l IH]; simpl; [lia |].
  destruct (p x); [lia |].
  destruct (findIndex p l <? 0) eqn:Hneg; lia.
Qed.

Lemma findIndex_upper {A : Type} (p : A -> bool) (l : list A) :
  findIndex p l < Z.of_nat (length l).
Proof.
  induction l as [|x l IH]; simpl; [lia |].
  destruct (p x); [lia |].
  destruct (findIndex p l <? 0) eqn:Hneg; lia.
Qed.

Lemma findIndex_none {A : Type} (p : A -> bool) (l : list A) :
  Forall (fun x => p x = false) l -> findIndex p l = -1.
Proof.
  induction 1 as [|x l Hx _ IH]; simpl; [done |].
  by rewrite Hx, IH.
Qed.

Lemma findIndex_none_inv {A : Type} (p : A -> bool) (l : list A) :
  findIndex p l = -1 -> List.filter p l = [].
Proof.
  induction l as [|x l IH]; simpl; [done |].
  destruct (p x); [lia |].
  pose proof (findIndex_lower p l).
  destruct (findIndex p l <? 0) eqn:Hneg; [intros _; apply IH | ]; lia.
Qed.

Lemma findIndex_found {A : Type} (p : A -> bool) (l : list A) :
  0 <= findIndex p l ->
  exists x, l !! Z.to_nat (findIndex p l) = Some x /\ p x = true.
Proof.
  induction l as [|x l IH]; simpl; [lia |].
  destruct (p x) eqn:Hp; [intros _; by exists x |].
  destruct (findIndex p l <? 0) eqn:Hneg; [lia |].
  intros _. destruct IH as (y & Hy & Hpy); [lia |].
  exists y. split; [| done].
  replace (Z.to_nat (findIndex p l + 1)) with (S (Z.to_nat (findIndex p l))) by lia.
  done.
Qed.

Lemma splice_last {A : Type} (l : list A) :
  l <> [] -> splice (-1) 1 [] l = removelast l.
Proof.
  intros Hne. unfold splice, relativeIndex. simpl.
  assert (0 < length l)%nat by (destruct l; simpl; [done | lia]).
  replace (Z.to_nat (Z.max (Z.of_nat (length l) + -1) 0)) with (length l - 1)%nat by lia.
  replace (Z.to_nat (Z.min (Z.max 1 0) (Z.of_nat (length l) - Z.of_nat (length l - 1))))
    with 1%nat by lia.
  replace (length l - 1 + 1)%nat with (length l) by lia.
  rewrite drop_all, app_nil_r.
  destruct (exists_last Hne) as (l' & x & ->).
  rewrite removelast_last, length_app. simpl.
  replace (length l' + 1 - 1)%nat with (length l') by lia.
  by rewrite take_app_length.
Qed.

(** ** The renumbering loop ends *)

Lemma updateRowIds_loop_outside (fuel : nat) (cfg : Config) (source : list nat)
    (index : Z) (h : list TableElement) :
  index < 0 \/ Z.of_nat (length source) <= index ->
  updateRowIds_loop fuel cfg source index h = h.
Proof.
  intros Hout. destruct fuel; simpl; [done |].
  destruct (index <? Z.of_nat (length source)) eqn:H1;
    destruct (index >=? 0) eqn:H2; simpl; try done; lia.
Qed.

Lemma iterationsLeft_bound (cfg : Config) (source : list nat) (index : Z) :
  (iterationsLeft cfg source index <= length source)%nat.
Proof.
  unfold iterationsLeft.
  destruct (index <? Z.of_nat (length source)) eqn:Hlt;
    destruct (index >=? 0) eqn:Hge; simpl; zbool; try lia.
  destruct (prependNewElements cfg); lia.
Qed.

Lemma iterationsLeft_next (cfg : Config) (source : list nat) (index : Z) :
  index < Z.of_nat (length source) -> 0 <= index ->
  iterationsLeft cfg source index =
    S (iterationsLeft cfg source (index + (if prependNewElements cfg then -1 else 1))).
Proof.
  intros Hlt Hge. unfold iterationsLeft.
  destruct (index <? Z.of_nat (length source)) eqn:Hlt';
    destruct (index >=? 0) eqn:Hge'; zbool; try lia. simpl.
  destruct (prependNewElements cfg);
    destruct (_ <? Z.of_nat (length source)) eqn:Hlt'';
    destruct (_ >=? 0) eqn:Hge''; zbool; simpl; lia.
Qed.

(** Any bound that covers the iterations left gives the same store: with
    such a bound the loop ends because its condition fails. *)
Lemma updateRowIds_loop_enough (cfg : Config) (source : list nat) (fuel fuel' : nat)
    (index : Z) (h : list TableElement) :
  (iterationsLeft cfg source index <= fuel)%nat ->
  (iterationsLeft cfg source index <= fuel')%nat ->
  updateRowIds_loop fuel cfg source index h = updateRowIds_loop fuel' cfg source index h.
Proof.
  revert fuel' index h. induction fuel as [|fuel IH]; intros fuel' index h Hfuel Hfuel'.
  - assert (Hzero : iterationsLeft cfg source index = 0%nat) by lia.
    destruct fuel'; simpl; [done |].
    destruct (index <? Z.of_nat (length source)) eqn:Hlt;
      destruct (index >=? 0) eqn:Hge; simpl; try done.
    zbool. rewrite iterationsLeft_next in Hzero by lia. lia.
  - simpl.
    destruct (index <? Z.of_nat (length source)) eqn:Hlt;
      destruct (index >=? 0) eqn:Hge; simpl.
    2-4: zbool; by rewrite updateRowIds_loop_outside by lia.
    zbool. rewrite iterationsLeft_next in Hfuel, Hfuel' by lia.
    destruct fuel' as [|fuel']; [lia |]. simpl.
    destruct (index <? Z.of_nat (length source)) eqn:Hlt';
      destruct (index >=? 0) eqn:Hge'; zbool; try lia. simpl.
    apply IH; lia.
Qed.

(** [updateRowIds] runs its loop to the end: a larger bound changes
    nothing. *)
Lemma updateRowIds_terminates (cfg : Config) (initialIndex : Z) (source : list nat)
    (h : list TableElement) (fuel : nat) :
  (length source <= fuel)%nat ->
  updateRowIds_loop fuel cfg source initialIndex h = updateRowIds cfg initialIndex source h.
Proof.
  intros Hfuel. unfold updateRowIds.
  pose proof (iterationsLeft_bound cfg source initialIndex).
  apply updateRowIds_loop_enough; lia.
Qed.

(** ** What the renumbering loop does *)

Lemma rowId_renumberAt (cfg : Config) (source : list nat) (index : Z)
    (h : list TableElement) (ref x : nat) (v : Z) :
  source !! Z.to_nat index = Some ref ->
  rowId h x = Some v ->
  rowId (renumberAt cfg source index h) x =
    Some (if decide (x = ref)
          then if v =? -1 then v
               else getRowIdFromIndex cfg index (Z.of_nat (length source))
          else v).
Proof.
  intros Href Hx. unfold renumberAt. rewrite Href. unfold rowId in *.
  destruct (decide (x = ref)) as [->|Hne].
  - rewrite list_lookup_alter_eq.
    destruct (h !! ref) as [row|]; simpl in *; [| done].
    injection Hx as <-. by destruct (id row =? -1).
  - by rewrite list_lookup_alter_ne.
Qed.

Lemma visits_outside (cfg : Config) (source : list nat) (index : Z) (i : nat) :
  index < 0 \/ Z.of_nat (length source) <= index -> visits cfg source index i = false.
Proof.
  intros Hout. unfold visits.
  destruct (index <? Z.of_nat (length source)) eqn:Hlt;
    destruct (index >=? 0) eqn:Hge; simpl; try done.
  zbool. lia.
Qed.

Lemma visits_here (cfg : Config) (source : list nat) (i : nat) :
  (i < length source)%nat -> visits cfg source (Z.of_nat i) i = true.
Proof.
  intros Hi. unfold visits.
  destruct (Z.of_nat i <? Z.of_nat (length source)) eqn:Hlt;
    destruct (Z.of_nat i >=? 0) eqn:Hge; zbool; try lia. simpl.
  destruct (prependNewElements cfg); apply Z.leb_le; lia.
Qed.

Lemma visits_next (cfg : Config) (source : list nat) (index : Z) (i : nat) :
  (i < length source)%nat ->
  0 <= index < Z.of_nat (length source) ->
  Z.of_nat i <> index ->
  visits cfg source (index + (if prependNewElements cfg then -1 else 1)) i
  = visits cfg source index i.
Proof.
  intros Hi Hindex Hne. unfold visits.
  destruct (prependNewElements cfg);
    repeat match goal with
           | |- context [?a <? ?b] => destruct (Z.ltb_spec a b)
           | |- context [?a <=? ?b] => destruct (Z.leb_spec a b)
           | |- context [?a >=? ?b] => rewrite (Z.geb_leb a b)
           end; simpl; try done; lia.
Qed.

(** The id of the row at index [i] of a duplicate-free array after the
    loop: renumbered by its index if the loop comes by [i] and the row is
    not the pending one, and as before otherwise. *)
Lemma updateRowIds_loop_spec (fuel : nat) (cfg : Config) (source : list nat)
    (index : Z) (h : list TableElement) (i ref : nat) (v : Z) :
  NoDup source ->
  (iterationsLeft cfg source index <= fuel)%nat ->
  source !! i = Some ref ->
  rowId h ref = Some v ->
  rowId (updateRowIds_loop fuel cfg source index h) ref =
    Some (if visits cfg source index i && negb (v =? -1)
          then getRowIdFromIndex cfg (Z.of_nat i) (Z.of_nat (length source))
          else v).
Proof.
  intros Hnodup. revert index h v.
  induction fuel as [|fuel IH]; intros index h v Hfuel Hi Hv.
  - simpl. rewrite visits_outside; [done |].
    destruct (decide (index < 0)); [by left |].
    destruct (decide (Z.of_nat (length source) <= index)); [by right |].
    rewrite iterationsLeft_next in Hfuel by lia. lia.
  - simpl.
    destruct (index <? Z.of_nat (length source)) eqn:Hlt;
      destruct (index >=? 0) eqn:Hge; simpl; zbool.
    2-4: by rewrite visits_outside by lia.
    rewrite iterationsLeft_next in Hfuel by lia.
    destruct (lookup_lt_is_Some_2 source (Z.to_nat index)) as [ref' Href']; [lia |].
    pose proof (rowId_renumberAt cfg source index h ref' ref v Href' Hv) as Hstep.
    assert (Hlen : (i < length source)%nat) by (by eapply lookup_lt_Some).
    destruct (decide (ref = ref')) as [->|Hne].
    + assert (Z.to_nat index = i) as Hsame by (by eapply NoDup_lookup).
      assert (Hfuel' : (iterationsLeft cfg source
                          (index + (if prependNewElements cfg then -1 else 1)) <= fuel)%nat)
        by lia.
      rewrite (IH _ _ _ Hfuel' Hi Hstep).
      replace index with (Z.of_nat i) by lia.
      rewrite visits_here by done.
      replace (visits cfg source _ i) with false; [by destruct (v =? -1) |].
      symmetry. unfold visits.
      destruct (prependNewElements cfg);
        repeat match goal with
               | |- context [?a <? ?b] => destruct (Z.ltb_spec a b)
               | |- context [?a <=? ?b] => destruct (Z.leb_spec a b)
               | |- context [?a >=? ?b] => rewrite (Z.geb_leb a b)
               end; simpl; try done; lia.
    + assert (Z.of_nat i <> index).
      { intros <-. rewrite Nat2Z.id in Href'. congruence. }
      assert (Hfuel' : (iterationsLeft cfg source
                          (index + (if prependNewElements cfg then -1 else 1)) <= fuel)%nat)
        by lia.
      rewrite (IH _ _ _ Hfuel' Hi Hstep).
      by rewrite visits_next by (done || lia).
Qed.

Lemma updateRowIds_spec (cfg : Config) (initialIndex : Z) (source : list nat)
    (h : list TableElement) (i ref : nat) (v : Z) :
  NoDup source ->
  source !! i = Some ref ->
  rowId h ref = Some v ->
  rowId (updateRowIds cfg initialIndex source h) ref =
    Some (if visits cfg source initialIndex i && negb (v =? -1)
          then getRowIdFromIndex cfg (Z.of_nat i) (Z.of_nat (length source))
          else v).
Proof.
  intros. apply updateRowIds_loop_spec; try done.
  apply iterationsLeft_bound.
Qed.

(** ** Publications of the operations *)

Lemma rowsEmitted_updateDatasourceFromRows (rows : list nat) (ds : TableDataSource) :
  rowsEmitted (updateDatasourceFromRows rows ds) = rowsEmitted ds
  /\ rowsSubject (updateDatasourceFromRows rows ds) = rowsSubject ds
  /\ heap (updateDatasourceFromRows rows ds) = heap ds
  /\ datasourceEmitted (updateDatasourceFromRows rows ds) =
       mkDataArray (OwnArray (ownArrays ds)) (getDataFromRows (config ds) (heap ds) rows)
         :: datasourceEmitted ds.
Proof. done. Qed.

(** C10: when no row of a non-empty sequence has the given id, the lookup
    yields -1 and [delete(id)] removes the last row of the sequence, changes
    no row object (no id is reassigned), publishes the shortened sequence
    on the row channel and, when the id is not -1, the records on the
    record-output channel. *)
Theorem delete_absent_id (ds : TableDataSource) (target : Z) :
  rowsSubject ds <> [] ->
  Forall (fun ref => rowId (heap ds) ref <> Some target) (rowsSubject ds) ->
  let ds' := delete_ target ds in
  getIndexFromRowId (heap ds) target (rowsSubject ds) = -1
  /\ rowsSubject ds' = removelast (rowsSubject ds)
  /\ heap ds' = heap ds
  /\ rowsEmitted ds' = removelast (rowsSubject ds) :: rowsEmitted ds
  /\ datasourceEmitted ds' =
       if target =? -1 then datasourceEmitted ds
       else mkDataArray (OwnArray (ownArrays ds))
              (getDataFromRows (config ds) (heap ds) (removelast (rowsSubject ds)))
              :: datasourceEmitted ds.
Proof.
  intros Hne Habsent.
  assert (Hindex : getIndexFromRowId (heap ds) target (rowsSubject ds) = -1).
  { apply findIndex_none. eapply Forall_impl; [exact Habsent |].
    intros ref Href. simpl in Href. unfold hasId.
    destruct (rowId (heap ds) ref) as [i|]; [| done].
    apply Z.eqb_neq. intros ->. by apply Href. }
  simpl. split; [done |].
  unfold delete_. rewrite Hindex, (splice_last _ Hne).
  unfold updateRowIds. rewrite updateRowIds_loop_outside by lia.
  rewrite with_heap_same.
  destruct (target =? -1); simpl; done.
Qed.

Lemma delete_absent_id_witness :
  let ds' := delete_ 7 appendSource in
  getIndexFromRowId (heap appendSource) 7 (rowsSubject appendSource) = -1
  /\ rowsSubject ds' = removelast (rowsSubject appendSource)
  /\ heap ds' = heap appendSource
  /\ rowsEmitted ds' = removelast (rowsSubject appendSource) :: rowsEmitted appendSource
  /\ datasourceEmitted ds' =
       if 7 =? -1 then datasourceEmitted appendSource
       else mkDataArray (OwnArray (ownArrays appendSource))
              (getDataFromRows (config appendSource) (heap appendSource)
                 (removelast (rowsSubject appendSource)))
              :: datasourceEmitted appendSource.
Proof.
  apply (delete_absent_id appendSource 7).
  - vm_compute. discriminate.
  - vm_compute. repeat constructor; discriminate.
Defined.

(** ** Reference-compared updates *)

Lemma ArrayRef_eqb_eq (a b : ArrayRef) : ArrayRef_eqb a b = true <-> a = b.
Proof.
  destruct a as [m|m], b as [n|n]; simpl; try (split; [done | discriminate]).
  - rewrite Nat.eqb_eq. split; [by intros -> | by intros [= ->]].
  - rewrite Nat.eqb_eq. split; [by intros -> | by intros [= ->]].
Qed.

Lemma differsFrom_held (data : DataArray) : differsFrom (Some (arrayRef data)) data = false.
Proof.
  simpl. apply negb_false_iff, ArrayRef_eqb_eq. done.
Qed.

Lemma differsFrom_other (data data' : DataArray) :
  arrayRef data' <> arrayRef data -> differsFrom (Some (arrayRef data)) data' = true.
Proof.
  intros Hne. simpl. apply negb_true_iff.
  destruct (ArrayRef_eqb (arrayRef data) (arrayRef data')) eqn:Heq; [| done].
  apply ArrayRef_eqb_eq in Heq. congruence.
Qed.

Lemma updateDatasource_rebuild (data : DataArray) (emitEvent : bool) (ds : TableDataSource) :
  differsFrom (heldData ds) data = true ->
  let ds' := updateDatasource data emitEvent ds in
  heldData ds' = Some (arrayRef data)
  /\ heap ds' =
       heap ds ++ getRowsFromData (config ds) (validatorService ds) (arrayItems data)
  /\ rowsSubject ds' =
       seq (length (heap ds))
           (length (getRowsFromData (config ds) (validatorService ds) (arrayItems data)))
  /\ rowsEmitted ds' = rowsSubject ds' :: rowsEmitted ds
  /\ datasourceEmitted ds' =
       if emitEvent then data :: datasourceEmitted ds else datasourceEmitted ds.
Proof.
  intros Hdiff. simpl. unfold updateDatasource. rewrite Hdiff. simpl.
  by destruct emitEvent.
Qed.

Lemma updateDatasource_held (data : DataArray) (emitEvent : bool) (ds : TableDataSource) :
  heldData (updateDatasource data emitEvent ds) = Some (arrayRef data).
Proof.
  destruct (differsFrom (heldData ds) data) eqn:Hdiff.
  - by apply updateDatasource_rebuild.
  - unfold updateDatasource. rewrite Hdiff.
    unfold differsFrom in Hdiff. destruct (heldData ds) as [r|]; [| done].
    apply negb_false_iff, ArrayRef_eqb_eq in Hdiff. by subst.
Qed.

(** The constructor does not record the collection it was given. *)
Lemma constructor_holds_nothing data dataType service options ds :
  new_TableDataSource data dataType service options = Built ds ->
  heldData ds = None.
Proof.
  unfold new_TableDataSource.
  destruct dataType as [obj|]; [| destruct data as [|first rest]; [done |]];
    by intros [= <-].
Qed.

(** C5, as the claim has it, fails for a collection that the source already
    holds: after [updateDatasource] has taken a collection, two more calls
    with the same object rebuild and publish nothing, not once. *)
Lemma updateDatasource_held_counterexample :
  ~ (forall (ds : TableDataSource) (data : DataArray) (emitEvent emitEvent' : bool),
       length (rowsEmitted
                 (updateDatasource data emitEvent' (updateDatasource data emitEvent ds)))
       = S (length (rowsEmitted ds))).
Proof.
  intros Hclaim.
  specialize (Hclaim (updateDatasource (mkDataArray (CallerArray 0) threePersons) true
                        appendSource)
                     (mkDataArray (CallerArray 0) threePersons) true true).
  vm_compute in Hclaim. discriminate.
Qed.

(** C5, amended: a second [updateDatasource] with the same collection object
    does nothing at all.  When the object is the one already held, the
    first call does nothing either, so nothing is rebuilt or published.
    When it is not the one held, as is the case for every object on a
    source just built, the two calls together rebuild the row sequence once,
    with new row objects, and publish it once (and the records once, if the
    first call asked for it).  Another collection object triggers a rebuild
    and a publication of its own, also when its contents are the same. *)
Theorem updateDatasource_same_reference (ds : TableDataSource) (data : DataArray)
    (emitEvent emitEvent' : bool) :
  let ds1 := updateDatasource data emitEvent ds in
  let ds2 := updateDatasource data emitEvent' ds1 in
  ds2 = ds1
  /\ (differsFrom (heldData ds) data = false -> ds2 = ds)
  /\ (differsFrom (heldData ds) data = true ->
      rowsSubject ds2 =
        seq (length (heap ds)) (length (arrayItems data))
      /\ heap ds2 =
           heap ds ++ getRowsFromData (config ds) (validatorService ds) (arrayItems data)
      /\ rowsEmitted ds2 = rowsSubject ds2 :: rowsEmitted ds
      /\ datasourceEmitted ds2 =
           if emitEvent then data :: datasourceEmitted ds else datasourceEmitted ds)
  /\ (forall (fresh : DataArray) (emitEvent'' : bool),
      arrayRef fresh <> arrayRef data ->
      arrayItems fresh = arrayItems data ->
      let ds3 := updateDatasource fresh emitEvent'' ds2 in
      rowsSubject ds3 = seq (length (heap ds2)) (length (arrayItems data))
      /\ heap ds3 =
           heap ds2 ++ getRowsFromData (config ds) (validatorService ds) (arrayItems data)
      /\ rowsEmitted ds3 = rowsSubject ds3 :: rowsEmitted ds2)
  /\ (forall records dataType service options,
      new_TableDataSource records dataType service options = Built ds ->
      differsFrom (heldData ds) data = true).
Proof.
  simpl.
  assert (Hnoop : updateDatasource data emitEvent' (updateDatasource data emitEvent ds)
                  = updateDatasource data emitEvent ds).
  { unfold updateDatasource at 1.
    by rewrite updateDatasource_held, differsFrom_held. }
  rewrite Hnoop. split; [done |].
  split; [intros Hheld; unfold updateDatasource; by rewrite Hheld |].
  split; [| split].
  3: { intros records dataType service options Hbuilt.
       by rewrite (constructor_holds_nothing _ _ _ _ _ Hbuilt). }
  - intros Hdiff.
    destruct (updateDatasource_rebuild data emitEvent ds Hdiff) as (_ & Hh & Hr & He & Hd).
    rewrite Hr at 1. unfold getRowsFromData. rewrite length_imap.
    repeat split; done.
  - intros fresh e Hne Hitems.
    pose proof (differsFrom_other data fresh Hne) as Hdiff.
    rewrite <- (updateDatasource_held data emitEvent ds) in Hdiff.
    destruct (updateDatasource_rebuild fresh e _ Hdiff) as (_ & Hh & Hr & He & _).
    assert (Hcfg : config (updateDatasource data emitEvent ds) = config ds
                   /\ validatorService (updateDatasource data emitEvent ds)
                      = validatorService ds).
    { unfold updateDatasource.
      destruct (differsFrom (heldData ds) data); [| done].
      by destruct emitEvent. }
    destruct Hcfg as [Hc Hv]. rewrite Hc, Hv, Hitems in Hh, Hr.
    rewrite Hr at 1. unfold getRowsFromData. rewrite length_imap.
    repeat split; done.
Qed.

Lemma updateDatasource_same_reference_witness :
  let data := mkDataArray (CallerArray 0) threePersons in
  let fresh := mkDataArray (CallerArray 1) threePersons in
  let ds2 := updateDatasource data true (updateDatasource data true appendSource) in
  let ds3 := updateDatasource fresh true ds2 in
  (rowsSubject ds2 = seq (length (heap appendSource)) (length (arrayItems data))
   /\ rowsEmitted ds2 = rowsSubject ds2 :: rowsEmitted appendSource)
  /\ (rowsSubject ds3 = seq (length (heap ds2)) (length (arrayItems data))
      /\ rowsEmitted ds3 = rowsSubject ds3 :: rowsEmitted ds2)
  /\ updateDatasource data false (updateDatasource data true ds2) = ds2.
Proof.
  intros data fresh ds2 ds3.
  pose proof (updateDatasource_same_reference appendSource data true true)
    as (_ & _ & Hone & Hfresh & _).
  pose proof (updateDatasource_same_reference ds2 data true false)
    as (_ & Hheld & _).
  split; [| split].
  - destruct Hone as (Hr & _ & He & _); [reflexivity |]. by split.
  - destruct (Hfresh fresh true) as (Hr & _ & He); [discriminate | reflexivity |]. by split.
  - apply Hheld. reflexivity.
Defined.

(** ** The windowed view *)

Lemma latestRange_last (reports : list ListRange) (r : ListRange) :
  latestRange (reports ++ [r]) = r.
Proof.
  unfold latestRange. rewrite fold_left_app. simpl.
  unfold viewChange. by destruct r.
Qed.

(** The elements of [data.slice(s, e)] for [0 <= s <= e]: those at the
    indices [s], ..., [e-1] that exist. *)
Lemma slice_lookup {A : Type} (s e : nat) (data : list A) (i : nat) :
  (s <= e)%nat ->
  slice (Z.of_nat s) (Some (Z.of_nat e)) data !! i =
    if decide (i < e - s)%nat then data !! (s + i)%nat else None.
Proof.
  intros Hse. unfold slice, relativeIndex.
  destruct (Z.of_nat s <? 0) eqn:Hs; zbool; [lia |].
  destruct (Z.of_nat e <? 0) eqn:He; zbool; [lia |].
  remember (Z.to_nat (Z.min (Z.of_nat s) (Z.of_nat (length data)))) as k eqn:Hk.
  remember (Z.to_nat (Z.min (Z.of_nat e) (Z.of_nat (length data)))) as final eqn:Hf.
  destruct (decide (i < final - k)%nat) as [Hi|Hi].
  - rewrite lookup_take_lt, lookup_drop by done.
    rewrite decide_True by lia. f_equal. lia.
  - rewrite lookup_take_ge by lia.
    destruct (decide (i < e - s)%nat); [| done].
    symmetry. apply lookup_ge_None. lia.
Qed.

(** The elements of [data.slice(s)] for [0 <= s]: those from index [s] on. *)
Lemma slice_from_lookup {A : Type} (s : nat) (data : list A) (i : nat) :
  slice (Z.of_nat s) None data !! i = data !! (s + i)%nat.
Proof.
  unfold slice, relativeIndex.
  destruct (Z.of_nat s <? 0) eqn:Hs; zbool; [lia |].
  remember (Z.to_nat (Z.min (Z.of_nat s) (Z.of_nat (length data)))) as k eqn:Hk.
  destruct (decide (i < length data - k)%nat) as [Hi|Hi].
  - rewrite lookup_take_lt, lookup_drop by done. f_equal. lia.
  - rewrite lookup_take_ge by lia. symmetry. apply lookup_ge_None. lia.
Qed.

(** C6, as the claim has it, fails for a range that starts at 0: with ten
    rows and the reported range [0, 5), where end > start, the view delivers
    all ten rows and not the slice of the first five. *)
Lemma connect_slice_counterexample :
  ~ (forall (reports : list ListRange) (r : ListRange) (data : list nat),
       end_ r > start r ->
       delivered (reports ++ [r]) data = slice (start r) (Some (end_ r)) data).
Proof.
  intros Hclaim.
  specialize (Hclaim [] (mkListRange 0 5) (seq 0 10)).
  vm_compute in Hclaim. specialize (Hclaim eq_refl). discriminate.
Qed.

(** C6, amended: the view slices by the latest reported range.  When that
    range starts above 0 it delivers the rows at the indices [start, end) if
    end > start, and the rows from index start on otherwise; when it
    starts at 0 (or below) it delivers the full sequence, whatever its end
    is.  Before any report the range is [0, -1) and the full sequence is
    delivered; ten rows under the reported range [2, 5) give the rows 2, 3
    and 4. *)
Theorem connect_window {A : Type} (reports : list ListRange) (r : ListRange)
    (data : list A) :
  (0 < start r -> start r < end_ r ->
   delivered (reports ++ [r]) data = slice (start r) (Some (end_ r)) data
   /\ forall i : nat,
        delivered (reports ++ [r]) data !! i =
          if decide (Z.of_nat i < end_ r - start r)
          then data !! (Z.to_nat (start r) + i)%nat else None)
  /\ (0 < start r -> end_ r <= start r ->
      delivered (reports ++ [r]) data = slice (start r) None data
      /\ forall i : nat,
           delivered (reports ++ [r]) data !! i = data !! (Z.to_nat (start r) + i)%nat)
  /\ (start r <= 0 -> delivered (reports ++ [r]) data = data)
  /\ delivered [] data = data
  /\ (forall r0 r1 r2 r3 r4 r5 r6 r7 r8 r9 : A,
      delivered (reports ++ [mkListRange 2 5]) [r0; r1; r2; r3; r4; r5; r6; r7; r8; r9]
      = [r2; r3; r4]).
Proof.
  unfold delivered. rewrite !latestRange_last.
  split; [| split; [| split; [| split]]].
  - intros Hs He.
    assert (Hw : windowed r data = slice (start r) (Some (end_ r)) data).
    { unfold windowed.
      destruct (start r >? 0) eqn:H1; zbool; [| lia].
      destruct (end_ r >? start r) eqn:H2; zbool; [done | lia]. }
    split; [done |]. intros i. rewrite Hw.
    replace (start r) with (Z.of_nat (Z.to_nat (start r))) at 1 by lia.
    replace (end_ r) with (Z.of_nat (Z.to_nat (end_ r))) at 1 by lia.
    rewrite slice_lookup by lia.
    destruct (decide (i < Z.to_nat (end_ r) - Z.to_nat (start r))%nat);
      destruct (decide (Z.of_nat i < end_ r - start r)); try done; lia.
  - intros Hs He.
    assert (Hw : windowed r data = slice (start r) None data).
    { unfold windowed.
      destruct (start r >? 0) eqn:H1; zbool; [| lia].
      destruct (end_ r >? start r) eqn:H2; zbool; [lia | done]. }
    split; [done |]. intros i. rewrite Hw.
    replace (start r) with (Z.of_nat (Z.to_nat (start r))) at 1 by lia.
    apply slice_from_lookup.
  - intros Hs. unfold windowed.
    destruct (start r >? 0) eqn:H1; zbool; [lia | done].
  - done.
  - done.
Qed.

Lemma connect_window_witness :
  delivered ([mkListRange 0 5] ++ [mkListRange 2 5]) (seq 0 10)
    = slice 2 (Some 5) (seq 0 10)
  /\ delivered ([mkListRange 2 5] ++ [mkListRange 3 (-1)]) (seq 0 10)
    = slice 3 None (seq 0 10)
  /\ delivered ([mkListRange 2 5] ++ [mkListRange 0 5]) (seq 0 10) = seq 0 10.
Proof.
  split; [| split].
  - apply (connect_window [mkListRange 0 5] (mkListRange 2 5) (seq 0 10)); simpl; lia.
  - apply (connect_window [mkListRange 2 5] (mkListRange 3 (-1)) (seq 0 10)); simpl; lia.
  - apply (connect_window [mkListRange 2 5] (mkListRange 0 5) (seq 0 10)); simpl; lia.
Defined.

(** ** The constructor-time diagnostic *)

Lemma logError_suppressed (message : string) (ds : TableDataSource) :
  suppressErrors (config ds) = true -> logError message ds = ds.
Proof. intros Hs. unfold logError. by rewrite Hs. Qed.

Lemma checkValidatorFields_silent (formGroup : FormGroup) (ds : TableDataSource) :
  checkValidatorFields formGroup ds = ds.
Proof.
  unfold checkValidatorFields.
  destruct (suppressErrors (config ds)) eqn:Hs; simpl; [| done].
  destruct (0 <? _); [| done].
  by apply logError_suppressed.
Qed.

(** The constructor never writes to the console, whatever it is given. *)
Lemma constructor_console (data : list Obj) (dataType : option Obj)
    (service : option FormGroup) (options : option TableDataSourceOptions) :
  match new_TableDataSource data dataType service options with
  | Built ds => console ds = []
  | Thrown _ => True
  end.
Proof.
  unfold new_TableDataSource.
  destruct dataType as [obj|]; [| destruct data as [|first rest]; [done |]];
    by rewrite checkValidatorFields_silent.
Qed.

(** C4: the handle [contactForm] has the control [email], which is no key of
    the records, and errors are not suppressed; yet the constructor logs
    nothing.  [checkValidatorFields] returns at once when [suppressErrors] is
    false, and when it is true the check runs but [logError] stays silent:
    with errors suppressed nothing is logged either. *)
Theorem mismatch_never_logged :
  let unsuppressed := built (new_TableDataSource threePersons None (Some contactForm) None) in
  let suppressed :=
    built (new_TableDataSource threePersons None (Some contactForm) (Some errorsSuppressed)) in
  invalidKeys (keys (createNewObject unsuppressed)) contactForm = ["email"%string]
  /\ suppressErrors (config unsuppressed) = false
  /\ console unsuppressed = []
  /\ suppressErrors (config suppressed) = true
  /\ console suppressed = [].
Proof. vm_compute. repeat split. Qed.

(** ** Where [createNew] puts the pending row *)

Lemma createNew_zero (ds : TableDataSource) :
  createNew (Some 0) ds = createNew None ds.
Proof. done. Qed.

Lemma splice_insert {A : Type} (n : nat) (x : A) (l : list A) :
  (n <= length l)%nat ->
  splice (Z.of_nat n) 0 [x] l = take n l ++ x :: drop n l.
Proof.
  intros Hn. unfold splice, relativeIndex.
  destruct (Z.of_nat n <? 0) eqn:Hneg; zbool; [lia |].
  replace (Z.to_nat (Z.min (Z.of_nat n) (Z.of_nat (length l)))) with n by lia.
  replace (Z.to_nat (Z.min (Z.max 0 0) (Z.of_nat (length l) - Z.of_nat n))) with 0%nat by lia.
  by rewrite Nat.add_0_r.
Qed.

(** An explicit position from 1 up to the length of the sequence is where the
    pending row goes, in either mode. *)
Lemma createNew_insertAt (n : nat) (ds : TableDataSource) :
  existsNewElement (heap ds) (rowsSubject ds) = false ->
  (1 <= n <= length (rowsSubject ds))%nat ->
  let ds' := createNew (Some (Z.of_nat n)) ds in
  rowsSubject ds' = take n (rowsSubject ds) ++ length (heap ds) :: drop n (rowsSubject ds)
  /\ rowsSubject ds' !! n = Some (length (heap ds))
  /\ rowId (heap ds') (length (heap ds)) = Some (-1).
Proof.
  intros Hnone Hn. simpl. unfold createNew. rewrite Hnone. simpl.
  destruct (Z.of_nat n =? 0) eqn:Hz; zbool; [lia |]. simpl.
  rewrite splice_insert by lia. split; [done |]. split.
  - rewrite lookup_app_r by (rewrite length_take; lia).
    rewrite length_take. by replace (n - n `min` length (rowsSubject ds))%nat with 0%nat by lia.
  - unfold rowId. rewrite lookup_app_r by lia.
    by replace (length (heap ds) - length (heap ds))%nat with 0%nat by lia.
Qed.

(** C9: [createNew(0)] on the three rows of [appendSource] does not put the
    pending row at index 0.  The test [if (insertAt)] takes 0 for an absent
    argument, so the row is appended: it is at index 3, and index 0 still
    holds the first record's row. *)
Theorem createNew_at_zero_appended :
  let ds' := createNew (Some 0) appendSource in
  prependNewElements (config appendSource) = false
  /\ ids appendSource = [Some 0; Some 1; Some 2]
  /\ ids ds' = [Some 0; Some 1; Some 2; Some (-1)]
  /\ getNewRowIndex (heap ds') (rowsSubject ds') = 3
  /\ rowsSubject ds' !! 0%nat = rowsSubject appendSource !! 0%nat
  /\ ds' = createNew None appendSource.
Proof. vm_compute. repeat split. Qed.

(** ** Reachable sample states *)

Lemma reachable_appendSource : reachable appendSource.
Proof. by apply (reach_new threePersons None (Some personForm) None). Qed.

Lemma reachable_prependSource : reachable prependSource.
Proof. by apply (reach_new threePersons None (Some personForm) (Some prependMode)). Qed.

Lemma reachable_pendingSource : reachable pendingSource.
Proof. apply reach_createNew, reachable_appendSource. Qed.

(** ** The single pending row *)

Section Counting.
Variable h : list TableElement.

Lemma countPending_nil : countPending h [] = 0%nat.
Proof. done. Qed.

Lemma countPending_app (l1 l2 : list nat) :
  countPending h (l1 ++ l2) = (countPending h l1 + countPending h l2)%nat.
Proof. unfold countPending. by rewrite List.filter_app, length_app. Qed.

Lemma countPending_cons (x : nat) (l : list nat) :
  countPending h (x :: l) =
    ((if hasId h (-1) x then 1 else 0) + countPending h l)%nat.
Proof. unfold countPending. simpl. by destruct (hasId h (-1) x). Qed.

Lemma countPending_zero (l : list nat) :
  Forall (fun x => hasId h (-1) x = false) l -> countPending h l = 0%nat.
Proof.
  induction 1 as [|x l Hx _ IH]; [done |].
  by rewrite countPending_cons, Hx, IH.
Qed.

Lemma countPending_take_drop (a b : nat) (l : list nat) :
  (a <= b)%nat ->
  (countPending h (take a l) + countPending h (drop b l) <= countPending h l)%nat.
Proof.
  intros Hab.
  rewrite <- (take_drop a l) at 3.
  rewrite <- (take_drop (b - a) (drop a l)) at 1.
  rewrite drop_drop, !countPending_app.
  replace (a + (b - a))%nat with b by lia. lia.
Qed.

Lemma countPending_splice (index deleteCount : Z) (items l : list nat) :
  (countPending h (splice index deleteCount items l)
     <= countPending h items + countPending h l)%nat.
Proof.
  unfold splice. rewrite !countPending_app.
  set (s := relativeIndex index (length l)).
  set (dc := Z.to_nat (Z.min (Z.max deleteCount 0) (Z.of_nat (length l) - Z.of_nat s))).
  clearbody dc. clearbody s.
  pose proof (countPending_take_drop s (s + dc) l). lia.
Qed.

Lemma countPending_delete (i x : nat) (l : list nat) :
  l !! i = Some x ->
  countPending h l = (countPending h [x] + countPending h (delete i l))%nat.
Proof.
  intros Hx. rewrite delete_take_drop.
  rewrite <- (take_drop_middle l i x Hx) at 1.
  rewrite !countPending_app, (countPending_cons x (drop (S i) l)).
  rewrite (countPending_cons x []), countPending_nil.
  destruct (hasId h (-1) x); lia.
Qed.

Lemma countPending_moveItemInArray (l : list nat) (fromIndex toIndex : Z) :
  countPending h (moveItemInArray l fromIndex toIndex) = countPending h l.
Proof.
  unfold moveItemInArray.
  destruct (_ =? _); [done |].
  destruct (l !! _) as [target|] eqn:Htarget; [| done].
  rewrite (countPending_delete _ _ _ Htarget).
  set (rest := delete _ l). set (to := Z.to_nat _).
  clearbody rest. clearbody to.
  rewrite <- (take_drop to rest) at 3.
  rewrite !countPending_app, (countPending_cons target (drop to rest)).
  rewrite (countPending_cons target []), countPending_nil.
  destruct (hasId h (-1) target); lia.
Qed.

Lemma countPending_insert (i x y : nat) (l : list nat) :
  l !! i = Some y ->
  hasId h (-1) x = hasId h (-1) y ->
  countPending h (<[i := x]> l) = countPending h l.
Proof.
  intros Hy Hsame.
  assert (i < length l)%nat by (by eapply lookup_lt_Some).
  rewrite insert_take_drop by done.
  rewrite <- (take_drop_middle l i y Hy) at 3.
  by rewrite !countPending_app, !countPending_cons, Hsame.
Qed.
End Counting.

Lemma noNewPending_refl (h : list TableElement) : noNewPending h h.
Proof. by split. Qed.

Lemma noNewPending_trans (h1 h2 h3 : list TableElement) :
  noNewPending h1 h2 -> noNewPending h2 h3 -> noNewPending h1 h3.
Proof.
  intros [Hl12 H12] [Hl23 H23]. split; [congruence |].
  intros x Hx. by apply H12, H23.
Qed.

Lemma noNewPending_alter (f : TableElement -> TableElement) (ref : nat)
    (h : list TableElement) :
  (forall r, id (f r) = -1 -> id r = -1) -> noNewPending h (alter f ref h).
Proof.
  intros Hf. split; [apply length_alter |].
  intros x. unfold hasId, rowId.
  destruct (decide (ref = x)) as [->|Hne].
  - rewrite list_lookup_alter_eq.
    destruct (h !! x) as [r|]; simpl; [| done].
    intros Hid. zbool. apply Z.eqb_eq. by apply Hf.
  - by rewrite list_lookup_alter_ne.
Qed.

Lemma countPending_mono (h h' : list TableElement) (l : list nat) :
  noNewPending h h' -> (countPending h' l <= countPending h l)%nat.
Proof.
  intros [_ Hpending].
  induction l as [|x l IH]; [done |].
  rewrite !countPending_cons.
  destruct (hasId h' (-1) x) eqn:Hx; [rewrite (Hpending x Hx) |]; lia.
Qed.

Lemma getRowIdFromIndex_committed (cfg : Config) (index count : Z) :
  0 <= index < count -> getRowIdFromIndex cfg index count <> -1.
Proof. unfold getRowIdFromIndex. destruct (prependNewElements cfg); lia. Qed.

Lemma renumberAt_noNewPending (cfg : Config) (source : list nat) (index : Z)
    (h : list TableElement) :
  0 <= index < Z.of_nat (length source) ->
  noNewPending h (renumberAt cfg source index h).
Proof.
  intros Hindex. unfold renumberAt.
  destruct (source !! Z.to_nat index) as [ref|]; [| apply noNewPending_refl].
  apply noNewPending_alter. intros r.
  destruct (id r =? -1) eqn:Hid; zbool; simpl; [done |].
  intros Hnew. by apply getRowIdFromIndex_committed in Hnew.
Qed.

Lemma updateRowIds_loop_noNewPending (fuel : nat) (cfg : Config) (source : list nat)
    (index : Z) (h : list TableElement) :
  noNewPending h (updateRowIds_loop fuel cfg source index h).
Proof.
  revert index h. induction fuel as [|fuel IH]; intros index h; simpl.
  - apply noNewPending_refl.
  - destruct (index <? Z.of_nat (length source)) eqn:Hlt;
      destruct (index >=? 0) eqn:Hge; simpl; try apply noNewPending_refl.
    zbool. eapply noNewPending_trans; [| apply IH].
    apply renumberAt_noNewPending. lia.
Qed.

Lemma wellFormed_heap (ds ds' : TableDataSource) :
  length (heap ds') = length (heap ds) ->
  Forall (fun ref => (ref < length (heap ds))%nat) (rowsSubject ds') ->
  wellFormed ds'.
Proof. intros Hlen Hrows. unfold wellFormed. by rewrite Hlen. Qed.

Lemma Forall_splice {A : Type} (P : A -> Prop) (index deleteCount : Z)
    (items l : list A) :
  Forall P items -> Forall P l -> Forall P (splice index deleteCount items l).
Proof.
  intros Hitems Hl. unfold splice.
  repeat apply Forall_app_2; [by apply Forall_take | done | by apply Forall_drop].
Qed.

Lemma Forall_moveItemInArray {A : Type} (P : A -> Prop) (l : list A)
    (fromIndex toIndex : Z) :
  Forall P l -> Forall P (moveItemInArray l fromIndex toIndex).
Proof.
  intros Hl. unfold moveItemInArray.
  destruct (_ =? _); [done |].
  destruct (l !! _) as [target|] eqn:Htarget; [| done].
  apply Forall_app_2; [by apply Forall_take, Forall_delete |].
  apply Forall_cons. split; [by eapply Forall_lookup_1 |].
  by apply Forall_drop, Forall_delete.
Qed.

(** *** [delete] and [move] *)

Lemma delete_pending (target : Z) (ds : TableDataSource) :
  wellFormed ds ->
  wellFormed (delete_ target ds) /\ (pendingRows (delete_ target ds) <= pendingRows ds)%nat.
Proof.
  intros Hwf.
  set (index := getIndexFromRowId (heap ds) target (rowsSubject ds)).
  set (source' := splice index 1 [] (rowsSubject ds)).
  pose proof (updateRowIds_loop_noNewPending (length source') (config ds) source'
                index (heap ds)) as Hheap.
  assert (Hheap' : heap (delete_ target ds) = updateRowIds (config ds) index source' (heap ds)
                   /\ rowsSubject (delete_ target ds) = source').
  { unfold delete_. by destruct (target =? -1). }
  destruct Hheap' as [Hh Hr]. split.
  - apply (wellFormed_heap ds); [rewrite Hh; apply Hheap |].
    rewrite Hr. by apply Forall_splice.
  - unfold pendingRows. rewrite Hh, Hr.
    etrans; [apply countPending_mono, Hheap |].
    etrans; [apply countPending_splice |]. by rewrite countPending_nil.
Qed.

Lemma move_pending (target direction : Z) (ds : TableDataSource) :
  wellFormed ds ->
  wellFormed (move target direction ds)
  /\ (pendingRows (move target direction ds) <= pendingRows ds)%nat.
Proof.
  intros Hwf. unfold move.
  destruct (direction =? 0); [done |].
  set (index := getIndexFromRowId (heap ds) target (rowsSubject ds)).
  set (source' := moveItemInArray (rowsSubject ds) index (index + direction)).
  pose proof (updateRowIds_loop_noNewPending (length source') (config ds) source'
                0 (heap ds)) as Hheap.
  assert (Hcount : (countPending (updateRowIds (config ds) 0 source' (heap ds)) source'
                    <= pendingRows ds)%nat).
  { etrans; [apply countPending_mono, Hheap |].
    unfold source'. by rewrite countPending_moveItemInArray. }
  assert (Hrefs : Forall (fun ref => (ref < length (heap ds))%nat) source')
    by by apply Forall_moveItemInArray.
  destruct (target =? -1); simpl; (split; [| exact Hcount]);
    (eapply (wellFormed_heap ds); [apply Hheap | exact Hrefs]).
Qed.

(** *** Row objects put at the end of the store *)

Lemma hasId_allocated (h new : list TableElement) (target : Z) (ref : nat) :
  (ref < length h)%nat -> hasId (h ++ new) target ref = hasId h target ref.
Proof. intros Href. unfold hasId, rowId. by rewrite lookup_app_l. Qed.

Lemma countPending_allocated (h new : list TableElement) (l : list nat) :
  Forall (fun ref => (ref < length h)%nat) l ->
  countPending (h ++ new) l = countPending h l.
Proof.
  induction 1 as [|x l Hx _ IH]; [done |].
  by rewrite !countPending_cons, hasId_allocated, IH.
Qed.

Lemma countPending_fresh (h new : list TableElement) :
  Forall (fun row => id row <> -1) new ->
  countPending (h ++ new) (seq (length h) (length new)) = 0%nat.
Proof.
  intros Hnew. apply countPending_zero, Forall_seq. intros ref Href.
  unfold hasId, rowId. rewrite lookup_app_r by lia.
  destruct (new !! (ref - length h)%nat) as [row|] eqn:Hrow; simpl; [| done].
  apply Z.eqb_neq.
  exact (Forall_lookup_1 (fun row => id row <> -1) new _ row Hnew Hrow).
Qed.

Lemma id_createTableElement (init : RowInit) : id (createTableElement init) = init_id init.
Proof. done. Qed.

Lemma getRowsFromData_committed (cfg : Config) (service : FormGroup) (data : list Obj) :
  Forall (fun row => id row <> -1) (getRowsFromData cfg service data).
Proof.
  apply Forall_lookup_2. intros i row. unfold getRowsFromData.
  rewrite list_lookup_imap.
  destruct (data !! i) as [record|] eqn:Hrecord; simpl; [| done].
  intros [= <-]. rewrite id_createTableElement. simpl.
  apply getRowIdFromIndex_committed.
  apply lookup_lt_Some in Hrecord. lia.
Qed.

Lemma allocated_rows (h new : list TableElement) :
  Forall (fun ref => (ref < length (h ++ new))%nat) (seq (length h) (length new)).
Proof. apply Forall_seq. intros ref Href. rewrite length_app. lia. Qed.

Lemma new_TableDataSource_rows data dataType service options ds :
  new_TableDataSource data dataType service options = Built ds ->
  heap ds = getRowsFromData (config ds) (validatorService ds) data
  /\ rowsSubject ds = seq 0 (length (heap ds)).
Proof.
  unfold new_TableDataSource.
  destruct dataType as [obj|]; [| destruct data as [|first rest]; [done |]];
    rewrite checkValidatorFields_silent; intros [= <-]; done.
Qed.

Lemma new_TableDataSource_pending data dataType service options ds :
  new_TableDataSource data dataType service options = Built ds ->
  wellFormed ds /\ pendingRows ds = 0%nat.
Proof.
  intros Hbuilt.
  destruct (new_TableDataSource_rows _ _ _ _ _ Hbuilt) as [Hh Hr].
  unfold wellFormed, pendingRows. rewrite Hr. split.
  - apply (allocated_rows [] (heap ds)).
  - apply (countPending_fresh [] (heap ds)).
    rewrite Hh. apply getRowsFromData_committed.
Qed.

Lemma updateDatasource_pending (data : DataArray) (emitEvent : bool) (ds : TableDataSource) :
  wellFormed ds ->
  wellFormed (updateDatasource data emitEvent ds)
  /\ (pendingRows (updateDatasource data emitEvent ds) <= pendingRows ds)%nat.
Proof.
  intros Hwf.
  destruct (differsFrom (heldData ds) data) eqn:Hdiff.
  - destruct (updateDatasource_rebuild data emitEvent ds Hdiff) as (_ & Hh & Hr & _).
    unfold wellFormed, pendingRows. rewrite Hr, Hh. split; [apply allocated_rows |].
    rewrite countPending_fresh by apply getRowsFromData_committed. lia.
  - unfold updateDatasource. by rewrite Hdiff.
Qed.

(** *** [createNew] *)

Lemma existsNewElement_false (h : list TableElement) (source : list nat) :
  existsNewElement h source = false -> countPending h source = 0%nat.
Proof.
  unfold existsNewElement, getNewRowIndex, getIndexFromRowId, countPending.
  intros Hnone. apply andb_false_iff in Hnone as [Hempty | Hindex].
  - zbool. by destruct source; [| simpl in Hempty; lia].
  - zbool. pose proof (findIndex_lower (hasId h (-1)) source).
    rewrite findIndex_none_inv; [done | lia].
Qed.

Lemma existsNewElement_true (h : list TableElement) (source : list nat) :
  existsNewElement h source = true -> (1 <= countPending h source)%nat.
Proof.
  unfold existsNewElement, getNewRowIndex, getIndexFromRowId, countPending.
  intros Hsome. apply andb_true_iff in Hsome as [_ Hindex]. zbool.
  destruct (findIndex_found (hasId h (-1)) source) as (x & Hx & Hpending); [lia |].
  rewrite <- (take_drop_middle source _ x Hx), List.filter_app. simpl.
  rewrite Hpending, length_app. simpl. lia.
Qed.

Lemma createNew_pending (insertAt : option Z) (ds : TableDataSource) :
  wellFormed ds ->
  wellFormed (createNew insertAt ds)
  /\ (pendingRows (createNew insertAt ds) <= Nat.max 1 (pendingRows ds))%nat.
Proof.
  intros Hwf. unfold createNew.
  destruct (existsNewElement (heap ds) (rowsSubject ds)) eqn:Hexists; simpl;
    [split; [done | lia] |].
  apply existsNewElement_false in Hexists.
  set (newElement := createTableElement _).
  assert (Hnew : Forall (fun ref => (ref < length (heap ds ++ [newElement]))%nat)
                        [length (heap ds)]).
  { apply (allocated_rows (heap ds) [newElement]). }
  assert (Hold : Forall (fun ref => (ref < length (heap ds ++ [newElement]))%nat)
                        (rowsSubject ds)).
  { eapply Forall_impl; [exact Hwf |]. intros ref Href. simpl in Href.
    rewrite length_app. lia. }
  assert (Hcount : countPending (heap ds ++ [newElement]) (rowsSubject ds) = 0%nat)
    by by rewrite countPending_allocated.
  assert (Hone : (countPending (heap ds ++ [newElement]) [length (heap ds)] <= 1)%nat).
  { rewrite countPending_cons, countPending_nil. destruct (hasId _ _ _); lia. }
  unfold wellFormed, pendingRows.
  destruct (truthy insertAt); [| destruct (prependNewElements (config ds))]; simpl.
  - split; [by apply Forall_splice |].
    etrans; [apply countPending_splice |]. lia.
  - split; [by apply (Forall_app_2 _ [length (heap ds)]) |].
    change (length (heap ds) :: rowsSubject ds)
      with ([length (heap ds)] ++ rowsSubject ds).
    rewrite countPending_app. lia.
  - split; [by apply Forall_app_2 |].
    rewrite countPending_app. lia.
Qed.

(** *** The confirm operations *)

Lemma hasId_same_id (h : list TableElement) (x y : nat) (target : Z) :
  rowId h x = rowId h y -> hasId h target x = hasId h target y.
Proof. intros Hsame. unfold hasId. by rewrite Hsame. Qed.

(** The state a confirm operation leaves: the same state when it returns
    false; otherwise the row sequence and the store are as follows. *)
Lemma confirmCreate_state (row : nat) (ds : TableDataSource) (result : bool)
    (ds' : TableDataSource) :
  confirmCreate row ds = Some (result, ds') ->
  let h1 := alter (set_id (Z.of_nat (length (rowsSubject ds)) - 1)) row (heap ds) in
  let h2 := if keepOriginalDataAfterConfirm (config ds)
            then alter (fun x => set_originalData (Some (currentData x)) x) row h1
            else h1 in
  if result
  then rowsSubject ds' = rowsSubject ds /\ heap ds' = alter (set_editing false) row h2
  else ds' = ds.
Proof.
  unfold confirmCreate.
  destruct (heap ds !! row) as [r|] eqn:Hrow; simpl; [| done].
  pose proof (isValid_row r) as Hsame.
  destruct (isValid r) as [valid r1]; simpl in Hsame; subst r1.
  rewrite list_insert_id, with_heap_same by done.
  destruct valid; simpl; intros [= <- <-]; [| done].
  by destruct (keepOriginalDataAfterConfirm (config ds)).
Qed.

Lemma confirmEdit_state (row : nat) (ds : TableDataSource) (result : bool)
    (ds' : TableDataSource) (r : TableElement) :
  heap ds !! row = Some r ->
  confirmEdit row ds = Some (result, ds') ->
  let index := getIndexFromRowId (heap ds) (id r) (rowsSubject ds) in
  let h1 := if negb (keepOriginalDataAfterConfirm (config ds))
            then alter (set_originalData None) row (heap ds)
            else heap ds in
  if result
  then rowsSubject ds' = assignIndex index row (rowsSubject ds)
       /\ heap ds' = alter (set_editing false) row h1
  else ds' = ds.
Proof.
  intros Hrow. unfold confirmEdit. rewrite Hrow. simpl.
  pose proof (isValid_row r) as Hsame.
  destruct (isValid r) as [valid r1]; simpl in Hsame; subst r1.
  rewrite list_insert_id, with_heap_same by done.
  destruct valid; simpl; intros [= <- <-]; [| done].
  by destruct (keepOriginalDataAfterConfirm (config ds)).
Qed.

Lemma confirmCreate_pending (row : nat) (ds : TableDataSource) (result : bool)
    (ds' : TableDataSource) :
  wellFormed ds ->
  confirmCreate row ds = Some (result, ds') ->
  wellFormed ds' /\ (pendingRows ds' <= pendingRows ds)%nat.
Proof.
  intros Hwf Hconfirm. apply confirmCreate_state in Hconfirm. simpl in Hconfirm.
  destruct result; [| by subst ds'].
  destruct Hconfirm as [Hr Hh].
  set (h1 := alter (set_id (Z.of_nat (length (rowsSubject ds)) - 1)) row (heap ds)) in *.
  set (h2 := if keepOriginalDataAfterConfirm (config ds)
             then alter (fun x => set_originalData (Some (currentData x)) x) row h1
             else h1) in *.
  assert (H2 : noNewPending h1 h2).
  { unfold h2. destruct (keepOriginalDataAfterConfirm (config ds));
      [by apply noNewPending_alter | apply noNewPending_refl]. }
  assert (H3 : noNewPending h2 (heap ds')) by (rewrite Hh; by apply noNewPending_alter).
  assert (Hlen : length (heap ds') = length (heap ds)).
  { rewrite (proj1 H3), (proj1 H2). apply length_alter. }
  unfold wellFormed, pendingRows. rewrite Hr, Hlen. split; [done |].
  destruct (rowsSubject ds) as [|first rest] eqn:Hrows; [done |].
  apply countPending_mono.
  assert (H1 : noNewPending (heap ds) h1).
  { apply noNewPending_alter. intros x. simpl. lia. }
  eauto using noNewPending_trans.
Qed.

Lemma confirmEdit_pending (row : nat) (ds : TableDataSource) (result : bool)
    (ds' : TableDataSource) :
  wellFormed ds ->
  confirmEdit row ds = Some (result, ds') ->
  wellFormed ds' /\ (pendingRows ds' <= pendingRows ds)%nat.
Proof.
  intros Hwf Hconfirm.
  destruct (heap ds !! row) as [r|] eqn:Hrow;
    [| unfold confirmEdit in Hconfirm; by rewrite Hrow in Hconfirm].
  apply (confirmEdit_state _ _ _ _ r Hrow) in Hconfirm. simpl in Hconfirm.
  destruct result; [| by subst ds'].
  destruct Hconfirm as [Hr Hh].
  set (index := getIndexFromRowId (heap ds) (id r) (rowsSubject ds)) in *.
  set (h1 := if negb (keepOriginalDataAfterConfirm (config ds))
             then alter (set_originalData None) row (heap ds)
             else heap ds) in *.
  assert (H1 : noNewPending (heap ds) h1).
  { unfold h1. destruct (keepOriginalDataAfterConfirm (config ds)); simpl;
      [apply noNewPending_refl | by apply noNewPending_alter]. }
  assert (H2 : noNewPending h1 (heap ds')) by (rewrite Hh; by apply noNewPending_alter).
  assert (Hheap : noNewPending (heap ds) (heap ds')) by eauto using noNewPending_trans.
  assert (Hcount : countPending (heap ds) (assignIndex index row (rowsSubject ds))
                   = countPending (heap ds) (rowsSubject ds)).
  { unfold assignIndex. destruct (index <? 0) eqn:Hneg; zbool; [done |].
    destruct (findIndex_found (hasId (heap ds) (id r)) (rowsSubject ds))
      as (y & Hy & Hid); [exact Hneg |].
    apply (countPending_insert _ _ _ y); [exact Hy |].
    apply hasId_same_id. unfold hasId in Hid. unfold rowId in *. rewrite Hrow. simpl.
    destruct (heap ds !! y) as [ry|]; simpl in *; [| done].
    zbool. by rewrite Hid. }
  unfold wellFormed, pendingRows. rewrite Hr, (proj1 Hheap). split.
  - unfold assignIndex. destruct (index <? 0); [done |].
    apply Forall_insert; [done |]. by eapply lookup_lt_Some.
  - rewrite <- Hcount. by apply countPending_mono.
Qed.

(** Every reachable state has its references in the store and at most one
    place of its sequence holding a pending row. *)
Lemma reachable_pending (ds : TableDataSource) :
  reachable ds -> wellFormed ds /\ (pendingRows ds <= 1)%nat.
Proof.
  induction 1 as [data dataType service options ds Hbuilt
                 | insertAt ds _ [Hwf Hone]
                 | row ds result ds' _ [Hwf Hone] Hconfirm
                 | row ds result ds' _ [Hwf Hone] Hconfirm
                 | target ds _ [Hwf Hone]
                 | target direction ds _ [Hwf Hone]
                 | data emitEvent ds _ [Hwf Hone]].
  - destruct (new_TableDataSource_pending _ _ _ _ _ Hbuilt) as [Hwf Hzero].
    split; [done | lia].
  - destruct (createNew_pending insertAt ds Hwf) as [Hwf' Hle]. split; [done | lia].
  - destruct (confirmCreate_pending _ _ _ _ Hwf Hconfirm) as [Hwf' Hle].
    split; [done | lia].
  - destruct (confirmEdit_pending _ _ _ _ Hwf Hconfirm) as [Hwf' Hle].
    split; [done | lia].
  - destruct (delete_pending target ds Hwf) as [Hwf' Hle]. split; [done | lia].
  - destruct (move_pending target direction ds Hwf) as [Hwf' Hle]. split; [done | lia].
  - destruct (updateDatasource_pending data emitEvent ds Hwf) as [Hwf' Hle].
    split; [done | lia].
Qed.

(** C2: in every state the data source reaches, at most one place of the
    row sequence holds a row with id -1; and when a pending row exists,
    [createNew], with or without a position, changes nothing: the sequence,
    the row objects and the channels stay as they are and no second pending
    row appears. *)
Theorem single_pending_row :
  (forall ds : TableDataSource, reachable ds -> (pendingRows ds <= 1)%nat)
  /\ (forall (ds : TableDataSource) (insertAt : option Z),
        existsNewElement (heap ds) (rowsSubject ds) = true ->
        createNew insertAt ds = ds).
Proof.
  split.
  - intros ds Hreach. by apply reachable_pending.
  - intros ds insertAt Hexists. unfold createNew. by rewrite Hexists.
Qed.

Lemma single_pending_row_witness :
  (pendingRows (createNew (Some 1%Z) pendingSource) <= 1)%nat
  /\ createNew (Some 1) pendingSource = pendingSource.
Proof.
  split.
  - apply (proj1 single_pending_row). apply reach_createNew, reachable_pendingSource.
  - apply (proj2 single_pending_row). reflexivity.
Defined.

(** ** Numbering by the mode: what holds *)

(** *** The constructor numbers the rows by the mode *)

Lemma omap_rowId_allocated (pre h : list TableElement) :
  omap (rowId (pre ++ h)) (seq (length pre) (length h)) = map id h.
Proof.
  revert pre. induction h as [|row h IH]; intros pre; [done |].
  simpl. unfold rowId at 1. rewrite list_lookup_middle by done. simpl.
  f_equal. specialize (IH (pre ++ [row])).
  rewrite <- app_assoc, length_app in IH. simpl in IH.
  by replace (length pre + 1)%nat with (S (length pre)) in IH by lia.
Qed.

Lemma ids_getRowsFromData (cfg : Config) (service : FormGroup) (data : list Obj) :
  map id (getRowsFromData cfg service data) =
    map (fun i => getRowIdFromIndex cfg (Z.of_nat i) (Z.of_nat (length data)))
        (seq 0 (length data)).
Proof.
  apply list_eq. intros i. unfold getRowsFromData.
  rewrite !list_lookup_fmap, list_lookup_imap.
  destruct (decide (i < length data)%nat) as [Hi|Hi].
  - rewrite lookup_seq_lt by done.
    destruct (lookup_lt_is_Some_2 data i Hi) as [record ->]. done.
  - rewrite lookup_seq_ge, (lookup_ge_None_2 data) by lia. done.
Qed.

Lemma filter_all {A : Type} (p : A -> bool) (l : list A) :
  Forall (fun x => p x = true) l -> List.filter p l = l.
Proof.
  induction 1 as [|x l Hx _ IH]; [done |].
  simpl. by rewrite Hx, IH.
Qed.

Lemma descending_reverse (n : nat) :
  map (fun i => Z.of_nat n - 1 - Z.of_nat i) (seq 0 n) = reverse (ascending n).
Proof.
  apply list_eq. intros i. unfold ascending.
  destruct (decide (i < n)%nat) as [Hi|Hi].
  - rewrite reverse_lookup by (rewrite length_map, length_seq; lia).
    rewrite length_map, length_seq, !list_lookup_fmap, !lookup_seq_lt by lia.
    simpl. f_equal. lia.
  - rewrite !(lookup_ge_None_2 _ i); [done | |].
    + rewrite length_reverse, length_map, length_seq. lia.
    + rewrite length_map, length_seq. lia.
Qed.

(** The constructor leaves the rows numbered by the mode: upwards from 0 in
    append mode, downwards to 0 in prepend mode. *)
Lemma constructor_numbered data dataType service options ds :
  new_TableDataSource data dataType service options = Built ds ->
  numberedByMode ds /\ contiguousIds ds.
Proof.
  intros Hbuilt.
  destruct (new_TableDataSource_rows _ _ _ _ _ Hbuilt) as [Hh Hr].
  assert (Hids : committedIds ds =
                 map (fun i => getRowIdFromIndex (config ds) (Z.of_nat i)
                                 (Z.of_nat (length data)))
                     (seq 0 (length data))).
  { unfold committedIds. rewrite Hr.
    pose proof (omap_rowId_allocated [] (heap ds)) as Homap. simpl in Homap.
    rewrite Homap, Hh, ids_getRowsFromData.
    apply filter_all, Forall_fmap, Forall_seq. intros i Hi. simpl.
    apply negb_true_iff, Z.eqb_neq, getRowIdFromIndex_committed. lia. }
  assert (Hnumbered : numberedByMode ds).
  { unfold numberedByMode. rewrite Hids, length_map, length_seq.
    unfold getRowIdFromIndex.
    destruct (prependNewElements (config ds)); [apply descending_reverse | done]. }
  split; [done |].
  unfold contiguousIds. unfold numberedByMode in Hnumbered. rewrite Hnumbered at 1.
  destruct (prependNewElements (config ds)); [apply reverse_Permutation | done].
Qed.

(** *** [move] in the two modes *)

Lemma moveItemInArray_Permutation {A : Type} (l : list A) (fromIndex toIndex : Z) :
  moveItemInArray l fromIndex toIndex ≡ₚ l.
Proof.
  unfold moveItemInArray.
  destruct (_ =? _); [done |].
  destruct (l !! _) as [target|] eqn:Htarget; [| done].
  etrans; [| symmetry; exact (delete_Permutation l _ target Htarget)].
  rewrite <- Permutation_middle. by rewrite take_drop.
Qed.

Lemma move_state (target direction : Z) (ds : TableDataSource) :
  direction <> 0 ->
  let index := getIndexFromRowId (heap ds) target (rowsSubject ds) in
  let source' := moveItemInArray (rowsSubject ds) index (index + direction) in
  rowsSubject (move target direction ds) = source'
  /\ heap (move target direction ds) = updateRowIds (config ds) 0 source' (heap ds).
Proof.
  intros Hdir. simpl. unfold move.
  destruct (direction =? 0) eqn:Hzero; zbool; [done |].
  by destruct (target =? -1).
Qed.

(** In append mode [move] numbers every committed row of a duplicate-free
    sequence by its index. *)
Lemma move_append_renumbers (target direction : Z) (ds : TableDataSource)
    (i ref : nat) (v : Z) :
  prependNewElements (config ds) = false ->
  direction <> 0 ->
  NoDup (rowsSubject ds) ->
  rowsSubject (move target direction ds) !! i = Some ref ->
  rowId (heap ds) ref = Some v ->
  v <> -1 ->
  rowId (heap (move target direction ds)) ref = Some (Z.of_nat i).
Proof.
  intros Hmode Hdir Hnodup Hi Hv Hcommitted.
  destruct (move_state target direction ds Hdir) as [Hr Hh].
  rewrite Hr in Hi. rewrite Hh.
  rewrite (updateRowIds_spec _ _ _ _ i ref v); try done;
    [| by rewrite moveItemInArray_Permutation].
  apply lookup_lt_Some in Hi.
  unfold visits, getRowIdFromIndex. rewrite Hmode.
  repeat match goal with
         | |- context [?a <? ?b] => destruct (Z.ltb_spec a b)
         | |- context [?a <=? ?b] => destruct (Z.leb_spec a b)
         | |- context [?a >=? ?b] => rewrite (Z.geb_leb a b)
         | |- context [?a =? ?b] => destruct (Z.eqb_spec a b)
         end; simpl; try done; lia.
Qed.

(** In prepend mode [move] leaves the id of every row after the first as
    it was. *)
Lemma move_prepend_keeps (target direction : Z) (ds : TableDataSource)
    (i ref : nat) (v : Z) :
  prependNewElements (config ds) = true ->
  direction <> 0 ->
  NoDup (rowsSubject ds) ->
  rowsSubject (move target direction ds) !! i = Some ref ->
  rowId (heap ds) ref = Some v ->
  (0 < i)%nat ->
  rowId (heap (move target direction ds)) ref = Some v.
Proof.
  intros Hmode Hdir Hnodup Hi Hv Hpos.
  destruct (move_state target direction ds Hdir) as [Hr Hh].
  rewrite Hr in Hi. rewrite Hh.
  rewrite (updateRowIds_spec _ _ _ _ i ref v); try done;
    [| by rewrite moveItemInArray_Permutation].
  unfold visits. rewrite Hmode.
  repeat match goal with
         | |- context [?a <? ?b] => destruct (Z.ltb_spec a b)
         | |- context [?a <=? ?b] => destruct (Z.leb_spec a b)
         | |- context [?a >=? ?b] => rewrite (Z.geb_leb a b)
         end; simpl; try done; lia.
Qed.

(** *** [delete] in append mode *)

Lemma splice_remove_sublist {A : Type} (index : Z) (l : list A) :
  splice index 1 [] l `sublist_of` l.
Proof.
  unfold splice. simpl.
  set (s := relativeIndex index (length l)).
  set (dc := Z.to_nat _). clearbody dc. clearbody s.
  rewrite <- (take_drop s l) at 3.
  apply sublist_app; [done |].
  rewrite <- drop_drop. apply sublist_drop.
Qed.

Lemma delete_state (target : Z) (ds : TableDataSource) :
  let index := getIndexFromRowId (heap ds) target (rowsSubject ds) in
  let source' := splice index 1 [] (rowsSubject ds) in
  rowsSubject (delete_ target ds) = source'
  /\ heap (delete_ target ds) = updateRowIds (config ds) index source' (heap ds).
Proof. simpl. unfold delete_. by destruct (target =? -1). Qed.

(** In append mode [delete] numbers every committed row from the removed
    index on by its new index. *)
Lemma delete_append_renumbers (target : Z) (ds : TableDataSource)
    (i ref : nat) (v : Z) :
  prependNewElements (config ds) = false ->
  NoDup (rowsSubject ds) ->
  rowsSubject (delete_ target ds) !! i = Some ref ->
  rowId (heap ds) ref = Some v ->
  v <> -1 ->
  0 <= getIndexFromRowId (heap ds) target (rowsSubject ds) <= Z.of_nat i ->
  rowId (heap (delete_ target ds)) ref = Some (Z.of_nat i).
Proof.
  intros Hmode Hnodup Hi Hv Hcommitted Hindex.
  destruct (delete_state target ds) as [Hr Hh].
  rewrite Hr in Hi. rewrite Hh.
  rewrite (updateRowIds_spec _ _ _ _ i ref v); try done;
    [| by eapply sublist_NoDup; [| apply splice_remove_sublist]].
  apply lookup_lt_Some in Hi.
  unfold visits, getRowIdFromIndex. rewrite Hmode.
  repeat match goal with
         | |- context [?a <? ?b] => destruct (Z.ltb_spec a b)
         | |- context [?a <=? ?b] => destruct (Z.leb_spec a b)
         | |- context [?a >=? ?b] => rewrite (Z.geb_leb a b)
         | |- context [?a =? ?b] => destruct (Z.eqb_spec a b)
         end; simpl; try done; lia.
Qed.

(** Deleting the row at the last index renumbers nothing, in either mode:
    the loop starts past the end of the shortened array. *)
Lemma delete_last_keeps (target : Z) (ds : TableDataSource) :
  getIndexFromRowId (heap ds) target (rowsSubject ds)
    = Z.of_nat (length (rowsSubject ds)) - 1 ->
  heap (delete_ target ds) = heap ds.
Proof.
  intros Hindex.
  destruct (delete_state target ds) as [_ Hh].
  rewrite Hh, Hindex. unfold updateRowIds.
  apply updateRowIds_loop_outside.
  destruct (rowsSubject ds) as [|first rest] eqn:Hrows; [left; simpl; lia |].
  right. unfold splice, relativeIndex.
  destruct (_ <? 0) eqn:Hneg; zbool; [simpl in Hneg; lia |].
  rewrite !length_app, length_take, length_drop. simpl length. lia.
Qed.

(** *** Where the numbering is lost *)

Lemma not_contiguous_missing (l : list Z) (i : Z) :
  In i (ascending (length l)) -> ~ In i l -> ~ l ≡ₚ ascending (length l).
Proof.
  intros Hin Hnot Hperm. apply Hnot.
  eapply Permutation_in; [symmetry; exact Hperm | exact Hin].
Qed.

(** C1: in prepend mode the renumbering walks from the given index down to
    index 0, so [move], which starts it at index 0, renumbers one row only,
    and [delete] of the last row, which starts it past the end, renumbers
    none.  From the three rows numbered 2, 1, 0, moving row 2 one place
    down leaves the ids 2, 2, 0, and deleting row 0 leaves the ids 2, 1:
    neither is 0..count-1 in any order.  In append mode, moving a row past
    the pending row numbers it by its index and leaves the ids 0, 1, 3. *)
Theorem ids_not_renumbered :
  (reachable (move 2 1 prependSource)
   /\ ids prependSource = [Some 2; Some 1; Some 0]
   /\ ids (move 2 1 prependSource) = [Some 2; Some 2; Some 0]
   /\ ~ contiguousIds (move 2 1 prependSource))
  /\ (reachable (delete_ 0 prependSource)
      /\ ids (delete_ 0 prependSource) = [Some 2; Some 1]
      /\ ~ contiguousIds (delete_ 0 prependSource))
  /\ (reachable (move 2 1 pendingSource)
      /\ ids pendingSource = [Some 0; Some 1; Some 2; Some (-1)]
      /\ ids (move 2 1 pendingSource) = [Some 0; Some 1; Some (-1); Some 3]
      /\ ~ contiguousIds (move 2 1 pendingSource)).
Proof.
  pose proof reachable_prependSource as Hprepend.
  pose proof reachable_pendingSource as Hpending.
  split; [| split].
  - split; [by apply reach_move |]. do 2 (split; [reflexivity |]).
    unfold contiguousIds.
    change (committedIds (move 2 1 prependSource)) with [2; 2; 0].
    apply (not_contiguous_missing _ 1); simpl; [tauto | lia].
  - split; [by apply reach_delete |]. split; [reflexivity |].
    unfold contiguousIds.
    change (committedIds (delete_ 0 prependSource)) with [2; 1].
    apply (not_contiguous_missing _ 0); simpl; [tauto | lia].
  - split; [by apply reach_move |]. do 2 (split; [reflexivity |]).
    unfold contiguousIds.
    change (committedIds (move 2 1 pendingSource)) with [0; 1; 3].
    apply (not_contiguous_missing _ 2); simpl; [tauto | lia].
Qed.

(** ** The constructor and the rebuilt sequence *)

(** With an array as [data] the two constructors agree. *)
Lemma TableDataSource_constructor_array (data : list Obj) (dataType : option Obj)
    (service : option FormGroup) (options : option TableDataSourceOptions) :
  TableDataSource_constructor (Some data) dataType service options
  = construction (new_TableDataSource data dataType service options).
Proof.
  unfold TableDataSource_constructor, new_TableDataSource.
  destruct dataType as [obj|]; [done |]. by destruct data.
Qed.

(** The constructor throws its own error exactly when it is given neither a
    class nor a first record to take the keys from: no class, and the data
    missing or empty.  It fails with a [TypeError] exactly when a class is
    given and the data is missing.  It builds a source exactly in the other
    cases: an array, together with a class or a first record; the source is
    then the one [new_TableDataSource] builds, which itself throws exactly
    for an empty array without a class. *)
Theorem constructor_throws_iff (dataType : option Obj)
    (service : option FormGroup) (options : option TableDataSourceOptions) :
  (forall data : option (list Obj),
     (exists message,
        TableDataSource_constructor data dataType service options = ThrowsError message)
     <-> dataType = None /\ (data = None \/ data = Some []))
  /\ (forall (data : option (list Obj)) (message : string),
        TableDataSource_constructor data dataType service options = ThrowsError message
        <-> message = noShapeError /\ dataType = None /\ (data = None \/ data = Some []))
  /\ (forall data : option (list Obj),
        TableDataSource_constructor data dataType service options = ThrowsTypeError
        <-> dataType <> None /\ data = None)
  /\ (forall data : option (list Obj),
        (exists ds, TableDataSource_constructor data dataType service options = Constructs ds)
        <-> exists arrayData,
              data = Some arrayData /\ (dataType <> None \/ arrayData <> []))
  /\ (forall (data : option (list Obj)) (ds : TableDataSource),
        TableDataSource_constructor data dataType service options = Constructs ds
        <-> exists arrayData,
              data = Some arrayData
              /\ new_TableDataSource arrayData dataType service options = Built ds)
  /\ (forall data : list Obj,
        (exists message, new_TableDataSource data dataType service options = Thrown message)
        <-> dataType = None /\ data = []).
Proof.
  assert (Hthrows : forall (data : option (list Obj)) (message : string),
             TableDataSource_constructor data dataType service options = ThrowsError message
             <-> message = noShapeError /\ dataType = None
                 /\ (data = None \/ data = Some [])).
  { intros data message. unfold TableDataSource_constructor. split.
    - destruct dataType as [obj|]; [by destruct data |].
      destruct data as [[|first rest]|]; [| done |]; intros [= <-]; tauto.
    - intros (-> & -> & [-> | ->]); done. }
  split; [| split; [exact Hthrows |]].
  { intros data. split.
    - intros [message Hmessage]. apply Hthrows in Hmessage. tauto.
    - intros Hcase. exists noShapeError. apply Hthrows. tauto. }
  split.
  { intros data. unfold TableDataSource_constructor. split.
    - destruct dataType as [obj|]; [by destruct data |].
      by destruct data as [[|first rest]|].
    - intros [Hclass ->]. by destruct dataType. }
  split.
  { intros data. unfold TableDataSource_constructor. split.
    - intros [ds Hbuilt]. destruct data as [arrayData|].
      + exists arrayData. split; [done |].
        destruct dataType as [obj|]; [by left |]. right. by destruct arrayData.
      + by destruct dataType.
    - intros (arrayData & -> & Hshape).
      destruct dataType as [obj|]; [by eexists |].
      destruct arrayData as [|first rest]; [| by eexists].
      by destruct Hshape. }
  split.
  { intros data ds. split.
    - destruct data as [arrayData|].
      + rewrite TableDataSource_constructor_array. intros Hbuilt.
        exists arrayData. split; [done |].
        by destruct (new_TableDataSource arrayData dataType service options);
          simplify_eq/=.
      + unfold TableDataSource_constructor. by destruct dataType.
    - intros (arrayData & -> & Hbuilt).
      by rewrite TableDataSource_constructor_array, Hbuilt. }
  intros data. unfold new_TableDataSource. split.
  - intros [message Hthrown].
    destruct dataType as [obj|]; [done |]. by destruct data.
  - intros [-> ->]. by eexists.
Qed.




Lemma editing_createTableElement (i : Z) (data : Obj) (fg : FormGroup) :
  editing (createTableElement (mkRowInit i false data fg)) = false
  /\ originalData (createTableElement (mkRowInit i false data fg)) = None.
Proof. done. Qed.

Lemma getRowsFromData_idle (cfg : Config) (service : FormGroup) (data : list Obj) :
  Forall (fun row => editing row = false /\ originalData row = None)
         (getRowsFromData cfg service data).
Proof.
  apply Forall_lookup_2. intros i row. unfold getRowsFromData.
  rewrite list_lookup_imap.
  destruct (data !! i) as [record|]; simpl; [| done].
  intros [= <-]. apply editing_createTableElement.
Qed.

(** The committed ids along freshly allocated rows built from [data]. *)
Lemma rebuilt_ids (cfg : Config) (service : FormGroup) (data : list Obj)
    (pre : list TableElement) :
  List.filter (fun i => negb (i =? -1))
    (omap (rowId (pre ++ getRowsFromData cfg service data))
          (seq (length pre) (length (getRowsFromData cfg service data))))
  = if prependNewElements cfg
    then reverse (ascending (length data))
    else ascending (length data).
Proof.
  rewrite omap_rowId_allocated, ids_getRowsFromData.
  rewrite filter_all.
  - unfold getRowIdFromIndex.
    destruct (prependNewElements cfg); [apply descending_reverse | done].
  - apply Forall_fmap, Forall_seq. intros i Hi. simpl.
    apply negb_true_iff, Z.eqb_neq, getRowIdFromIndex_committed. lia.
Qed.

(** The constructor wraps every record in a row of its own, in order: the
    row at index [i] is the row object made for the record at index [i],
    with the id the numbering mode gives that index, not being edited, and
    with the record patched into the validation handle, the given one or
    the default one.  None has original data, there is no pending row, and
    nothing has been published yet. *)
Theorem constructor_rows (data : list Obj) (dataType : option Obj)
    (service : option FormGroup) (options : option TableDataSourceOptions)
    (ds : TableDataSource) :
  new_TableDataSource data dataType service options = Built ds ->
  config ds = mergeConfig options
  /\ length (rowsSubject ds) = length data
  /\ NoDup (rowsSubject ds)
  /\ wellFormed ds
  /\ pendingRows ds = 0%nat
  /\ committedIds ds =
       (if prependNewElements (config ds)
        then reverse (ascending (length data))
        else ascending (length data))
  /\ Forall (fun row => editing row = false /\ originalData row = None) (heap ds)
  /\ rowsEmitted ds = [] /\ datasourceEmitted ds = [] /\ heldData ds = None
  /\ validatorService ds = default DefaultValidatorService service
  /\ length (heap ds) = length data
  /\ (forall (i : nat) (record : Obj),
        data !! i = Some record ->
        rowsSubject ds !! i = Some i
        /\ heap ds !! i =
             Some (createTableElement
                     (mkRowInit (getRowIdFromIndex (config ds) (Z.of_nat i)
                                   (Z.of_nat (length data)))
                                false record (validatorService ds)))
        /\ rowId (heap ds) i =
             Some (getRowIdFromIndex (config ds) (Z.of_nat i) (Z.of_nat (length data)))
        /\ (currentData <$> heap ds !! i)
           = Some (getRawValue (patchValue record (disable (validatorService ds))))).
Proof.
  intros Hbuilt.
  destruct (new_TableDataSource_rows _ _ _ _ _ Hbuilt) as [Hh Hr].
  destruct (new_TableDataSource_pending _ _ _ _ _ Hbuilt) as [Hwf Hpending].
  assert (Hrest : config ds = mergeConfig options
                  /\ rowsEmitted ds = [] /\ datasourceEmitted ds = []
                  /\ validatorService ds = default DefaultValidatorService service).
  { revert Hbuilt. unfold new_TableDataSource.
    destruct dataType as [obj|]; [| destruct data as [|first rest]; [done |]];
      by intros [= <-]. }
  destruct Hrest as (Hc & He & Hd & Hs).
  assert (Hlen : length (heap ds) = length data).
  { rewrite Hh. unfold getRowsFromData. apply length_imap. }
  assert (Hrow : forall (i : nat) (record : Obj),
             data !! i = Some record ->
             heap ds !! i =
               Some (createTableElement
                       (mkRowInit (getRowIdFromIndex (config ds) (Z.of_nat i)
                                     (Z.of_nat (length data)))
                                  false record (validatorService ds)))).
  { intros i record Hrecord. rewrite Hh. unfold getRowsFromData.
    rewrite list_lookup_imap, Hrecord. done. }
  split; [done |].
  split; [by rewrite Hr, length_seq |].
  split; [rewrite Hr; apply NoDup_seq |].
  do 2 (split; [done |]).
  split.
  { unfold committedIds. rewrite Hr.
    pose proof (rebuilt_ids (config ds) (validatorService ds) data []) as Hids.
    simpl in Hids. by rewrite <- Hh in Hids. }
  split; [rewrite Hh; apply getRowsFromData_idle |].
  do 2 (split; [done |]).
  split; [by eapply constructor_holds_nothing |].
  do 2 (split; [done |]).
  intros i record Hrecord.
  pose proof (lookup_lt_Some _ _ _ Hrecord) as Hi.
  split; [rewrite Hr; apply lookup_seq_lt; lia |].
  split; [by apply Hrow |].
  unfold rowId. rewrite (Hrow i record Hrecord).
  split; reflexivity.
Qed.

Lemma constructor_rows_witness :
  length (rowsSubject prependSource) = length threePersons
  /\ committedIds prependSource =
       (if prependNewElements (config prependSource)
        then reverse (ascending (length threePersons))
        else ascending (length threePersons))
  /\ rowsSubject prependSource !! 1%nat = Some 1%nat
  /\ rowId (heap prependSource) 1 = Some 1
  /\ (currentData <$> heap prependSource !! 1%nat)
     = Some (getRawValue (patchValue (person "B" 2) (disable personForm))).
Proof.
  pose proof (constructor_rows threePersons None (Some personForm) (Some prependMode)
                prependSource eq_refl)
    as (_ & Hlen & _ & _ & _ & Hids & _ & _ & _ & _ & _ & _ & Hrow).
  destruct (Hrow 1%nat (person "B" 2) eq_refl) as (Hat & _ & Hid & Hdata).
  by repeat split.
Defined.

(** When the collection is not the one held, [updateDatasource] replaces
    the whole sequence by new row objects, one per record and in order: the
    references of the new sequence all lie beyond the store as it was, and
    the row at index [i] is the row object made for the record at index
    [i], with the id the numbering mode gives that index and the record
    patched into the validation handle.  None is being edited, there is no
    pending row, and the row objects that existed are left as they were.
    The new sequence is published on the row channel; the records are
    published only if [emitEvent] is set. *)
Theorem updateDatasource_rebuilt (data : DataArray) (emitEvent : bool)
    (ds : TableDataSource) :
  differsFrom (heldData ds) data = true ->
  let ds' := updateDatasource data emitEvent ds in
  length (rowsSubject ds') = length (arrayItems data)
  /\ NoDup (rowsSubject ds')
  /\ pendingRows ds' = 0%nat
  /\ committedIds ds' =
       (if prependNewElements (config ds)
        then reverse (ascending (length (arrayItems data)))
        else ascending (length (arrayItems data)))
  /\ Forall (fun ref => rowEditing (heap ds') ref = Some false
                        /\ rowOriginalData (heap ds') ref = Some None)
            (rowsSubject ds')
  /\ (forall ref, (ref < length (heap ds))%nat -> heap ds' !! ref = heap ds !! ref)
  /\ heldData ds' = Some (arrayRef data)
  /\ datasourceEmitted ds' =
       (if emitEvent then data :: datasourceEmitted ds else datasourceEmitted ds)
  /\ rowsSubject ds' = seq (length (heap ds)) (length (arrayItems data))
  /\ length (heap ds') = (length (heap ds) + length (arrayItems data))%nat
  /\ Forall (fun ref => (length (heap ds) <= ref)%nat) (rowsSubject ds')
  /\ (forall (i : nat) (record : Obj),
        arrayItems data !! i = Some record ->
        rowsSubject ds' !! i = Some (length (heap ds) + i)%nat
        /\ heap ds' !! (length (heap ds) + i)%nat =
             Some (createTableElement
                     (mkRowInit (getRowIdFromIndex (config ds) (Z.of_nat i)
                                   (Z.of_nat (length (arrayItems data))))
                                false record (validatorService ds)))
        /\ rowId (heap ds') (length (heap ds) + i) =
             Some (getRowIdFromIndex (config ds) (Z.of_nat i)
                     (Z.of_nat (length (arrayItems data))))
        /\ (currentData <$> heap ds' !! (length (heap ds) + i)%nat)
           = Some (getRawValue (patchValue record (disable (validatorService ds)))))
  /\ rowsEmitted ds' = rowsSubject ds' :: rowsEmitted ds.
Proof.
  intros Hdiff.
  destruct (updateDatasource_rebuild data emitEvent ds Hdiff)
    as (Hheld & Hh & Hr & He & Hd).
  simpl. rewrite Hh, Hr.
  set (new := getRowsFromData (config ds) (validatorService ds) (arrayItems data)).
  assert (Hlen : length new = length (arrayItems data)) by apply length_imap.
  assert (Hrow : forall (i : nat) (record : Obj),
             arrayItems data !! i = Some record ->
             (heap ds ++ new) !! (length (heap ds) + i)%nat =
               Some (createTableElement
                       (mkRowInit (getRowIdFromIndex (config ds) (Z.of_nat i)
                                     (Z.of_nat (length (arrayItems data))))
                                  false record (validatorService ds)))).
  { intros i record Hrecord. rewrite lookup_app_r by lia.
    replace (length (heap ds) + i - length (heap ds))%nat with i by lia.
    unfold new, getRowsFromData. by rewrite list_lookup_imap, Hrecord. }
  split; [by rewrite length_seq |].
  split; [apply NoDup_seq |].
  split.
  { unfold pendingRows. rewrite Hh, Hr.
    apply countPending_fresh, getRowsFromData_committed. }
  split; [unfold committedIds; rewrite Hh, Hr; apply rebuilt_ids |].
  split.
  { apply Forall_seq. intros ref Href. unfold rowEditing, rowOriginalData.
    rewrite lookup_app_r by lia.
    destruct (lookup_lt_is_Some_2 new (ref - length (heap ds))) as [row Hrow']; [lia |].
    rewrite Hrow'. simpl.
    pose proof (Forall_lookup_1 _ _ _ _ (getRowsFromData_idle _ _ _) Hrow') as [-> ->].
    done. }
  split; [intros ref Href; by rewrite lookup_app_l |].
  do 2 (split; [done |]).
  split; [by rewrite Hlen |].
  split; [rewrite length_app; lia |].
  split; [apply Forall_seq; intros ref Href; lia |].
  split.
  { intros i record Hrecord.
    pose proof (lookup_lt_Some _ _ _ Hrecord) as Hi.
    split; [rewrite Hlen; apply lookup_seq_lt; lia |].
    split; [by apply Hrow |].
    unfold rowId. rewrite (Hrow i record Hrecord).
    split; reflexivity. }
  by rewrite He, Hr.
Qed.

Lemma updateDatasource_rebuilt_witness :
  let data := mkDataArray (CallerArray 0) [person "D" 4; person "E" 5] in
  let ds' := updateDatasource data false pendingSource in
  length (rowsSubject ds') = 2%nat
  /\ pendingRows ds' = 0%nat
  /\ datasourceEmitted ds' = datasourceEmitted pendingSource
  /\ rowsSubject ds' = seq (length (heap pendingSource)) 2
  /\ rowId (heap ds') (length (heap pendingSource) + 1) = Some 1
  /\ (currentData <$> heap ds' !! (length (heap pendingSource) + 1)%nat)
     = Some (getRawValue
               (patchValue (person "E" 5) (disable (validatorService pendingSource)))).
Proof.
  intros data ds'.
  pose proof (updateDatasource_rebuilt data false pendingSource eq_refl)
    as (Hlen & _ & Hpending & _ & _ & _ & _ & Hd & Hrows & _ & _ & Hrow & _).
  destruct (Hrow 1%nat (person "E" 5) eq_refl) as (_ & _ & Hid & Hdata).
  by repeat split.
Defined.

(** ** The published records and the held collection *)

Lemma updateDatasourceFromRows_heldLatest (rows : list nat) (ds : TableDataSource) :
  heldLatest (updateDatasourceFromRows rows ds).
Proof. unfold heldLatest. by eexists _, _. Qed.

Lemma heldLatest_no_rebuild (ds : TableDataSource) :
  heldLatest ds ->
  exists d rest,
    datasourceEmitted ds = d :: rest
    /\ forall emitEvent, updateDatasource d emitEvent ds = ds.
Proof.
  intros (d & rest & Hd & Hheld). exists d, rest. split; [done |].
  intros emitEvent. unfold updateDatasource. by rewrite Hheld, differsFrom_held.
Qed.

(** After an operation has published records, handing the published
    collection back to [updateDatasource] changes nothing: it is the
    collection the source holds.  This covers [delete] and [move] of a row
    other than the pending one, both confirm operations when they succeed,
    and [updateDatasource] itself when it publishes. *)
Theorem published_collection_no_rebuild :
  let accepted ds :=
    exists d rest,
      datasourceEmitted ds = d :: rest
      /\ forall emitEvent, updateDatasource d emitEvent ds = ds in
  (forall target ds, target <> -1 -> accepted (delete_ target ds))
  /\ (forall target direction ds,
        target <> -1 -> direction <> 0 -> accepted (move target direction ds))
  /\ (forall row ds ds', confirmCreate row ds = Some (true, ds') -> accepted ds')
  /\ (forall row ds ds', confirmEdit row ds = Some (true, ds') -> accepted ds')
  /\ (forall data ds,
        differsFrom (heldData ds) data = true -> accepted (updateDatasource data true ds)).
Proof.
  simpl. repeat split.
  - intros target ds Hne. apply heldLatest_no_rebuild. unfold delete_.
    destruct (target =? -1) eqn:Heq; zbool; [done |].
    apply updateDatasourceFromRows_heldLatest.
  - intros target direction ds Hne Hdir. apply heldLatest_no_rebuild. unfold move.
    destruct (direction =? 0) eqn:Hzero; zbool; [done |].
    destruct (target =? -1) eqn:Heq; zbool; [done |].
    apply updateDatasourceFromRows_heldLatest.
  - intros row ds ds'. unfold confirmCreate.
    destruct (heap ds !! row) as [r|]; simpl; [| done].
    destruct (isValid r) as [valid r1]. destruct valid; simpl; [| done].
    intros [= <-]. apply heldLatest_no_rebuild, updateDatasourceFromRows_heldLatest.
  - intros row ds ds'. unfold confirmEdit.
    destruct (heap ds !! row) as [r|]; simpl; [| done].
    destruct (isValid r) as [valid r1]. destruct valid; simpl; [| done].
    intros [= <-]. apply heldLatest_no_rebuild, updateDatasourceFromRows_heldLatest.
  - intros data ds Hdiff. apply heldLatest_no_rebuild.
    destruct (updateDatasource_rebuild data true ds Hdiff) as (Hheld & _ & _ & _ & Hd).
    by exists data, (datasourceEmitted ds).
Qed.

Lemma published_collection_no_rebuild_witness :
  exists d rest,
    datasourceEmitted (delete_ 1 appendSource) = d :: rest
    /\ forall emitEvent,
         updateDatasource d emitEvent (delete_ 1 appendSource) = delete_ 1 appendSource.
Proof.
  apply (proj1 published_collection_no_rebuild 1 appendSource). lia.
Defined.

(** ** Looking rows up by id *)

Lemma findIndex_first {A : Type} (p : A -> bool) (l : list A) (j : nat) (y : A) :
  Z.of_nat j < findIndex p l -> l !! j = Some y -> p y = false.
Proof.
  revert j. induction l as [|x l IH]; intros j; simpl; [done |].
  destruct (p x) eqn:Hx; [lia |].
  destruct (findIndex p l <? 0) eqn:Hneg; zbool; [lia |].
  destruct j as [|j]; simpl; [by intros _ [= <-] |].
  intros Hj. apply IH. lia.
Qed.

Lemma findIndex_none_Forall {A : Type} (p : A -> bool) (l : list A) :
  findIndex p l < 0 -> Forall (fun x => p x = false) l.
Proof.
  induction l as [|x l IH]; simpl; [done |].
  destruct (p x) eqn:Hx; [lia |].
  destruct (findIndex p l <? 0) eqn:Hneg; zbool; [| lia].
  intros _. constructor; [done | by apply IH].
Qed.

Lemma findIndex_exists {A : Type} (p : A -> bool) (l : list A) (x : A) :
  x ∈ l -> p x = true -> 0 <= findIndex p l.
Proof.
  intros Hin Hx.
  destruct (decide (0 <= findIndex p l)) as [|Hneg]; [done |].
  pose proof (findIndex_none_Forall p l ltac:(lia)) as Hnone.
  rewrite Forall_forall in Hnone. specialize (Hnone x Hin). congruence.
Qed.

(** [getRow(id)] gives the first row of the sequence that has the id, and
    null exactly when no row of the sequence has it. *)
Theorem getRow_first (target : Z) (ds : TableDataSource) :
  match getRow target ds with
  | Some ref =>
      exists i : nat,
        rowsSubject ds !! i = Some ref
        /\ rowId (heap ds) ref = Some target
        /\ forall (j ref' : nat),
             (j < i)%nat -> rowsSubject ds !! j = Some ref' ->
             rowId (heap ds) ref' <> Some target
  | None =>
      Forall (fun ref => rowId (heap ds) ref <> Some target) (rowsSubject ds)
  end.
Proof.
  assert (Hno : forall ref, hasId (heap ds) target ref = false ->
                            rowId (heap ds) ref <> Some target).
  { intros ref. unfold hasId. destruct (rowId (heap ds) ref) as [v|]; [| done].
    intros Hv [= ->]. zbool. done. }
  unfold getRow, getIndexFromRowId.
  pose proof (findIndex_upper (hasId (heap ds) target) (rowsSubject ds)) as Hupper.
  destruct (findIndex _ _ >=? 0) eqn:Hge; zbool; simpl.
  - destruct (findIndex _ _ <? _) eqn:Hlt; zbool; [| lia].
    destruct (findIndex_found (hasId (heap ds) target) (rowsSubject ds) Hge)
      as (ref & Href & Hid).
    rewrite Href. exists (Z.to_nat (findIndex (hasId (heap ds) target) (rowsSubject ds))).
    split; [done |]. split.
    + unfold hasId in Hid. destruct (rowId (heap ds) ref) as [v|]; [| done].
      zbool. by subst.
    + intros j ref' Hj Href'. apply Hno.
      apply (findIndex_first _ (rowsSubject ds) j); [lia | done].
  - eapply Forall_impl;
      [apply (findIndex_none_Forall (hasId (heap ds) target)); lia |].
    intros ref Href. by apply Hno.
Qed.

(** ** A new pending row *)

Lemma elem_of_splice {A : Type} (index deleteCount : Z) (items l : list A) (x : A) :
  x ∈ splice index deleteCount items l -> x ∈ items \/ x ∈ l.
Proof.
  unfold splice. rewrite !elem_of_app.
  intros [Hx | [Hx | Hx]]; [right | by left | right].
  - apply elem_of_take in Hx as (i & Hi & _). by eapply list_elem_of_lookup_2.
  - apply list_elem_of_lookup_1 in Hx as (i & Hi). rewrite lookup_drop in Hi.
    by eapply list_elem_of_lookup_2.
Qed.

Lemma length_splice_insert {A : Type} (index : Z) (items l : list A) :
  length (splice index 0 items l) = (length items + length l)%nat.
Proof.
  unfold splice.
  assert (Hs : (relativeIndex index (length l) <= length l)%nat).
  { unfold relativeIndex. destruct (index <? 0) eqn:Hneg; zbool; lia. }
  set (s := relativeIndex index (length l)) in *. clearbody s.
  replace (Z.to_nat (Z.min (Z.max 0 0) (Z.of_nat (length l) - Z.of_nat s)))
    with 0%nat by lia.
  rewrite Nat.add_0_r, !length_app, length_take, length_drop. lia.
Qed.

Lemma createTableElement_pending (obj : Obj) (fg : FormGroup) :
  let row := createTableElement (mkRowInit (-1) true obj fg) in
  id row = -1 /\ editing row = true /\ originalData row = None.
Proof.
  simpl. repeat split.
  unfold editing, createTableElement, new_TableElementReactiveForms. simpl.
  unfold patchValue, fg_enabled, fg_disabled, enable, computeStatus. simpl.
  destruct (validatorFn fg (rawValue fg)); simpl;
    by match goal with |- context [validatorFn fg ?v] => destruct (validatorFn fg v) end.
Qed.

(** On a source without a pending row [createNew] adds one row object, which
    is pending, being edited and without original data, and puts it into
    the sequence once: at the given position when there is one other than
    0, else at the front in prepend mode and at the end in append mode.  The
    row object is a new one, built around [createNewObject()]: the store
    grows by exactly that object, and its reference was not in the sequence
    before.  The row objects that existed are untouched, [getRow(-1)] finds
    the new row, and the new sequence is published on the row channel
    only. *)
Theorem createNew_adds_pending (insertAt : option Z) (ds : TableDataSource) :
  wellFormed ds ->
  existsNewElement (heap ds) (rowsSubject ds) = false ->
  let ds' := createNew insertAt ds in
  let new := length (heap ds) in
  rowsSubject ds' =
    (if truthy insertAt then splice (default 0 insertAt) 0 [new] (rowsSubject ds)
     else if prependNewElements (config ds) then new :: rowsSubject ds
     else rowsSubject ds ++ [new])
  /\ length (rowsSubject ds') = S (length (rowsSubject ds))
  /\ heap ds' =
       heap ds ++ [createTableElement
                     (mkRowInit (-1) true (createNewObject ds) (validatorService ds))]
  /\ length (heap ds') = S (length (heap ds))
  /\ (new ∉ rowsSubject ds)
  /\ rowId (heap ds') new = Some (-1)
  /\ rowEditing (heap ds') new = Some true
  /\ rowOriginalData (heap ds') new = Some None
  /\ (forall ref, (ref < length (heap ds))%nat -> heap ds' !! ref = heap ds !! ref)
  /\ getRow (-1) ds' = Some new
  /\ rowsEmitted ds' = rowsSubject ds' :: rowsEmitted ds
  /\ datasourceEmitted ds' = datasourceEmitted ds
  /\ heldData ds' = heldData ds.
Proof.
  intros Hwf Hnone. simpl.
  set (newElement :=
         createTableElement (mkRowInit (-1) true (createNewObject ds) (validatorService ds))).
  set (new := length (heap ds)).
  set (rows' := if truthy insertAt then splice (default 0 insertAt) 0 [new] (rowsSubject ds)
                else if prependNewElements (config ds) then new :: rowsSubject ds
                else rowsSubject ds ++ [new]).
  assert (Hstate : rowsSubject (createNew insertAt ds) = rows'
                   /\ heap (createNew insertAt ds) = heap ds ++ [newElement]
                   /\ rowsEmitted (createNew insertAt ds) = rows' :: rowsEmitted ds
                   /\ datasourceEmitted (createNew insertAt ds) = datasourceEmitted ds
                   /\ heldData (createNew insertAt ds) = heldData ds).
  { unfold createNew, rows'. rewrite Hnone. simpl.
    destruct (truthy insertAt); [done |].
    by destruct (prependNewElements (config ds)). }
  destruct Hstate as (Hr & Hh & He & Hd & Hheld).
  pose proof (createTableElement_pending (createNewObject ds) (validatorService ds))
    as (Hid & Hediting & Horiginal).
  assert (Hlookup : (heap ds ++ [newElement]) !! new = Some newElement).
  { by rewrite list_lookup_middle. }
  assert (Hin : new ∈ rows').
  { unfold rows'. destruct (truthy insertAt); [| destruct (prependNewElements _)].
    - unfold splice. rewrite !elem_of_app. right. left. by apply list_elem_of_singleton.
    - by left.
    - apply elem_of_app. right. by apply list_elem_of_singleton. }
  assert (Hold : forall x, x ∈ rows' -> x = new \/ x ∈ rowsSubject ds).
  { intros x. unfold rows'.
    destruct (truthy insertAt); [| destruct (prependNewElements _)].
    - intros Hx. apply elem_of_splice in Hx as [Hx | Hx]; [left | by right].
      by apply list_elem_of_singleton in Hx.
    - intros Hx. apply elem_of_cons in Hx. tauto.
    - intros Hx. apply elem_of_app in Hx as [Hx | Hx]; [by right | left].
      by apply list_elem_of_singleton in Hx. }
  rewrite Hr, Hh, He, Hd, Hheld.
  split; [done |]. split.
  { unfold rows'. destruct (truthy insertAt); [| destruct (prependNewElements _)].
    - by rewrite length_splice_insert.
    - done.
    - rewrite length_app. simpl. lia. }
  split; [done |].
  split; [rewrite length_app; simpl; lia |].
  split.
  { intros Hrow. unfold wellFormed in Hwf. rewrite Forall_forall in Hwf.
    specialize (Hwf new Hrow). unfold new in Hwf. lia. }
  split; [unfold rowId; rewrite Hlookup;
          exact (f_equal Some Hid) |].
  split; [unfold rowEditing; rewrite Hlookup;
          exact (f_equal Some Hediting) |].
  split; [unfold rowOriginalData; rewrite Hlookup;
          exact (f_equal Some Horiginal) |].
  split; [intros ref Href; by rewrite lookup_app_l |].
  split; [| done].
  (* the lookup of -1 finds the new row, the only pending one *)
  unfold getRow, getIndexFromRowId. rewrite Hr, Hh.
  set (p := hasId (heap ds ++ [newElement]) (-1)).
  assert (Hp : p new = true).
  { unfold p, hasId, rowId. rewrite Hlookup.
    change (match Some (id newElement) with Some i => i =? -1 | None => false end = true).
    fold newElement in Hid. by rewrite Hid. }
  pose proof (findIndex_exists p rows' new Hin Hp) as Hge.
  pose proof (findIndex_upper p rows') as Hlt.
  destruct (findIndex_found p rows' Hge) as (ref & Href & Hpending).
  destruct (findIndex p rows' >=? 0) eqn:Hge'; zbool; [| lia].
  destruct (findIndex p rows' <? Z.of_nat (length rows')) eqn:Hlt'; zbool; [| lia].
  simpl. rewrite Href. f_equal.
  destruct (Hold ref) as [-> | Hrow]; [by eapply list_elem_of_lookup_2 | done |].
  exfalso. apply existsNewElement_false in Hnone.
  assert (Href' : (ref < length (heap ds))%nat).
  { unfold wellFormed in Hwf. rewrite Forall_forall in Hwf. by apply Hwf. }
  unfold p in Hpending. rewrite hasId_allocated in Hpending by done.
  unfold countPending in Hnone. apply length_zero_iff_nil in Hnone.
  assert (Hfilter : In ref (List.filter (hasId (heap ds) (-1)) (rowsSubject ds))).
  { apply filter_In. split; [by apply list_elem_of_In | done]. }
  rewrite Hnone in Hfilter. done.
Qed.

Lemma createNew_adds_pending_witness :
  getRow (-1) (createNew (Some 1) prependSource) = Some (length (heap prependSource))
  /\ length (rowsSubject (createNew (Some 1) prependSource))
     = S (length (rowsSubject prependSource))
  /\ length (heap (createNew (Some 1) prependSource)) = S (length (heap prependSource))
  /\ length (heap prependSource) ∉ rowsSubject prependSource.
Proof.
  assert (Hwf : wellFormed prependSource).
  { apply (reachable_pending prependSource), reachable_prependSource. }
  pose proof (createNew_adds_pending (Some 1) prependSource Hwf eq_refl)
    as (_ & Hlen & _ & Hheap & Hfresh & _ & _ & _ & _ & Hget & _).
  by repeat split.
Defined.

(** ** What the confirm operations do to a valid row *)

(** On a row that is valid, [confirmCreate] returns true, gives the row
    the id [length - 1], ends its editing, keeps its data, and records the
    data as original data if the policy asks for it.  No other row object
    and no place of the sequence changes; the sequence is published on the
    row channel and the records of the committed rows on the record-output
    channel, once each. *)
Theorem confirmCreate_valid (row : nat) (ds : TableDataSource) (r : TableElement) :
  heap ds !! row = Some r ->
  (isValid r).1 = true ->
  exists ds' r',
    confirmCreate row ds = Some (true, ds')
    /\ heap ds' !! row = Some r'
    /\ id r' = Z.of_nat (length (rowsSubject ds)) - 1
    /\ editing r' = false
    /\ currentData r' = currentData r
    /\ originalData r' =
         (if keepOriginalDataAfterConfirm (config ds)
          then Some (currentData r) else originalData r)
    /\ (forall other, other <> row -> heap ds' !! other = heap ds !! other)
    /\ rowsSubject ds' = rowsSubject ds
    /\ rowsEmitted ds' = rowsSubject ds :: rowsEmitted ds
    /\ datasourceEmitted ds' =
         mkDataArray (OwnArray (ownArrays ds))
                     (getDataFromRows (config ds) (heap ds') (rowsSubject ds))
           :: datasourceEmitted ds.
Proof.
  intros Hrow Hvalid.
  pose proof (isValid_row r) as Hsame.
  unfold confirmCreate. rewrite Hrow. simpl.
  destruct (isValid r) as [valid r1]; simpl in *; subst valid r1.
  rewrite list_insert_id, with_heap_same by done. simpl.
  destruct (keepOriginalDataAfterConfirm (config ds)); simpl;
    (eexists _, _; split; [reflexivity |]); simpl;
    rewrite !list_lookup_alter_eq, Hrow; simpl;
    (split; [reflexivity |]); simpl;
    repeat split; try done;
    intros other Hother; by rewrite !list_lookup_alter_ne.
Qed.

Lemma confirmCreate_valid_witness :
  exists ds' r',
    confirmCreate 3 pendingContact = Some (true, ds')
    /\ heap ds' !! 3%nat = Some r'
    /\ id r' = 3
    /\ editing r' = false.
Proof.
  destruct (confirmCreate_valid 3 pendingContact _ eq_refl eq_refl)
    as (ds' & r' & Hc & Hr & Hid & He & _).
  by exists ds', r'.
Defined.

(** On a row that is valid, [confirmEdit] returns true, ends the row's
    editing, keeps its id and data, and drops its original data unless the
    policy keeps it.  The first place of the sequence whose row has the
    same id takes this row (no place when there is none); no other row
    object changes, and both channels get one publication. *)
Theorem confirmEdit_valid (row : nat) (ds : TableDataSource) (r : TableElement) :
  heap ds !! row = Some r ->
  (isValid r).1 = true ->
  exists ds' r',
    confirmEdit row ds = Some (true, ds')
    /\ heap ds' !! row = Some r'
    /\ id r' = id r
    /\ editing r' = false
    /\ currentData r' = currentData r
    /\ originalData r' =
         (if keepOriginalDataAfterConfirm (config ds) then originalData r else None)
    /\ (forall other, other <> row -> heap ds' !! other = heap ds !! other)
    /\ rowsSubject ds' =
         assignIndex (getIndexFromRowId (heap ds) (id r) (rowsSubject ds)) row
                     (rowsSubject ds)
    /\ rowsEmitted ds' = rowsSubject ds' :: rowsEmitted ds
    /\ datasourceEmitted ds' =
         mkDataArray (OwnArray (ownArrays ds))
                     (getDataFromRows (config ds) (heap ds') (rowsSubject ds'))
           :: datasourceEmitted ds.
Proof.
  intros Hrow Hvalid.
  pose proof (isValid_row r) as Hsame.
  unfold confirmEdit. rewrite Hrow. simpl.
  destruct (isValid r) as [valid r1]; simpl in *; subst valid r1.
  rewrite list_insert_id, with_heap_same by done. simpl.
  destruct (keepOriginalDataAfterConfirm (config ds)); simpl;
    (eexists _, _; split; [reflexivity |]); simpl;
    rewrite !list_lookup_alter_eq, Hrow; simpl;
    (split; [reflexivity |]); simpl;
    repeat split; try done;
    intros other Hother; by rewrite !list_lookup_alter_ne.
Qed.

Lemma confirmEdit_valid_witness :
  exists ds' r',
    confirmEdit 1 appendSource = Some (true, ds')
    /\ heap ds' !! 1%nat = Some r'
    /\ id r' = 1
    /\ editing r' = false
    /\ rowsSubject ds' = rowsSubject appendSource.
Proof.
  destruct (confirmEdit_valid 1 appendSource _ eq_refl eq_refl)
    as (ds' & r' & Hc & Hr & Hid & He & _ & _ & _ & Hrows & _).
  exists ds', r'. repeat split; try done.
Defined.

(** ** The records published by a confirmed creation *)

Lemma alter_lookup_insert {A : Type} (f : A -> A) (i : nat) (x : A) (l : list A) :
  l !! i = Some x -> alter f i l = <[i := f x]> l.
Proof.
  intros Hx. apply list_eq. intros j.
  destruct (decide (i = j)) as [<-|Hne].
  - rewrite list_lookup_alter_eq, Hx, list_lookup_insert_eq; [done |].
    by eapply lookup_lt_Some.
  - by rewrite list_lookup_alter_ne, list_lookup_insert_ne.
Qed.

(** The state after a successful [confirmCreate], in closed form. *)
Lemma confirmCreate_success (row : nat) (ds : TableDataSource) (r : TableElement) :
  heap ds !! row = Some r ->
  (isValid r).1 = true ->
  confirmCreate row ds =
    Some (true,
          updateDatasourceFromRows (rowsSubject ds)
            (rowsSubject_next (rowsSubject ds)
               (with_heap
                  (<[row := createConfirmed (config ds) (length (rowsSubject ds)) r]>
                     (heap ds))
                  ds))).
Proof.
  intros Hrow Hvalid.
  pose proof (isValid_row r) as Hsame.
  assert (Hlt : (row < length (heap ds))%nat) by (by eapply lookup_lt_Some).
  unfold confirmCreate. rewrite Hrow. simpl.
  destruct (isValid r) as [valid r1]; simpl in *; subst valid r1.
  rewrite list_insert_id, with_heap_same by done. simpl.
  unfold createConfirmed.
  rewrite (alter_lookup_insert _ row r (heap ds) Hrow).
  destruct (keepOriginalDataAfterConfirm (config ds)); simpl.
  - rewrite (alter_lookup_insert _ row _ (<[row := _]> (heap ds)))
      by (by apply list_lookup_insert_eq).
    rewrite list_insert_insert_eq.
    rewrite (alter_lookup_insert _ row _ (<[row := _]> (heap ds)))
      by (by apply list_lookup_insert_eq).
    by rewrite list_insert_insert_eq.
  - rewrite (alter_lookup_insert _ row _ (<[row := _]> (heap ds)))
      by (by apply list_lookup_insert_eq).
    by rewrite list_insert_insert_eq.
Qed.

Lemma getDataFromRows_app (cfg : Config) (h : list TableElement) (l1 l2 : list nat) :
  getDataFromRows cfg h (l1 ++ l2) = getDataFromRows cfg h l1 ++ getDataFromRows cfg h l2.
Proof. unfold getDataFromRows. by rewrite omap_app, List.filter_app, map_app. Qed.

Lemma getDataFromRows_ext (cfg : Config) (h h' : list TableElement) (l : list nat) :
  Forall (fun ref => h' !! ref = h !! ref) l ->
  getDataFromRows cfg h' l = getDataFromRows cfg h l.
Proof.
  unfold getDataFromRows. intros Hsame. do 2 f_equal.
  induction Hsame as [|ref l Href _ IH]; [done |].
  csimpl. by rewrite Href, IH.
Qed.

Lemma rowData_createConfirmed (cfg : Config) (count : nat) (r : TableElement) :
  rowData cfg (createConfirmed cfg count r) = rowData cfg r.
Proof.
  unfold rowData, createConfirmed.
  destruct (keepOriginalDataAfterConfirm cfg) eqn:Hkeep; simpl.
  - by destruct (originalData r).
  - done.
Qed.

(** When a valid row of the sequence is confirmed as created, the record
    collection published is made of the records of the committed rows before
    it, its own record, and the records of the committed rows after it, in
    sequence order. *)
Theorem confirmCreate_publishes_record (row : nat) (ds : TableDataSource)
    (r : TableElement) (before after : list nat) :
  heap ds !! row = Some r ->
  (isValid r).1 = true ->
  rowsSubject ds = before ++ row :: after ->
  row ∉ before -> row ∉ after ->
  exists ds',
    confirmCreate row ds = Some (true, ds')
    /\ datasourceEmitted ds' =
         mkDataArray (OwnArray (ownArrays ds))
           (getDataFromRows (config ds) (heap ds) before
              ++ rowData (config ds) r
              :: getDataFromRows (config ds) (heap ds) after)
           :: datasourceEmitted ds.
Proof.
  intros Hrow Hvalid Hrows Hbefore Hafter.
  eexists. split; [by apply confirmCreate_success |].
  assert (Hlt : (row < length (heap ds))%nat) by (by eapply lookup_lt_Some).
  set (r' := createConfirmed (config ds) (length (rowsSubject ds)) r).
  assert (Hother : forall l, row ∉ l ->
            getDataFromRows (config ds) (<[row := r']> (heap ds)) l
            = getDataFromRows (config ds) (heap ds) l).
  { intros l Hl. apply getDataFromRows_ext, Forall_forall. intros ref Href.
    apply list_lookup_insert_ne. intros ->. done. }
  simpl. do 2 f_equal.
  rewrite Hrows at 1.
  change (row :: after) with ([row] ++ after).
  rewrite !getDataFromRows_app, (Hother before Hbefore), (Hother after Hafter).
  do 2 f_equal.
  unfold getDataFromRows. simpl. rewrite list_lookup_insert_eq by done. simpl.
  assert (Hid : (id r' =? -1) = false).
  { apply Z.eqb_neq. unfold r', createConfirmed. simpl. rewrite Hrows, length_app. simpl.
    destruct (keepOriginalDataAfterConfirm (config ds)); simpl; lia. }
  unfold r', createConfirmed in Hid. simpl in Hid. rewrite Hid. simpl.
  f_equal. apply rowData_createConfirmed.
Qed.

Lemma confirmCreate_publishes_record_witness :
  exists r,
    heap pendingContact !! 3%nat = Some r
    /\ exists ds',
         confirmCreate 3 pendingContact = Some (true, ds')
         /\ datasourceEmitted ds' =
              mkDataArray (OwnArray (ownArrays pendingContact))
                (getDataFromRows (config pendingContact) (heap pendingContact) [0; 1; 2]%nat
                   ++ rowData (config pendingContact) r
                   :: getDataFromRows (config pendingContact) (heap pendingContact) [])
                :: datasourceEmitted pendingContact.
Proof.
  eexists. split; [reflexivity |].
  apply (confirmCreate_publishes_record 3 pendingContact _ [0; 1; 2]%nat []);
    try reflexivity.
  - intros Hin. apply list_elem_of_In in Hin. simpl in Hin. lia.
  - intros Hin. apply list_elem_of_In in Hin. done.
Defined.

(** ** [confirmEdit] and the ids *)

Lemma rowId_alter_keep (f : TableElement -> TableElement) (i x : nat)
    (h : list TableElement) :
  (forall r, id (f r) = id r) -> rowId (alter f i h) x = rowId h x.
Proof.
  intros Hf. unfold rowId.
  destruct (decide (i = x)) as [->|Hne].
  - rewrite list_lookup_alter_eq. destruct (h !! x); simpl; [by rewrite Hf | done].
  - by rewrite list_lookup_alter_ne.
Qed.

Lemma hasId_rowId (h : list TableElement) (target : Z) (ref : nat) :
  hasId h target ref = true <-> rowId h ref = Some target.
Proof.
  unfold hasId. destruct (rowId h ref) as [v|]; [| done].
  split; [intros Hv; zbool; by subst | intros [= ->]; apply Z.eqb_refl].
Qed.

(** [confirmEdit], whatever it returns, changes no id of any row object,
    and the ids read along the sequence stay the same, as does its length.
    When the confirmed row is the only row of the sequence with its id, or
    no row of the sequence has that id, the sequence itself stays the same. *)
Theorem confirmEdit_keeps_ids (row : nat) (ds : TableDataSource) (r : TableElement)
    (result : bool) (ds' : TableDataSource) :
  heap ds !! row = Some r ->
  confirmEdit row ds = Some (result, ds') ->
  (forall x, rowId (heap ds') x = rowId (heap ds) x)
  /\ ids ds' = ids ds
  /\ length (rowsSubject ds') = length (rowsSubject ds)
  /\ ((forall ref, ref ∈ rowsSubject ds -> rowId (heap ds) ref = Some (id r) -> ref = row)
      -> rowsSubject ds' = rowsSubject ds).
Proof.
  intros Hrow Hconfirm.
  apply (confirmEdit_state _ _ _ _ r Hrow) in Hconfirm. simpl in Hconfirm.
  destruct result; [| by subst ds'].
  destruct Hconfirm as [Hr Hh].
  set (index := getIndexFromRowId (heap ds) (id r) (rowsSubject ds)) in *.
  assert (Hids : forall x, rowId (heap ds') x = rowId (heap ds) x).
  { intros x. rewrite Hh, rowId_alter_keep by done.
    destruct (keepOriginalDataAfterConfirm (config ds)); simpl; [done |].
    by rewrite rowId_alter_keep. }
  assert (Hfound : 0 <= index ->
            exists y, rowsSubject ds !! Z.to_nat index = Some y
                      /\ rowId (heap ds) y = Some (id r)).
  { intros Hge.
    destruct (findIndex_found (hasId (heap ds) (id r)) (rowsSubject ds) Hge)
      as (y & Hy & Hid).
    exists y. split; [done | by apply hasId_rowId]. }
  split; [done |]. split; [| split].
  - unfold ids. rewrite Hr.
    rewrite (map_ext _ _ Hids).
    unfold assignIndex. destruct (index <? 0) eqn:Hneg; zbool; [done |].
    destruct (Hfound Hneg) as (y & Hy & Hid).
    change (map (rowId (heap ds))) with (fmap (M:=list) (rowId (heap ds))).
    rewrite list_fmap_insert. apply list_insert_id.
    rewrite list_lookup_fmap, Hy. simpl. f_equal.
    rewrite Hid. unfold rowId. by rewrite Hrow.
  - rewrite Hr. unfold assignIndex. destruct (index <? 0); [done |].
    apply length_insert.
  - intros Honly. rewrite Hr. unfold assignIndex.
    destruct (index <? 0) eqn:Hneg; zbool; [done |].
    destruct (Hfound Hneg) as (y & Hy & Hid).
    apply list_insert_id. rewrite Hy. f_equal.
    apply Honly; [by eapply list_elem_of_lookup_2 | done].
Qed.

Lemma confirmEdit_keeps_ids_witness :
  exists ds',
    confirmEdit 1 appendSource = Some (true, ds')
    /\ ids ds' = ids appendSource
    /\ rowsSubject ds' = rowsSubject appendSource.
Proof.
  eexists. split; [reflexivity |].
  pose proof (confirmEdit_keeps_ids 1 appendSource _ true _ eq_refl eq_refl)
    as (_ & Hids & _ & Hrows).
  split; [exact Hids |]. apply Hrows.
  intros ref Href. apply list_elem_of_In in Href. simpl in Href.
  destruct Href as [<- | [<- | [<- | []]]]; vm_compute; congruence.
Defined.

(** ** Ids that follow the index *)

Lemma config_createNew (insertAt : option Z) (ds : TableDataSource) :
  config (createNew insertAt ds) = config ds.
Proof.
  unfold createNew. destruct (existsNewElement _ _); simpl; [done |].
  destruct (truthy insertAt); [done |]. by destruct (prependNewElements (config ds)).
Qed.

Lemma config_delete (target : Z) (ds : TableDataSource) :
  config (delete_ target ds) = config ds.
Proof. unfold delete_. by destruct (target =? -1). Qed.

Lemma config_move (target direction : Z) (ds : TableDataSource) :
  config (move target direction ds) = config ds.
Proof.
  unfold move. destruct (direction =? 0); [done |]. by destruct (target =? -1).
Qed.

Lemma config_updateDatasource (data : DataArray) (emitEvent : bool) (ds : TableDataSource) :
  config (updateDatasource data emitEvent ds) = config ds.
Proof.
  unfold updateDatasource. destruct (differsFrom _ _); [| done]. by destruct emitEvent.
Qed.

Lemma config_confirmCreate (row : nat) (ds : TableDataSource) (result : bool)
    (ds' : TableDataSource) :
  confirmCreate row ds = Some (result, ds') -> config ds' = config ds.
Proof.
  unfold confirmCreate. destruct (heap ds !! row) as [r|]; simpl; [| done].
  destruct (isValid r) as [valid r1]. destruct valid; simpl; intros [= _ <-]; [| done].
  by destruct (keepOriginalDataAfterConfirm (config ds)).
Qed.

Lemma config_confirmEdit (row : nat) (ds : TableDataSource) (result : bool)
    (ds' : TableDataSource) :
  confirmEdit row ds = Some (result, ds') -> config ds' = config ds.
Proof.
  unfold confirmEdit. destruct (heap ds !! row) as [r|]; simpl; [| done].
  destruct (isValid r) as [valid r1]. destruct valid; simpl; intros [= _ <-]; [| done].
  by destruct (keepOriginalDataAfterConfirm (config ds)).
Qed.

Lemma wellFormed_rowId (ds : TableDataSource) (j ref : nat) :
  wellFormed ds -> rowsSubject ds !! j = Some ref ->
  exists v, rowId (heap ds) ref = Some v.
Proof.
  intros Hwf Href.
  assert (Hlt : (ref < length (heap ds))%nat).
  { eapply (Forall_lookup_1 (fun ref => (ref < length (heap ds))%nat)); [exact Hwf | done]. }
  destruct (lookup_lt_is_Some_2 _ _ Hlt) as [r Hr].
  exists (id r). unfold rowId. by rewrite Hr.
Qed.

Lemma getRowIdFromIndex_inj (cfg : Config) (i j count : Z) :
  getRowIdFromIndex cfg i count = getRowIdFromIndex cfg j count -> i = j.
Proof. unfold getRowIdFromIndex. destruct (prependNewElements cfg); lia. Qed.

(** *** Rows built from records *)

Lemma rebuilt_tidy (cfg : Config) (service : FormGroup) (data : list Obj)
    (pre : list TableElement) (ds : TableDataSource) :
  config ds = cfg ->
  heap ds = pre ++ getRowsFromData cfg service data ->
  rowsSubject ds = seq (length pre) (length (getRowsFromData cfg service data)) ->
  tidy ds.
Proof.
  intros Hc Hh Hr.
  assert (Hlen : length (getRowsFromData cfg service data) = length data)
    by apply length_imap.
  unfold tidy, wellFormed, idsFollowIndex. rewrite Hh, Hr, Hc.
  split; [apply allocated_rows |]. split; [apply NoDup_seq |].
  intros j ref v Hj Hv _.
  apply lookup_seq in Hj as [-> Hj].
  unfold rowId, getRowsFromData in Hv.
  rewrite lookup_app_r, list_lookup_imap in Hv by lia.
  replace (length pre + j - length pre)%nat with j in Hv by lia.
  destruct (data !! j) as [record|]; simpl in Hv; [| done].
  injection Hv as <-. by rewrite length_seq, Hlen.
Qed.

Lemma built_tidy data dataType service options ds :
  new_TableDataSource data dataType service options = Built ds -> tidy ds.
Proof.
  intros Hbuilt.
  destruct (new_TableDataSource_rows _ _ _ _ _ Hbuilt) as [Hh Hr].
  apply (rebuilt_tidy (config ds) (validatorService ds) data []); try done.
  simpl. by rewrite <- Hh.
Qed.

Lemma updateDatasource_tidy (data : DataArray) (emitEvent : bool) (ds : TableDataSource) :
  tidy ds -> tidy (updateDatasource data emitEvent ds).
Proof.
  intros Htidy.
  destruct (differsFrom (heldData ds) data) eqn:Hdiff.
  - destruct (updateDatasource_rebuild data emitEvent ds Hdiff) as (_ & Hh & Hr & _).
    eapply rebuilt_tidy; [apply config_updateDatasource | exact Hh | exact Hr].
  - unfold updateDatasource. by rewrite Hdiff.
Qed.

(** *** [createNew] without a position *)

Lemma createNew_tidy (insertAt : option Z) (ds : TableDataSource) :
  tidy ds -> truthy insertAt = false -> tidy (createNew insertAt ds).
Proof.
  intros (Hwf & Hnodup & Hids) Hdefault.
  destruct (createNew_pending insertAt ds Hwf) as [Hwf' _].
  split; [done |].
  unfold idsFollowIndex. rewrite config_createNew.
  revert Hwf'. unfold createNew.
  destruct (existsNewElement (heap ds) (rowsSubject ds)) eqn:Hexists; simpl; [done |].
  rewrite Hdefault. intros _.
  set (newElement := createTableElement _).
  assert (Hfresh : length (heap ds) ∉ rowsSubject ds).
  { intros Hin. unfold wellFormed in Hwf. rewrite Forall_forall in Hwf.
    specialize (Hwf _ Hin). simpl in Hwf. lia. }
  assert (Hnew : rowId (heap ds ++ [newElement]) (length (heap ds)) = Some (-1)).
  { unfold rowId. by rewrite list_lookup_middle. }
  assert (Hold : forall j ref v,
            rowsSubject ds !! j = Some ref ->
            rowId (heap ds ++ [newElement]) ref = Some v ->
            v <> -1 ->
            v = getRowIdFromIndex (config ds) (Z.of_nat j)
                  (Z.of_nat (length (rowsSubject ds)))).
  { intros j ref v Hj Hv Hcommitted. apply (Hids j ref v); [done | | done].
    unfold rowId in *. rewrite lookup_app_l in Hv; [done |].
    eapply (Forall_lookup_1 (fun ref => (ref < length (heap ds))%nat)); [exact Hwf | done]. }
  destruct (prependNewElements (config ds)) eqn:Hmode; simpl.
  - split; [by apply NoDup_cons |].
    intros j ref v Hj Hv Hcommitted.
    destruct j as [|j]; simpl in Hj; [injection Hj as <-; congruence |].
    rewrite (Hold j ref v Hj Hv Hcommitted).
    unfold getRowIdFromIndex. rewrite Hmode. lia.
  - split.
    { apply NoDup_app. split; [done |]. split; [| apply NoDup_singleton].
      intros x Hx Hx'. apply list_elem_of_singleton in Hx'. by subst. }
    intros j ref v Hj Hv Hcommitted.
    destruct (decide (j < length (rowsSubject ds))%nat) as [Hlt|Hge].
    + rewrite lookup_app_l in Hj by done.
      rewrite (Hold j ref v Hj Hv Hcommitted).
      unfold getRowIdFromIndex. by rewrite Hmode.
    + rewrite lookup_app_r in Hj by lia.
      apply list_lookup_singleton_Some in Hj as [_ <-]. congruence.
Qed.

(** *** The confirm operations *)

Lemma rowId_alter_ne (f : TableElement -> TableElement) (i x : nat)
    (h : list TableElement) :
  i <> x -> rowId (alter f i h) x = rowId h x.
Proof. intros Hne. unfold rowId. by rewrite list_lookup_alter_ne. Qed.

Lemma confirmCreate_tidy (row : nat) (ds : TableDataSource) (result : bool)
    (ds' : TableDataSource) :
  tidy ds ->
  rowsSubject ds !! defaultIndex ds = Some row ->
  confirmCreate row ds = Some (result, ds') ->
  tidy ds'.
Proof.
  intros (Hwf & Hnodup & Hids) Hrow Hconfirm.
  destruct (confirmCreate_pending _ _ _ _ Hwf Hconfirm) as [Hwf' _].
  pose proof (config_confirmCreate _ _ _ _ Hconfirm) as Hc.
  apply confirmCreate_state in Hconfirm. simpl in Hconfirm.
  destruct result; [| by subst ds'].
  destruct Hconfirm as [Hr Hh].
  split; [done |]. split; [by rewrite Hr |].
  unfold idsFollowIndex. rewrite Hr, Hc, Hh.
  intros j ref v Hj Hv Hcommitted.
  destruct (decide (row = ref)) as [<-|Hne].
  - assert (j = defaultIndex ds) as -> by (by eapply NoDup_lookup).
    rewrite rowId_alter_keep in Hv by done.
    assert (Hv' : rowId (alter (set_id (Z.of_nat (length (rowsSubject ds)) - 1)) row
                           (heap ds)) row = Some v).
    { destruct (keepOriginalDataAfterConfirm (config ds)); [| done].
      by rewrite rowId_alter_keep in Hv. }
    unfold rowId in Hv'. rewrite list_lookup_alter_eq in Hv'.
    destruct (heap ds !! row) as [r|]; simpl in Hv'; [| done].
    injection Hv' as <-.
    apply lookup_lt_Some in Hrow.
    unfold defaultIndex, getRowIdFromIndex in *.
    destruct (prependNewElements (config ds)); lia.
  - apply (Hids j ref v); [done | | done].
    rewrite rowId_alter_ne in Hv by done.
    destruct (keepOriginalDataAfterConfirm (config ds));
      by rewrite ?rowId_alter_ne in Hv by done.
Qed.

Lemma confirmEdit_tidy (row i : nat) (r : TableElement) (ds : TableDataSource)
    (result : bool) (ds' : TableDataSource) :
  tidy ds ->
  rowsSubject ds !! i = Some row ->
  heap ds !! row = Some r ->
  id r <> -1 ->
  confirmEdit row ds = Some (result, ds') ->
  tidy ds'.
Proof.
  intros (Hwf & Hnodup & Hids) Hi Hrow Hcommitted Hconfirm.
  destruct (confirmEdit_pending _ _ _ _ Hwf Hconfirm) as [Hwf' _].
  pose proof (config_confirmEdit _ _ _ _ Hconfirm) as Hc.
  apply (confirmEdit_state _ _ _ _ r Hrow) in Hconfirm. simpl in Hconfirm.
  destruct result; [| by subst ds'].
  destruct Hconfirm as [Hr Hh].
  assert (Hsame : forall x, rowId (heap ds') x = rowId (heap ds) x).
  { intros x. rewrite Hh, rowId_alter_keep by done.
    destruct (keepOriginalDataAfterConfirm (config ds)); simpl; [done |].
    by rewrite rowId_alter_keep. }
  assert (Hrows : rowsSubject ds' = rowsSubject ds).
  { rewrite Hr. unfold assignIndex.
    destruct (_ <? 0) eqn:Hneg; zbool; [done |].
    destruct (findIndex_found (hasId (heap ds) (id r)) (rowsSubject ds) Hneg)
      as (y & Hy & Hid).
    apply hasId_rowId in Hid.
    apply list_insert_id. unfold getIndexFromRowId. rewrite Hy. f_equal.
    assert (Hrid : rowId (heap ds) row = Some (id r)) by (unfold rowId; by rewrite Hrow).
    pose proof (Hids _ _ _ Hy Hid Hcommitted) as H1.
    pose proof (Hids _ _ _ Hi Hrid Hcommitted) as H2.
    rewrite H1 in H2 at 1. apply getRowIdFromIndex_inj in H2.
    assert (Z.to_nat (findIndex (hasId (heap ds) (id r)) (rowsSubject ds)) = i) as Heq by lia.
    rewrite Heq in Hy. congruence. }
  split; [done |]. split; [by rewrite Hrows |].
  unfold idsFollowIndex. rewrite Hrows, Hc.
  intros j ref v Hj Hv. rewrite Hsame in Hv. exact (Hids j ref v Hj Hv).
Qed.

(** *** [delete] and [move] *)

Lemma splice_remove_at {A : Type} (i : nat) (l : list A) :
  (i < length l)%nat -> splice (Z.of_nat i) 1 [] l = delete i l.
Proof.
  intros Hi. unfold splice, relativeIndex.
  destruct (Z.of_nat i <? 0) eqn:Hneg; zbool; [lia |].
  replace (Z.to_nat (Z.min (Z.of_nat i) (Z.of_nat (length l)))) with i by lia.
  replace (Z.to_nat (Z.min (Z.max 1 0) (Z.of_nat (length l) - Z.of_nat i))) with 1%nat by lia.
  simpl. rewrite delete_take_drop. by replace (i + 1)%nat with (S i) by lia.
Qed.

Lemma delete_tidy (target : Z) (ds : TableDataSource) :
  tidy ds ->
  prependNewElements (config ds) = false
  \/ 0 <= getIndexFromRowId (heap ds) target (rowsSubject ds)
        < Z.of_nat (length (rowsSubject ds)) - 1 ->
  tidy (delete_ target ds).
Proof.
  intros (Hwf & Hnodup & Hids) Hmode.
  destruct (delete_pending target ds Hwf) as [Hwf' _].
  destruct (delete_state target ds) as [Hr Hh].
  set (index := getIndexFromRowId (heap ds) target (rowsSubject ds)) in *.
  assert (Hnodup' : NoDup (splice index 1 [] (rowsSubject ds))).
  { eapply sublist_NoDup; [exact Hnodup | apply splice_remove_sublist]. }
  split; [done |]. split; [by rewrite Hr |].
  unfold idsFollowIndex. rewrite Hr, Hh, config_delete.
  pose proof (findIndex_lower (hasId (heap ds) target) (rowsSubject ds)) as Hlower.
  pose proof (findIndex_upper (hasId (heap ds) target) (rowsSubject ds)) as Hupper.
  fold (getIndexFromRowId (heap ds) target (rowsSubject ds)) in Hlower, Hupper.
  fold index in Hlower, Hupper.
  destruct (decide (index < 0)) as [Hneg|Hfound].
  - (* no such row: the last row goes, and only in append mode *)
    destruct Hmode as [Hmode | ?]; [| lia].
    assert (index = -1) as -> by lia.
    destruct (decide (rowsSubject ds = [])) as [Hnil|Hne].
    { rewrite Hnil. intros j ref v Hj. done. }
    rewrite (splice_last _ Hne).
    unfold updateRowIds. rewrite updateRowIds_loop_outside by lia.
    intros j ref v Hj Hv Hcommitted.
    assert (Hj' : rowsSubject ds !! j = Some ref).
    { destruct (exists_last Hne) as (l' & x & Hl). rewrite Hl in *.
      rewrite removelast_last in Hj. rewrite lookup_app_l; [done |].
      by eapply lookup_lt_Some. }
    rewrite (Hids j ref v Hj' Hv Hcommitted).
    unfold getRowIdFromIndex. by rewrite Hmode.
  - set (i := Z.to_nat index).
    assert (Hi : (i < length (rowsSubject ds))%nat) by lia.
    replace index with (Z.of_nat i) in * by lia.
    rewrite splice_remove_at in * by done.
    assert (Hlen : length (delete i (rowsSubject ds)) = (length (rowsSubject ds) - 1)%nat).
    { rewrite length_delete; [done |]. by apply lookup_lt_is_Some_2. }
    intros j ref v Hj Hv Hcommitted.
    assert (Hjlt : (j < length (rowsSubject ds) - 1)%nat).
    { rewrite <- Hlen. by eapply lookup_lt_Some. }
    assert (Hj0 : exists j0, rowsSubject ds !! j0 = Some ref
                             /\ j0 = if decide (j < i)%nat then j else S j).
    { destruct (decide (j < i)%nat).
      - exists j. by rewrite list_lookup_delete_lt in Hj.
      - exists (S j). by rewrite list_lookup_delete_ge in Hj by lia. }
    destruct Hj0 as (j0 & Hj0 & Hj0eq).
    destruct (wellFormed_rowId ds j0 ref Hwf Hj0) as [v0 Hv0].
    rewrite (updateRowIds_spec _ _ _ _ j ref v0 Hnodup' Hj Hv0) in Hv.
    injection Hv as <-.
    destruct (v0 =? -1) eqn:Hpending; zbool;
      [rewrite andb_false_r in Hcommitted; congruence |].
    rewrite andb_true_r in *.
    destruct (visits _ _ _ j) eqn:Hvisit; [done |].
    rewrite (Hids j0 ref v0 Hj0 Hv0 Hpending).
    revert Hvisit. unfold visits, getRowIdFromIndex. rewrite Hlen.
    destruct (prependNewElements (config ds)) eqn:Hprepend;
      repeat match goal with
             | |- context [?a <? ?b] => destruct (Z.ltb_spec a b)
             | |- context [?a <=? ?b] => destruct (Z.leb_spec a b)
             | |- context [?a >=? ?b] => rewrite (Z.geb_leb a b)
             end; simpl; intros Hvisit; try done;
      destruct (decide (j < i)%nat); subst j0;
      try lia; destruct Hmode as [? | ?]; try congruence; lia.
Qed.

Lemma move_tidy (target direction : Z) (ds : TableDataSource) :
  tidy ds ->
  prependNewElements (config ds) = false ->
  tidy (move target direction ds).
Proof.
  intros (Hwf & Hnodup & Hids) Hmode.
  destruct (move_pending target direction ds Hwf) as [Hwf' _].
  destruct (decide (direction = 0)) as [->|Hdir]; [done |].
  destruct (move_state target direction ds Hdir) as [Hr Hh].
  set (source' := moveItemInArray (rowsSubject ds)
                    (getIndexFromRowId (heap ds) target (rowsSubject ds))
                    (getIndexFromRowId (heap ds) target (rowsSubject ds) + direction)) in *.
  assert (Hperm : source' ≡ₚ rowsSubject ds) by apply moveItemInArray_Permutation.
  assert (Hnodup' : NoDup source') by (by rewrite Hperm).
  split; [done |]. split; [by rewrite Hr |].
  unfold idsFollowIndex. rewrite Hr, Hh, config_move.
  intros j ref v Hj Hv Hcommitted.
  assert (Hin : ref ∈ rowsSubject ds).
  { rewrite <- Hperm. by eapply list_elem_of_lookup_2. }
  apply list_elem_of_lookup_1 in Hin as [j0 Hj0].
  destruct (wellFormed_rowId ds j0 ref Hwf Hj0) as [v0 Hv0].
  rewrite (updateRowIds_spec _ _ _ _ j ref v0 Hnodup' Hj Hv0) in Hv.
  injection Hv as <-.
  apply lookup_lt_Some in Hj.
  destruct (v0 =? -1) eqn:Hpending; zbool;
    [rewrite andb_false_r in Hcommitted; congruence |].
  rewrite andb_true_r in *.
  destruct (visits _ _ _ j) eqn:Hvisit; [done |].
  exfalso. revert Hvisit. unfold visits. rewrite Hmode.
  repeat match goal with
         | |- context [?a <? ?b] => destruct (Z.ltb_spec a b)
         | |- context [?a <=? ?b] => destruct (Z.leb_spec a b)
         | |- context [?a >=? ?b] => rewrite (Z.geb_leb a b)
         end; simpl; try done; lia.
Qed.

(** As long as rows are created without a position and confirmed where
    [createNew] put them, only committed rows of the sequence are confirmed
    as edited, rows are moved in append mode only, and in prepend mode only
    rows that exist and are not the last of the sequence are deleted, the
    sequence holds distinct row objects and every committed row has the id
    that the numbering mode gives to its index: the index itself in append
    mode, and [length - 1 - index] in prepend mode. *)
Theorem orderly_ids_follow_index (ds : TableDataSource) :
  orderly ds ->
  wellFormed ds
  /\ NoDup (rowsSubject ds)
  /\ forall (j ref : nat) (v : Z),
       rowsSubject ds !! j = Some ref ->
       rowId (heap ds) ref = Some v ->
       v <> -1 ->
       v = if prependNewElements (config ds)
           then Z.of_nat (length (rowsSubject ds)) - 1 - Z.of_nat j
           else Z.of_nat j.
Proof.
  intros Horderly.
  assert (Htidy : tidy ds).
  { induction Horderly.
    - by eapply built_tidy.
    - by apply createNew_tidy.
    - by eapply confirmCreate_tidy.
    - by eapply confirmEdit_tidy.
    - by apply delete_tidy.
    - by apply move_tidy.
    - by apply updateDatasource_tidy. }
  destruct Htidy as (Hwf & Hnodup & Hids).
  split; [done |]. split; [done |]. exact Hids.
Qed.

Lemma orderly_ids_follow_index_witness :
  let ds := delete_ 2 (createNew None prependSource) in
  rowsSubject ds !! 1%nat = Some 1%nat
  /\ rowId (heap ds) 1 = Some 1
  /\ 1 = if prependNewElements (config ds)
         then Z.of_nat (length (rowsSubject ds)) - 1 - Z.of_nat 1
         else Z.of_nat 1.
Proof.
  intros ds.
  assert (Horderly : orderly ds).
  { apply orderly_delete; [| right; vm_compute; split; [discriminate | reflexivity]].
    apply orderly_createNew; [| reflexivity].
    by apply (orderly_new threePersons None (Some personForm) (Some prependMode)). }
  split; [reflexivity |]. split; [reflexivity |].
  apply (proj2 (proj2 (orderly_ids_follow_index ds Horderly)) 1%nat 1%nat 1);
    [reflexivity | reflexivity | discriminate].
Defined.

(** ** The renumbering pass, mode by mode *)

Lemma updateRowIds_loop_keeps_pending (fuel : nat) (cfg : Config) (source : list nat)
    (index : Z) (h : list TableElement) (x : nat) :
  rowId h x = Some (-1) ->
  rowId (updateRowIds_loop fuel cfg source index h) x = Some (-1).
Proof.
  revert index h. induction fuel as [|fuel IH]; intros index h Hx; simpl; [done |].
  destruct ((index <? Z.of_nat (length source)) && (index >=? 0)); [| done].
  apply IH. unfold renumberAt.
  destruct (source !! Z.to_nat index) as [ref|]; [| done].
  unfold rowId in *. destruct (decide (ref = x)) as [->|Hne].
  - rewrite list_lookup_alter_eq. destruct (h !! x) as [r|]; simpl in *; [| done].
    injection Hx as Hx.
    destruct (id r =? -1) eqn:Hid; zbool; simpl; [by rewrite Hx | done].
  - by rewrite list_lookup_alter_ne.
Qed.

(** [updateRowIds] on an array of distinct rows: the pending row keeps the
    id -1 and no committed row gets it.  In append mode the committed rows at
    the indices from [initialIndex] on get their index as id and the rows
    before keep their id; in prepend mode the committed rows at the indices
    up to [initialIndex] get [length - 1 - index], provided [initialIndex]
    is an index of the array, and all other rows keep their id. *)
Theorem updateRowIds_by_mode (cfg : Config) (initialIndex : Z) (source : list nat)
    (h : list TableElement) (i ref : nat) (v : Z) :
  NoDup source ->
  source !! i = Some ref ->
  rowId h ref = Some v ->
  let count := Z.of_nat (length source) in
  rowId (updateRowIds cfg initialIndex source h) ref =
    Some (if decide (v = -1) then -1
          else if prependNewElements cfg
          then if decide (Z.of_nat i <= initialIndex < count)
               then count - 1 - Z.of_nat i else v
          else if decide (0 <= initialIndex <= Z.of_nat i)
               then Z.of_nat i else v).
Proof.
  intros Hnodup Hi Hv. simpl.
  rewrite (updateRowIds_spec cfg initialIndex source h i ref v Hnodup Hi Hv).
  apply lookup_lt_Some in Hi. f_equal.
  unfold visits, getRowIdFromIndex.
  destruct (decide (v = -1)) as [->|Hcommitted].
  - by rewrite andb_false_r.
  - assert ((v =? -1) = false) as -> by (by apply Z.eqb_neq).
    rewrite andb_true_r.
    destruct (prependNewElements cfg);
      repeat match goal with
             | |- context [?a <? ?b] => destruct (Z.ltb_spec a b)
             | |- context [?a <=? ?b] => destruct (Z.leb_spec a b)
             | |- context [?a >=? ?b] => rewrite (Z.geb_leb a b)
             | |- context [decide ?P] => destruct (decide P)
             end; simpl; try done; lia.
Qed.

Lemma updateRowIds_by_mode_witness :
  rowId (updateRowIds (config prependSource) 1 (rowsSubject prependSource)
           (heap prependSource)) 2%nat
  = Some (if decide (0 = -1) then -1
          else if prependNewElements (config prependSource)
          then if decide (Z.of_nat 2 <= 1 < Z.of_nat (length (rowsSubject prependSource)))
               then Z.of_nat (length (rowsSubject prependSource)) - 1 - Z.of_nat 2 else 0
          else if decide (0 <= 1 <= Z.of_nat 2) then Z.of_nat 2 else 0).
Proof.
  apply (updateRowIds_by_mode (config prependSource) 1 (rowsSubject prependSource)
           (heap prependSource) 2 2 0).
  - change (rowsSubject prependSource) with (seq 0 3). apply NoDup_seq.
  - reflexivity.
  - reflexivity.
Defined.

(** The renumbering never touches the pending state of a row: a row has id
    -1 afterwards exactly when it had it before, whatever the array holds
    and wherever the pass starts; and no row object is added or dropped. *)
Theorem updateRowIds_pending_stable (cfg : Config) (initialIndex : Z)
    (source : list nat) (h : list TableElement) (x : nat) :
  length (updateRowIds cfg initialIndex source h) = length h
  /\ (rowId (updateRowIds cfg initialIndex source h) x = Some (-1)
      <-> rowId h x = Some (-1)).
Proof.
  destruct (updateRowIds_loop_noNewPending (length source) cfg source initialIndex h)
    as [Hlen Hpending].
  split; [exact Hlen |]. split.
  - intros Hx. apply hasId_rowId, Hpending, hasId_rowId, Hx.
  - apply updateRowIds_loop_keeps_pending.
Qed.

(** ** Where a moved row lands *)

Lemma clamp_inside (i : nat) (count : nat) :
  (i < count)%nat -> clamp (Z.of_nat i) (Z.of_nat count - 1) = Z.of_nat i.
Proof. unfold clamp. lia. Qed.

Lemma clamp_range (value : Z) (count : nat) :
  (0 < count)%nat -> 0 <= clamp value (Z.of_nat count - 1) < Z.of_nat count.
Proof. unfold clamp. lia. Qed.

(** [move] with direction 0 does nothing at all.  Otherwise, when the row
    with the id is at index [i], it lands at [i + direction] clamped into
    the sequence, and the other rows keep their order: with the moved row
    taken out, the sequence is the same before and after. *)
Theorem move_lands (target direction : Z) (ds : TableDataSource) (i : nat) :
  move target 0 ds = ds
  /\ (direction <> 0 ->
      getIndexFromRowId (heap ds) target (rowsSubject ds) = Z.of_nat i ->
      let count := length (rowsSubject ds) in
      let to := Z.to_nat (clamp (Z.of_nat i + direction) (Z.of_nat count - 1)) in
      let ds' := move target direction ds in
      (to < count)%nat
      /\ rowsSubject ds' !! to = rowsSubject ds !! i
      /\ delete to (rowsSubject ds') = delete i (rowsSubject ds)
      /\ length (rowsSubject ds') = count
      /\ rowsSubject ds' ≡ₚ rowsSubject ds).
Proof.
  split; [done |].
  intros Hdir Hindex. simpl.
  destruct (move_state target direction ds Hdir) as [Hr _].
  rewrite Hr, Hindex.
  pose proof (findIndex_upper (hasId (heap ds) target) (rowsSubject ds)) as Hupper.
  fold (getIndexFromRowId (heap ds) target (rowsSubject ds)) in Hupper.
  rewrite Hindex in Hupper.
  assert (Hi : (i < length (rowsSubject ds))%nat) by lia.
  pose proof (clamp_range (Z.of_nat i + direction) (length (rowsSubject ds)) ltac:(lia))
    as Hto.
  set (to := clamp (Z.of_nat i + direction) (Z.of_nat (length (rowsSubject ds)) - 1)) in *.
  split; [lia |].
  assert (Hperm := moveItemInArray_Permutation (rowsSubject ds) (Z.of_nat i)
                     (Z.of_nat i + direction)).
  split; [| split; [| split; [by rewrite Hperm | done]]].
  - unfold moveItemInArray. rewrite clamp_inside by done. fold to.
    destruct (Z.of_nat i =? to) eqn:Hsame; zbool.
    + by rewrite <- Hsame, Nat2Z.id.
    + rewrite Nat2Z.id.
      destruct (lookup_lt_is_Some_2 _ _ Hi) as [x Hx]. rewrite Hx.
      assert (Hrest : length (delete i (rowsSubject ds))
                      = (length (rowsSubject ds) - 1)%nat).
      { rewrite length_delete; [done | by eexists]. }
      rewrite lookup_app_r by (rewrite length_take; lia).
      rewrite length_take.
      by replace (Z.to_nat to - Z.to_nat to `min` length (delete i (rowsSubject ds)))%nat
        with 0%nat by lia.
  - unfold moveItemInArray. rewrite clamp_inside by done. fold to.
    destruct (Z.of_nat i =? to) eqn:Hsame; zbool.
    + by rewrite <- Hsame, Nat2Z.id.
    + rewrite Nat2Z.id.
      destruct (lookup_lt_is_Some_2 _ _ Hi) as [x Hx]. rewrite Hx.
      assert (Hrest : length (delete i (rowsSubject ds))
                      = (length (rowsSubject ds) - 1)%nat).
      { rewrite length_delete; [done | by eexists]. }
      set (rest := delete i (rowsSubject ds)) in *.
      rewrite delete_take_drop.
      rewrite take_app_le by (rewrite length_take; lia).
      rewrite take_take.
      replace (Z.to_nat to `min` Z.to_nat to)%nat with (Z.to_nat to) by lia.
      rewrite drop_app_ge by (rewrite length_take; lia).
      rewrite length_take.
      replace (S (Z.to_nat to) - Z.to_nat to `min` length rest)%nat with 1%nat by lia.
      simpl. rewrite drop_0. apply take_drop.
Qed.

Lemma move_lands_witness :
  let ds' := move 0 5 appendSource in
  rowsSubject ds' !! 2%nat = rowsSubject appendSource !! 0%nat
  /\ delete 2%nat (rowsSubject ds') = delete 0%nat (rowsSubject appendSource).
Proof.
  destruct (proj2 (move_lands 0 5 appendSource 0)) as (_ & Hland & Horder & _);
    [lia | reflexivity |].
  by split.
Defined.

(** ** The records published by a confirmed edit *)

Lemma findIndex_app_first {A : Type} (p : A -> bool) (l1 l2 : list A) (y : A) :
  Forall (fun x => p x = false) l1 -> p y = true ->
  findIndex p (l1 ++ y :: l2) = Z.of_nat (length l1).
Proof.
  intros Hl1 Hy. induction Hl1 as [|x l1 Hx _ IH]; simpl.
  - by rewrite Hy.
  - rewrite Hx, IH.
    destruct (Z.of_nat (length l1) <? 0) eqn:Hneg; zbool; lia.
Qed.

(** The state after a successful [confirmEdit], in closed form. *)
Lemma confirmEdit_success (row : nat) (ds : TableDataSource) (r : TableElement) :
  heap ds !! row = Some r ->
  (isValid r).1 = true ->
  let source' :=
    assignIndex (getIndexFromRowId (heap ds) (id r) (rowsSubject ds)) row (rowsSubject ds) in
  confirmEdit row ds =
    Some (true,
          updateDatasourceFromRows source'
            (rowsSubject_next source'
               (with_heap (<[row := editConfirmed (config ds) r]> (heap ds)) ds))).
Proof.
  intros Hrow Hvalid. simpl.
  pose proof (isValid_row r) as Hsame.
  assert (Hlt : (row < length (heap ds))%nat) by (by eapply lookup_lt_Some).
  unfold confirmEdit. rewrite Hrow. simpl.
  destruct (isValid r) as [valid r1]; simpl in *; subst valid r1.
  rewrite list_insert_id, with_heap_same by done. simpl.
  unfold editConfirmed.
  destruct (keepOriginalDataAfterConfirm (config ds)); simpl.
  - by rewrite (alter_lookup_insert _ row r (heap ds) Hrow).
  - rewrite (alter_lookup_insert _ row r (heap ds) Hrow).
    rewrite (alter_lookup_insert _ row _ (<[row := _]> (heap ds)))
      by (by apply list_lookup_insert_eq).
    by rewrite list_insert_insert_eq.
Qed.

Lemma rowData_editConfirmed (cfg : Config) (r : TableElement) :
  rowData cfg (editConfirmed cfg r) = currentData r.
Proof.
  unfold rowData, editConfirmed.
  destruct (keepOriginalDataAfterConfirm cfg) eqn:Hkeep; simpl; [| done].
  by destruct (originalData r).
Qed.

(** When a valid committed row is confirmed as edited, and no row before it
    in the sequence has its id, the sequence stays as it is and the record
    collection published has the row's current data at the row's place,
    between the records of the committed rows before and after it: the
    original data of the row is no longer what is published for it. *)
Theorem confirmEdit_publishes_record (row : nat) (ds : TableDataSource)
    (r : TableElement) (before after : list nat) :
  heap ds !! row = Some r ->
  (isValid r).1 = true ->
  id r <> -1 ->
  rowsSubject ds = before ++ row :: after ->
  row ∉ before -> row ∉ after ->
  Forall (fun ref => rowId (heap ds) ref <> Some (id r)) before ->
  exists ds',
    confirmEdit row ds = Some (true, ds')
    /\ rowsSubject ds' = rowsSubject ds
    /\ datasourceEmitted ds' =
         mkDataArray (OwnArray (ownArrays ds))
           (getDataFromRows (config ds) (heap ds) before
              ++ currentData r
              :: getDataFromRows (config ds) (heap ds) after)
           :: datasourceEmitted ds.
Proof.
  intros Hrow Hvalid Hcommitted Hrows Hbefore Hafter Hfirst.
  eexists. split; [by apply confirmEdit_success |].
  assert (Hlt : (row < length (heap ds))%nat) by (by eapply lookup_lt_Some).
  assert (Hindex : getIndexFromRowId (heap ds) (id r) (rowsSubject ds)
                   = Z.of_nat (length before)).
  { unfold getIndexFromRowId. rewrite Hrows. apply findIndex_app_first.
    - eapply Forall_impl; [exact Hfirst |]. intros ref Href. simpl in Href.
      destruct (hasId (heap ds) (id r) ref) eqn:Hid; [| done].
      by apply hasId_rowId in Hid.
    - apply hasId_rowId. unfold rowId. by rewrite Hrow. }
  assert (Hsame : assignIndex (getIndexFromRowId (heap ds) (id r) (rowsSubject ds)) row
                    (rowsSubject ds) = rowsSubject ds).
  { rewrite Hindex. unfold assignIndex.
    destruct (Z.of_nat (length before) <? 0) eqn:Hneg; zbool; [done |].
    rewrite Nat2Z.id. apply list_insert_id. rewrite Hrows. by apply list_lookup_middle. }
  rewrite Hsame. split; [done |].
  set (r' := editConfirmed (config ds) r).
  assert (Hother : forall l, row ∉ l ->
            getDataFromRows (config ds) (<[row := r']> (heap ds)) l
            = getDataFromRows (config ds) (heap ds) l).
  { intros l Hl. apply getDataFromRows_ext, Forall_forall. intros ref Href.
    apply list_lookup_insert_ne. intros ->. done. }
  simpl. do 2 f_equal.
  rewrite Hrows at 1.
  change (row :: after) with ([row] ++ after).
  rewrite !getDataFromRows_app, (Hother before Hbefore), (Hother after Hafter).
  do 2 f_equal.
  unfold getDataFromRows. simpl. rewrite list_lookup_insert_eq by done. simpl.
  assert (Hid : (id r =? -1) = false) by (by apply Z.eqb_neq).
  assert (Hid' : id r' = id r).
  { unfold r', editConfirmed. by destruct (keepOriginalDataAfterConfirm (config ds)). }
  unfold r' in Hid'. unfold editConfirmed in Hid'. simpl in Hid'.
  rewrite Hid', Hid. simpl. f_equal. apply rowData_editConfirmed.
Qed.

Lemma confirmEdit_publishes_record_witness :
  exists r,
    heap appendSource !! 1%nat = Some r
    /\ exists ds',
         confirmEdit 1 appendSource = Some (true, ds')
         /\ rowsSubject ds' = rowsSubject appendSource
         /\ datasourceEmitted ds' =
              mkDataArray (OwnArray (ownArrays appendSource))
                (getDataFromRows (config appendSource) (heap appendSource) [0%nat]
                   ++ currentData r
                   :: getDataFromRows (config appendSource) (heap appendSource) [2%nat])
                :: datasourceEmitted appendSource.
Proof.
  eexists. split; [reflexivity |].
  apply (confirmEdit_publishes_record 1 appendSource _ [0%nat] [2%nat]);
    try reflexivity.
  - vm_compute. discriminate.
  - intros Hin. apply list_elem_of_In in Hin. simpl in Hin. lia.
  - intros Hin. apply list_elem_of_In in Hin. simpl in Hin. lia.
  - repeat constructor. vm_compute. discriminate.
Defined.

(** ** The published records leave the pending row out *)

(** The record collection built from a sequence has one record for every
    place that holds a committed row and none for a place that holds a
    pending row. *)
Theorem getDataFromRows_committed (cfg : Config) (h : list TableElement)
    (rows : list nat) :
  Forall (fun ref => (ref < length h)%nat) rows ->
  (length (getDataFromRows cfg h rows) + countPending h rows = length rows)%nat
  /\ forall record, record ∈ getDataFromRows cfg h rows ->
       exists ref r, ref ∈ rows /\ h !! ref = Some r /\ id r <> -1
                     /\ record = rowData cfg r.
Proof.
  intros Hwf. split.
  - induction Hwf as [|ref rows Href _ IH]; [done |].
    rewrite countPending_cons. unfold getDataFromRows, hasId, rowId in *. csimpl.
    destruct (lookup_lt_is_Some_2 h ref Href) as [r Hr]. rewrite Hr. simpl.
    destruct (id r =? -1); simpl; simpl in IH; lia.
  - intros record Hin. unfold getDataFromRows in Hin.
    apply list_elem_of_fmap in Hin as (r & -> & Hin).
    apply list_elem_of_In, filter_In in Hin as [Hin Hid].
    apply list_elem_of_In, list_elem_of_omap in Hin as (ref & Href & Hr).
    exists ref, r. repeat split; try done.
    apply negb_true_iff in Hid. by zbool.
Qed.

Lemma getDataFromRows_committed_witness :
  (length (getDataFromRows (config pendingSource) (heap pendingSource)
             (rowsSubject pendingSource))
   + countPending (heap pendingSource) (rowsSubject pendingSource)
   = length (rowsSubject pendingSource))%nat.
Proof.
  apply getDataFromRows_committed.
  apply (reachable_pending pendingSource), reachable_pendingSource.
Defined.

(** ** The validity check and the editing state *)

(** [isValid()] judges the row's data by the handle's validators, whether
    the row is being edited or not; and reading [editing] after setting it
    gives what was set, with the id, the data and the original data left as
    they were. *)
Theorem isValid_any_editing_state (row : TableElement) (value : bool) :
  (isValid (set_editing value row)).1 = validatorFn (validator row) (currentData row)
  /\ editing (set_editing value row) = value
  /\ id (set_editing value row) = id row
  /\ currentData (set_editing value row) = currentData row
  /\ originalData (set_editing value row) = originalData row.
Proof.
  destruct row as [i fg original]. destruct fg as [v st fn].
  unfold isValid, fg_isValid, set_editing, editing, currentData, fg_enabled, fg_disabled,
    fg_valid, enable, disable, computeStatus, getRawValue.
  destruct value; simpl; destruct (fn v); simpl; done.
Qed.

(** ** The window is a part of the sequence *)

Lemma relativeIndex_bound (i : Z) (count : nat) : (relativeIndex i count <= count)%nat.
Proof. unfold relativeIndex. destruct (i <? 0) eqn:Hneg; zbool; lia. Qed.

(** Whatever range a viewer reports, the view delivers rows of the
    published sequence in their order, none twice and none invented; the
    number of rows delivered is given by the range cut to the sequence. *)
Theorem windowed_part {A : Type} (r : ListRange) (data : list A) :
  windowed r data `sublist_of` data
  /\ length (windowed r data) =
       (if start r >? 0
        then if end_ r >? start r
             then Z.to_nat (Z.min (end_ r) (Z.of_nat (length data)))
                  - Z.to_nat (Z.min (start r) (Z.of_nat (length data)))
             else length data - Z.to_nat (Z.min (start r) (Z.of_nat (length data)))
        else length data)%nat.
Proof.
  unfold windowed.
  destruct (start r >? 0) eqn:Hstart; zbool; [| done].
  assert (Hpart : forall e, slice (start r) e data `sublist_of` data).
  { intros e. unfold slice. etrans; [apply sublist_take | apply sublist_drop]. }
  destruct (end_ r >? start r) eqn:Hend; zbool; (split; [apply Hpart |]);
    unfold slice, relativeIndex;
    repeat match goal with
           | |- context [?a <? ?b] => destruct (Z.ltb_spec a b)
           end; try lia;
    rewrite length_take, length_drop; lia.
Qed.

(** ** Viewers *)

Lemma disconnect_length (v : nat) (viewers : list ViewerBinding) :
  length (disconnect v viewers) = length viewers.
Proof.
  induction viewers as [|b rest IH]; simpl; [done |].
  destruct (Nat.eqb (viewer b) v); simpl; by rewrite ?IH.
Qed.

Lemma disconnect_ranges (v : nat) (viewers : list ViewerBinding) :
  map range (disconnect v viewers) = map range viewers.
Proof.
  induction viewers as [|b rest IH]; simpl; [done |].
  destruct (Nat.eqb (viewer b) v); simpl; by rewrite ?IH.
Qed.

(** [disconnect] is idempotent, does nothing for a viewer that was never
    connected, and never removes a binding or changes a range: the views
    handed out keep delivering, windowed by the ranges as they are. *)
Theorem disconnect_idempotent {A : Type} (v : nat) (viewers : list ViewerBinding) :
  disconnect v (disconnect v viewers) = disconnect v viewers
  /\ (Forall (fun b => viewer b <> v) viewers -> disconnect v viewers = viewers)
  /\ map range (disconnect v viewers) = map range viewers
  /\ map viewer (disconnect v viewers) = map viewer viewers
  /\ forall (k : nat) (data : list A),
       deliveredTo k (disconnect v viewers) data = deliveredTo k viewers data.
Proof.
  pose proof (disconnect_ranges v viewers) as Hranges.
  repeat split.
  - clear Hranges. induction viewers as [|b rest IH]; simpl; [done |].
    destruct (Nat.eqb (viewer b) v) eqn:Hb; simpl; rewrite Hb; [done |].
    by rewrite IH.
  - intros Hnever. clear Hranges.
    induction Hnever as [|b rest Hb _ IH]; simpl; [done |].
    apply Nat.eqb_neq in Hb. by rewrite Hb, IH.
  - done.
  - clear Hranges. induction viewers as [|b rest IH]; simpl; [done |].
    destruct (Nat.eqb (viewer b) v); simpl; [done |]. by rewrite IH.
  - intros k data. unfold deliveredTo.
    assert (Hk : range <$> disconnect v viewers !! k = range <$> viewers !! k).
    { change (map range) with (fmap (M:=list) range) in Hranges.
      by rewrite <- !list_lookup_fmap, Hranges. }
    destruct (disconnect v viewers !! k), (viewers !! k); simpl in Hk; try done.
    by injection Hk as ->.
Qed.

Lemma report_nil (v : nat) (r : ListRange) : report v r [] = [].
Proof. done. Qed.

Lemma report_cons (v : nat) (r : ListRange) (b : ViewerBinding)
    (rest : list ViewerBinding) :
  report v r (b :: rest) =
    (if Nat.eqb (viewer b) v && subscription b
     then mkViewerBinding (viewer b) (subscription b) (viewChange (range b) r)
     else b) :: report v r rest.
Proof. done. Qed.

#[local] Arguments report : simpl never.

(** After a viewer that was connected once is disconnected, its reports no
    longer change the range of its view, which stays windowed by the last
    range reported before.  When the same viewer was connected twice, one
    [disconnect] closes the first subscription only and a second
    [disconnect] closes nothing more: the second view goes on following the
    viewer's reports. *)
Theorem disconnect_first_binding (v : nat) (viewers : list ViewerBinding)
    (r r' : ListRange) :
  Forall (fun b => viewer b <> v) viewers ->
  let once := report v r (connect (Some v) viewers) in
  let twice := connect (Some v) (connect (Some v) viewers) in
  let k := length viewers in
  (range <$> report v r' (disconnect v once) !! k = Some r
   /\ range <$> report v r' once !! k = Some r')
  /\ disconnect v (disconnect v twice) = disconnect v twice
  /\ subscription <$> disconnect v (disconnect v twice) !! S k = Some true
  /\ range <$> report v r' (disconnect v (disconnect v twice)) !! S k = Some r'
  /\ range <$> report v r' (disconnect v (disconnect v twice)) !! k = Some initialRange.
Proof.
  intros Hnever. simpl.
  assert (Hreport : forall x l, Forall (fun b => viewer b <> v) l ->
                                report v x l = l).
  { intros x l Hl. unfold report. induction Hl as [|b l Hb _ IH]; simpl; [done |].
    apply Nat.eqb_neq in Hb. by rewrite Hb, IH. }
  assert (Hdisc : forall l tail, Forall (fun b => viewer b <> v) l ->
                                 disconnect v (l ++ tail) = l ++ disconnect v tail).
  { intros l tail Hl. induction Hl as [|b l Hb _ IH]; simpl; [done |].
    apply Nat.eqb_neq in Hb. by rewrite Hb, IH. }
  assert (Hmap : forall x l1 l2, report v x (l1 ++ l2) = report v x l1 ++ report v x l2).
  { intros x l1 l2. unfold report. apply map_app. }
  assert (Hlen : forall x l, length (report v x l) = length l).
  { intros x l. unfold report. apply length_map. }
  assert (E1 : forall x tail, report v x (viewers ++ tail) = viewers ++ report v x tail).
  { intros x tail. by rewrite Hmap, Hreport. }
  assert (E2 : forall tail, disconnect v (viewers ++ tail) = viewers ++ disconnect v tail).
  { intros tail. by apply Hdisc. }
  unfold connect.
  rewrite <- !app_assoc. simpl.
  repeat (rewrite ?E1, ?E2, ?report_cons, ?report_nil; simpl;
          rewrite ?Nat.eqb_refl; simpl).
  repeat split.
  - rewrite list_lookup_middle by done. simpl. unfold viewChange. by destruct r.
  - rewrite list_lookup_middle by done. simpl. unfold viewChange. by destruct r'.
  - rewrite lookup_app_r by lia.
    by replace (S (length viewers) - length viewers)%nat with 1%nat by lia.
  - rewrite lookup_app_r by lia.
    replace (S (length viewers) - length viewers)%nat with 1%nat by lia.
    simpl. unfold viewChange. by destruct r'.
  - by rewrite list_lookup_middle.
Qed.

Lemma disconnect_first_binding_witness :
  let twice := connect (Some 7%nat) (connect (Some 7%nat) []) in
  subscription <$> disconnect 7 (disconnect 7 twice) !! 1%nat = Some true
  /\ range <$> report 7 (mkListRange 2 5) (disconnect 7 (disconnect 7 twice)) !! 1%nat
     = Some (mkListRange 2 5).
Proof.
  destruct (disconnect_first_binding 7 [] (mkListRange 1 3) (mkListRange 2 5))
    as (_ & _ & Hsub & Hrange & _); [constructor |].
  by split.
Defined.

Lemma disconnect_idempotent_witness :
  disconnect 3 [mkViewerBinding 1 true initialRange; mkViewerBinding 2 true initialRange]
  = [mkViewerBinding 1 true initialRange; mkViewerBinding 2 true initialRange].
Proof.
  apply (disconnect_idempotent (A:=nat) 3).
  repeat constructor; simpl; lia.
Defined.

(** ** The example component *)

(** [ngOnInit] never throws, also when the person list is undefined or
    empty, because it passes the class: it builds a source in append mode
    with one row per person, numbered from 0, whose empty record is the
    object of the class, and writes nothing to the console. *)
Theorem ngOnInit_builds (Person : Obj) (personValidator : FormGroup) (production : bool)
    (personList : option (list Obj)) :
  exists ds,
    ngOnInit Person personValidator production personList = Built ds
    /\ config ds = mkConfig false (negb production) false
    /\ createNewObject ds = Person
    /\ length (rowsSubject ds) = length (default [] personList)
    /\ committedIds ds = ascending (length (default [] personList))
    /\ pendingRows ds = 0%nat
    /\ console ds = [].
Proof.
  unfold ngOnInit.
  set (data := default [] personList).
  set (options := Some (mkOptions (Some false) (Some (negb production)) None)).
  destruct (new_TableDataSource data (Some Person) (Some personValidator) options)
    as [ds|message] eqn:Hbuilt;
    [| revert Hbuilt; unfold new_TableDataSource; simpl; done].
  exists ds.
  destruct (new_TableDataSource_rows _ _ _ _ _ Hbuilt) as [Hh Hr].
  destruct (new_TableDataSource_pending _ _ _ _ _ Hbuilt) as [_ Hpending].
  pose proof (constructor_console data (Some Person) (Some personValidator) options)
    as Hconsole.
  rewrite Hbuilt in Hconsole.
  assert (Hfields : config ds = mkConfig false (negb production) false
                    /\ dataConstructor ds = Some Person).
  { revert Hbuilt. unfold new_TableDataSource. simpl. by intros [= <-]. }
  destruct Hfields as [Hc Hd].
  assert (Hlen : length (heap ds) = length data).
  { rewrite Hh. unfold getRowsFromData. apply length_imap. }
  repeat split; try done.
  - unfold createNewObject. by rewrite Hd.
  - by rewrite Hr, length_seq.
  - unfold committedIds. rewrite Hr.
    pose proof (rebuilt_ids (config ds) (validatorService ds) data []) as Hids.
    simpl in Hids. rewrite <- Hh in Hids. rewrite Hids. by rewrite Hc.
Qed.

(** ** Deleting a row that exists *)

(** When a row of the sequence has the id, [delete] takes the first such
    row out of the sequence and leaves the others in their order; the
    pending state of every row object is as before, and in a sequence of
    distinct rows the removed row is no longer found. *)
Theorem delete_present_id (target : Z) (ds : TableDataSource) (i : nat) :
  getIndexFromRowId (heap ds) target (rowsSubject ds) = Z.of_nat i ->
  let ds' := delete_ target ds in
  exists ref,
    rowsSubject ds !! i = Some ref
    /\ rowId (heap ds) ref = Some target
    /\ rowsSubject ds' = delete i (rowsSubject ds)
    /\ S (length (rowsSubject ds')) = length (rowsSubject ds)
    /\ (forall x, rowId (heap ds') x = Some (-1) <-> rowId (heap ds) x = Some (-1))
    /\ (NoDup (rowsSubject ds) -> ref ∉ rowsSubject ds').
Proof.
  intros Hindex. simpl.
  destruct (delete_state target ds) as [Hr Hh].
  destruct (findIndex_found (hasId (heap ds) target) (rowsSubject ds)) as (ref & Href & Hid).
  { fold (getIndexFromRowId (heap ds) target (rowsSubject ds)). lia. }
  fold (getIndexFromRowId (heap ds) target (rowsSubject ds)) in Href.
  rewrite Hindex, Nat2Z.id in Href.
  assert (Hi : (i < length (rowsSubject ds))%nat) by (by eapply lookup_lt_Some).
  exists ref. rewrite Hr, Hh, Hindex, splice_remove_at by done.
  split; [done |]. split; [by apply hasId_rowId |]. split; [done |].
  split; [rewrite length_delete by (by eexists); lia |]. split.
  - intros x. split.
    + intros Hx.
      apply hasId_rowId. apply hasId_rowId in Hx. revert Hx.
      apply (updateRowIds_loop_noNewPending _ (config ds) _ (Z.of_nat i) (heap ds)).
    + apply updateRowIds_loop_keeps_pending.
  - intros Hnodup Hin.
    apply list_elem_of_lookup_1 in Hin as [j Hj].
    destruct (decide (j < i)%nat).
    + rewrite list_lookup_delete_lt in Hj by done.
      pose proof (NoDup_lookup _ _ _ _ Hnodup Hj Href). lia.
    + rewrite list_lookup_delete_ge in Hj by lia.
      pose proof (NoDup_lookup _ _ _ _ Hnodup Hj Href). lia.
Qed.

Lemma delete_present_id_witness :
  exists ref,
    rowsSubject appendSource !! 1%nat = Some ref
    /\ rowId (heap appendSource) ref = Some 1
    /\ rowsSubject (delete_ 1 appendSource) = delete 1%nat (rowsSubject appendSource).
Proof.
  destruct (delete_present_id 1 appendSource 1 eq_refl) as (ref & Href & Hid & Hrows & _).
  by exists ref.
Defined.

(** ** The position given to [createNew] *)

(** A position other than 0 is read as [splice] reads it: a position
    beyond the end puts the pending row at the end, a negative position
    counts from the end (and stops at the front), and any other position is
    the index the pending row gets, in either mode.  The rows before that
    index stay where they are and the rows from it on move up by one. *)
Theorem createNew_position (position : Z) (ds : TableDataSource) :
  existsNewElement (heap ds) (rowsSubject ds) = false ->
  position <> 0 ->
  let count := Z.of_nat (length (rowsSubject ds)) in
  let index :=
    Z.to_nat (if position <? 0 then Z.max (count + position) 0 else Z.min position count) in
  let new := length (heap ds) in
  let ds' := createNew (Some position) ds in
  rowsSubject ds' = take index (rowsSubject ds) ++ new :: drop index (rowsSubject ds)
  /\ rowsSubject ds' !! index = Some new
  /\ (forall j, (j < index)%nat -> rowsSubject ds' !! j = rowsSubject ds !! j)
  /\ (forall j, (index <= j)%nat -> rowsSubject ds' !! S j = rowsSubject ds !! j).
Proof.
  intros Hnone Hposition. simpl.
  set (index := Z.to_nat (if position <? 0
                          then Z.max (Z.of_nat (length (rowsSubject ds)) + position) 0
                          else Z.min position (Z.of_nat (length (rowsSubject ds))))).
  assert (Hindex : relativeIndex position (length (rowsSubject ds)) = index).
  { unfold relativeIndex, index. by destruct (position <? 0). }
  assert (Hle : (index <= length (rowsSubject ds))%nat).
  { rewrite <- Hindex. apply relativeIndex_bound. }
  assert (Hrows : rowsSubject (createNew (Some position) ds)
                  = take index (rowsSubject ds)
                      ++ length (heap ds) :: drop index (rowsSubject ds)).
  { unfold createNew. rewrite Hnone. simpl.
    destruct (position =? 0) eqn:Hzero; zbool; [done |]. simpl.
    unfold splice. rewrite Hindex.
    replace (Z.to_nat (Z.min (Z.max 0 0) _)) with 0%nat by lia.
    by rewrite Nat.add_0_r. }
  rewrite Hrows.
  assert (Htake : length (take index (rowsSubject ds)) = index).
  { rewrite length_take. lia. }
  split; [done |]. split; [| split].
  - rewrite lookup_app_r by lia. by rewrite Htake, Nat.sub_diag.
  - intros j Hj. rewrite lookup_app_l by lia. by apply lookup_take_lt.
  - intros j Hj. rewrite lookup_app_r by lia. rewrite Htake.
    replace (S j - index)%nat with (S (j - index)) by lia. simpl.
    rewrite lookup_drop. f_equal. lia.
Qed.

Lemma createNew_position_witness :
  rowsSubject (createNew (Some (-1)) appendSource) !! 2%nat
    = Some (length (heap appendSource))
  /\ rowsSubject (createNew (Some 9) appendSource) !! 3%nat
    = Some (length (heap appendSource)).
Proof.
  split.
  - apply (createNew_position (-1) appendSource); [reflexivity | lia].
  - apply (createNew_position 9 appendSource); [reflexivity | lia].
Defined.

(** ** What [delete] removes and publishes *)

(** C7: [delete(-1)] takes the pending row out of the sequence (the first
    row with id -1, after which, there being at most one, no pending row is
    left), publishes the sequence without it on the row channel and
    publishes nothing on the record-output channel.  [delete(id)] for any
    other id that a row has takes the first row with that id out, publishes
    the shortened sequence on the row channel and then the records of its
    committed rows on the record-output channel.  For every id the sequence
    published is the sequence that [splice] leaves, and the record-output
    channel gets a publication exactly when the id is not -1. *)
Theorem delete_publications (ds : TableDataSource) :
  (forall i : nat,
     getIndexFromRowId (heap ds) (-1) (rowsSubject ds) = Z.of_nat i ->
     let ds' := delete_ (-1) ds in
     exists ref,
       rowsSubject ds !! i = Some ref
       /\ rowId (heap ds) ref = Some (-1)
       /\ rowsSubject ds' = delete i (rowsSubject ds)
       /\ rowsEmitted ds' = delete i (rowsSubject ds) :: rowsEmitted ds
       /\ datasourceEmitted ds' = datasourceEmitted ds
       /\ ((pendingRows ds <= 1)%nat -> pendingRows ds' = 0%nat))
  /\ (forall (target : Z) (i : nat),
        target <> -1 ->
        getIndexFromRowId (heap ds) target (rowsSubject ds) = Z.of_nat i ->
        let ds' := delete_ target ds in
        exists ref,
          rowsSubject ds !! i = Some ref
          /\ rowId (heap ds) ref = Some target
          /\ rowsSubject ds' = delete i (rowsSubject ds)
          /\ rowsEmitted ds' = delete i (rowsSubject ds) :: rowsEmitted ds
          /\ datasourceEmitted ds' =
               mkDataArray (OwnArray (ownArrays ds))
                 (getDataFromRows (config ds) (heap ds') (delete i (rowsSubject ds)))
                 :: datasourceEmitted ds)
  /\ (forall target : Z,
        let ds' := delete_ target ds in
        rowsSubject ds' =
          splice (getIndexFromRowId (heap ds) target (rowsSubject ds)) 1 [] (rowsSubject ds)
        /\ rowsEmitted ds' = rowsSubject ds' :: rowsEmitted ds
        /\ datasourceEmitted ds' =
             if target =? -1 then datasourceEmitted ds
             else mkDataArray (OwnArray (ownArrays ds))
                    (getDataFromRows (config ds) (heap ds') (rowsSubject ds'))
                    :: datasourceEmitted ds).
Proof.
  assert (Hany : forall target : Z,
            rowsSubject (delete_ target ds) =
              splice (getIndexFromRowId (heap ds) target (rowsSubject ds)) 1 []
                     (rowsSubject ds)
            /\ rowsEmitted (delete_ target ds)
               = rowsSubject (delete_ target ds) :: rowsEmitted ds
            /\ datasourceEmitted (delete_ target ds) =
                 if target =? -1 then datasourceEmitted ds
                 else mkDataArray (OwnArray (ownArrays ds))
                        (getDataFromRows (config ds) (heap (delete_ target ds))
                           (rowsSubject (delete_ target ds)))
                        :: datasourceEmitted ds).
  { intros target. unfold delete_. by destruct (target =? -1). }
  assert (Hfound : forall (target : Z) (i : nat),
            getIndexFromRowId (heap ds) target (rowsSubject ds) = Z.of_nat i ->
            exists ref,
              rowsSubject ds !! i = Some ref
              /\ rowId (heap ds) ref = Some target
              /\ rowsSubject (delete_ target ds) = delete i (rowsSubject ds)).
  { intros target i Hindex.
    destruct (findIndex_found (hasId (heap ds) target) (rowsSubject ds))
      as (ref & Href & Hid).
    { fold (getIndexFromRowId (heap ds) target (rowsSubject ds)). lia. }
    fold (getIndexFromRowId (heap ds) target (rowsSubject ds)) in Href.
    rewrite Hindex, Nat2Z.id in Href.
    exists ref. split; [done |]. split; [by apply hasId_rowId |].
    rewrite (proj1 (Hany target)), Hindex. apply splice_remove_at.
    by eapply lookup_lt_Some. }
  split; [| split].
  - intros i Hindex. cbv zeta.
    destruct (Hfound (-1) i Hindex) as (ref & Href & Hid & Hrows).
    destruct (Hany (-1)) as (_ & He & Hd).
    change (-1 =? -1) with true in Hd. cbv iota in Hd.
    exists ref. rewrite He, Hrows. repeat split; try done.
    intros Hone.
    destruct (delete_state (-1) ds) as [_ Hh].
    unfold pendingRows in *. rewrite Hrows, Hh.
    pose proof (countPending_mono (heap ds)
                  (updateRowIds (config ds)
                     (getIndexFromRowId (heap ds) (-1) (rowsSubject ds))
                     (splice (getIndexFromRowId (heap ds) (-1) (rowsSubject ds)) 1 []
                        (rowsSubject ds))
                     (heap ds))
                  (delete i (rowsSubject ds))
                  (updateRowIds_loop_noNewPending _ _ _ _ _)) as Hmono.
    rewrite (countPending_delete (heap ds) i ref _ Href) in Hone.
    rewrite countPending_cons, countPending_nil in Hone.
    apply hasId_rowId in Hid. rewrite Hid in Hone. lia.
  - intros target i Hne Hindex. cbv zeta.
    destruct (Hfound target i Hindex) as (ref & Href & Hid & Hrows).
    destruct (Hany target) as (_ & He & Hd).
    destruct (target =? -1) eqn:Heq; zbool; [done |].
    exists ref. rewrite He, Hd, Hrows. repeat split; done.
  - intros target. cbv zeta. apply Hany.
Qed.

Lemma delete_publications_witness :
  (exists ref,
     rowsSubject pendingSource !! 3%nat = Some ref
     /\ rowId (heap pendingSource) ref = Some (-1)
     /\ rowsSubject (delete_ (-1) pendingSource) = delete 3%nat (rowsSubject pendingSource)
     /\ rowsEmitted (delete_ (-1) pendingSource)
        = delete 3%nat (rowsSubject pendingSource) :: rowsEmitted pendingSource
     /\ datasourceEmitted (delete_ (-1) pendingSource) = datasourceEmitted pendingSource
     /\ pendingRows (delete_ (-1) pendingSource) = 0%nat)
  /\ (exists ref,
        rowsSubject pendingSource !! 1%nat = Some ref
        /\ rowId (heap pendingSource) ref = Some 1
        /\ rowsSubject (delete_ 1 pendingSource) = delete 1%nat (rowsSubject pendingSource)).
Proof.
  destruct (delete_publications pendingSource) as (Hpending & Hcommitted & _).
  split.
  - destruct (Hpending 3%nat eq_refl) as (ref & Href & Hid & Hr & He & Hd & Hnone).
    exists ref. do 5 (split; [assumption |]). apply Hnone. vm_compute. lia.
  - destruct (Hcommitted 1 1%nat ltac:(lia) eq_refl) as (ref & Href & Hid & Hr & _).
    by exists ref.
Defined.
